(** * LAWAgent front end: a shallow embedding of the client scripts

    The three browser scripts of the repository are embedded here as pure
    functions over explicit state:

    - the shared UI script (tab groups, [activateTab]),
    - [issue-spotter.js] (form validation, [escapeHtml], rendering of
      findings and citations),
    - [witness-finder.js] (filtering, save / delete reconciliation,
      clipboard summary, form validation).

    Conventions.
    - A JavaScript string is modelled by its UTF-8 byte sequence ([string]).
      Substring search and the replacement of ASCII characters agree on
      bytes and on code points.  [trim] strips every white-space and
      line-terminator code point of the language, read off the bytes.
      [String.prototype.toLowerCase] and the message an engine gives a
      [TypeError] are parameters of the development.
    - A finite JavaScript number is a rational ([Q]); [<] on finite doubles
      is the order of the rationals.  Printing a number ([`${n}`]) is a
      parameter of the development.
    - An [async] function is cut at its [await]: the part before the network
      call (suffix [_begin]) and the continuation that runs when the call
      settles (suffix [_resume]), which receives the [outcome] of the call.
    - A page element that the script tests for [null] before use is an
      [option]; an element it dereferences without a test is taken to exist.
*)

From Stdlib Require Import Ascii String NArith QArith.
From stdpp Require Import base option list strings pretty.

Local Open Scope string_scope.
Local Open Scope list_scope.

(* ================================================================== *)
(** * Part I: definitions                                              *)
(* ================================================================== *)

(** ** JavaScript strings *)

Module JsString.

Definition code (a : ascii) : nat := nat_of_ascii a.

(** The code points that [String.prototype.trim] strips are those of
    [WhiteSpace] and [LineTerminator].  In UTF-8 they take one, two or
    three bytes. *)

Definition byteOf (a : ascii) : N := N_of_ascii a.

(** TAB, LF, VT, FF, CR, SP. *)
Definition isWhiteSpace (a : ascii) : bool :=
  let n := byteOf a in
  (((9 <=? n) && (n <=? 13)) || (n =? 32))%N.

(** U+00A0 (C2 A0). *)
Definition isWhiteSpace2 (a b : ascii) : bool :=
  ((byteOf a =? 194) && (byteOf b =? 160))%N.

(** U+1680 (E1 9A 80); U+2000 to U+200A, U+2028, U+2029, U+202F
    (E2 80 80 to 8A, A8, A9, AF); U+205F (E2 81 9F); U+3000 (E3 80 80);
    U+FEFF (EF BB BF). *)
Definition isWhiteSpace3 (a b c : ascii) : bool :=
  let x := byteOf a in
  let y := byteOf b in
  let z := byteOf c in
  (((x =? 225) && (y =? 154) && (z =? 128))
   || ((x =? 226) && (y =? 128)
       && (((128 <=? z) && (z <=? 138)) || (z =? 168) || (z =? 169) || (z =? 175)))
   || ((x =? 226) && (y =? 129) && (z =? 159))
   || ((x =? 227) && (y =? 128) && (z =? 128))
   || ((x =? 239) && (y =? 187) && (z =? 191)))%N.

(** [String.prototype.toLowerCase] on ASCII text, where it maps [A-Z] to
    [a-z] and nothing else.  It stands in for the parameter
    [String_toLowerCase] when the model is run on examples whose text is
    ASCII. *)
Definition lowerChar (a : ascii) : ascii :=
  let n := code a in
  if (65 <=? n)%nat && (n <=? 90)%nat then ascii_of_nat (n + 32) else a.

Fixpoint toLowerCaseAscii (s : string) : string :=
  match s with
  | EmptyString => EmptyString
  | String a s' => String (lowerChar a) (toLowerCaseAscii s')
  end.

Fixpoint trimStart (s : string) : string :=
  match s with
  | EmptyString => EmptyString
  | String a s1 =>
      if isWhiteSpace a then trimStart s1
      else
        match s1 with
        | EmptyString => s
        | String b s2 =>
            if isWhiteSpace2 a b then trimStart s2
            else
              match s2 with
              | EmptyString => s
              | String c s3 => if isWhiteSpace3 a b c then trimStart s3 else s
              end
        end
  end.

(** The string consists of white space only. *)
Definition allWhiteSpace (s : string) : bool :=
  match trimStart s with EmptyString => true | _ => false end.

(** [trimEnd] cuts the string where the rest is white space only. *)
Fixpoint trimEnd (s : string) : string :=
  match s with
  | EmptyString => EmptyString
  | String a s' => if allWhiteSpace s then EmptyString else String a (trimEnd s')
  end.

Definition trim (s : string) : string := trimEnd (trimStart s).

(** Reference: the white-space table of the language by code point
    (U+0009 to U+000D, U+0020, U+00A0, U+1680, U+2000 to U+200A, U+2028,
    U+2029, U+202F, U+205F, U+3000, U+FEFF), the UTF-8 encoding of a code
    point, and what trimming does to a code point according to the
    table. *)
Definition isWhiteSpaceCodePoint (cp : N) : bool :=
  (((9 <=? cp) && (cp <=? 13)) || (cp =? 32) || (cp =? 160) || (cp =? 5760)
   || ((8192 <=? cp) && (cp <=? 8202)) || (cp =? 8232) || (cp =? 8233)
   || (cp =? 8239) || (cp =? 8287) || (cp =? 12288) || (cp =? 65279))%N.

Definition utf8 (cp : N) : string :=
  let byte (n : N) := ascii_of_N n in
  (if cp <? 128 then String (byte cp) EmptyString
   else if cp <? 2048 then
     String (byte (192 + cp / 64)) (String (byte (128 + cp mod 64)) EmptyString)
   else if cp <? 65536 then
     String (byte (224 + cp / 4096))
       (String (byte (128 + (cp / 64) mod 64))
          (String (byte (128 + cp mod 64)) EmptyString))
   else
     String (byte (240 + cp / 262144))
       (String (byte (128 + (cp / 4096) mod 64))
          (String (byte (128 + (cp / 64) mod 64))
             (String (byte (128 + cp mod 64)) EmptyString))))%N.

Definition trimsAsTabulated (cp : N) : bool :=
  let u := utf8 cp in
  let ws := isWhiteSpaceCodePoint cp in
  String.eqb (trim u) (if ws then EmptyString else u)
  && String.eqb (trim (u +:+ "a" +:+ u +:+ "b" +:+ u))
       (if ws then "a" +:+ u +:+ "b" else u +:+ "a" +:+ u +:+ "b" +:+ u).

(** The byte starts none of the white-space code points. *)
Definition startsNoWhiteSpace (a : ascii) : bool :=
  let n := byteOf a in
  negb (isWhiteSpace a)
  && negb ((n =? 194) || (n =? 225) || (n =? 226) || (n =? 227) || (n =? 239))%N.

(** [P] holds of [count] code points from [cp] on. *)
Fixpoint allFrom (P : N -> bool) (cp : N) (count : nat) : bool :=
  match count with
  | O => true
  | S count' => P cp && allFrom P (N.succ cp) count'
  end.

(** [s.includes(q)]: [q] occurs in [s] as a contiguous substring. *)
Fixpoint includes (s q : string) : bool :=
  String.prefix q s
  || match s with
     | EmptyString => false
     | String _ s' => includes s' q
     end.

(** [s.replace(/c/g, r)] for a one-character pattern [c] and a replacement
    [r] without [$] patterns. *)
Fixpoint replaceAll (c : ascii) (r : string) (s : string) : string :=
  match s with
  | EmptyString => EmptyString
  | String a s' =>
      (if Ascii.eqb a c then r else String a EmptyString) +:+ replaceAll c r s'
  end.

(** [xs.join(sep)] *)
Fixpoint join (sep : string) (xs : list string) : string :=
  match xs with
  | [] => EmptyString
  | [x] => x
  | x :: rest => x +:+ sep +:+ join sep rest
  end.

(** A string is truthy when it is not empty. *)
Definition nonEmpty (s : string) : bool :=
  match s with EmptyString => false | _ => true end.

(** The characters of a string, for statements about occurrences. *)
Fixpoint chars (s : string) : list ascii :=
  match s with
  | EmptyString => []
  | String a s' => a :: chars s'
  end.

(** Reference notions, as the specification words them. *)

(** [needle] occurs in [hay]. *)
Definition contains (hay needle : string) : Prop :=
  exists pre post, hay = pre +:+ needle +:+ post.

End JsString.

(** ** A JavaScript [Map], in insertion order *)

Module JsMap.
Section JsMap.
Context {K V : Type} `{EqDecision K}.

(** [m.set(k, v)]: an existing key keeps its position and takes the new
    value; a new key is appended. *)
Fixpoint set (k : K) (v : V) (m : list (K * V)) : list (K * V) :=
  match m with
  | [] => [(k, v)]
  | (k', v') :: m' =>
      if decide (k' = k) then (k, v) :: m' else (k', v') :: set k v m'
  end.

(** [m.delete(k)] *)
Fixpoint delete (k : K) (m : list (K * V)) : list (K * V) :=
  match m with
  | [] => []
  | (k', v') :: m' =>
      if decide (k' = k) then m' else (k', v') :: delete k m'
  end.

(** [m.get(k)] *)
Fixpoint get (k : K) (m : list (K * V)) : option V :=
  match m with
  | [] => None
  | (k', v') :: m' => if decide (k' = k) then Some v' else get k m'
  end.

(** [m.has(k)] *)
Definition has (k : K) (m : list (K * V)) : bool :=
  match get k m with Some _ => true | None => false end.

(** [Array.from(m.values())] *)
Definition values (m : list (K * V)) : list V := snd <$> m.

Definition keys (m : list (K * V)) : list K := fst <$> m.

End JsMap.
End JsMap.

(** ** issue-spotter.js *)

Module IssueSpotter.
Import JsString.

(** The JSON values that reach the renderer: absent, an (integer) number
    such as a page or an offset, or a string. *)
Inductive jsval :=
| JUndefined
| JNum (n : Z)
| JStr (s : string).

Definition truthy (v : jsval) : bool :=
  match v with
  | JUndefined => false
  | JNum n => negb (n =? 0)%Z
  | JStr s => nonEmpty s
  end.

Definition toString (v : jsval) : string :=
  match v with
  | JUndefined => "undefined"
  | JNum n => pretty n
  | JStr s => s
  end.

(** [a || b] *)
Definition js_or (a b : jsval) : jsval := if truthy a then a else b.

Definition dquote : ascii := ascii_of_nat 34.

(** [escapeHtml(value)]: five global replacements, in the source's order. *)
Definition escapeHtml (value : jsval) : string :=
  replaceAll "'" "&#039;"
    (replaceAll dquote "&quot;"
       (replaceAll ">" "&gt;"
          (replaceAll "<" "&lt;"
             (replaceAll "&" "&amp;"
                (toString (js_or value (JStr EmptyString))))))).

(** Reference: the HTML entity of a character, and the string in which
    every character stands replaced by its entity. *)
Definition entity (a : ascii) : string :=
  if Ascii.eqb a "&" then "&amp;"
  else if Ascii.eqb a "<" then "&lt;"
  else if Ascii.eqb a ">" then "&gt;"
  else if Ascii.eqb a dquote then "&quot;"
  else if Ascii.eqb a "'" then "&#039;"
  else String a EmptyString.

Fixpoint escapeEach (s : string) : string :=
  match s with
  | EmptyString => EmptyString
  | String a s' => entity a +:+ escapeEach s'
  end.

(** The characters that open or close markup or an attribute value. *)
Definition markupChar (a : ascii) : bool :=
  Ascii.eqb a "<" || Ascii.eqb a ">" || Ascii.eqb a dquote || Ascii.eqb a "'".

Definition markupFree (s : string) : Prop :=
  forall a, a ∈ chars s -> markupChar a = false.

Record span := { page : jsval; start : jsval; end_ : jsval }.

Record finding := {
  issue : jsval;
  risk : jsval;
  suggestion : jsval;
  fspan : option span;
}.

Record citation := { cpage : jsval; snippet : jsval }.

(** An [<article>] built by the renderer: the heading is set through
    [textContent]; each paragraph is set through [innerHTML]. *)
Record article := {
  className : string;
  heading : option string;
  innerHTML : list string;
}.

(** What a results container holds after rendering: markup assigned to its
    own [innerHTML], or the list of appended articles. *)
Inductive container :=
| Markup (html : string)
| Articles (items : list article).

Definition bullet : string := " • ".

Definition emptyMarkup (text : string) : string :=
  "<p class=" +:+ String dquote "empty" +:+ String dquote ">" +:+ text +:+ "</p>".

Definition spanParts (s : span) : list string :=
  (if truthy (page s) then ["Page " +:+ toString (page s)] else [])
  ++ (if truthy (start s) || truthy (end_ s)
      then ["Chars " +:+ toString (js_or (start s) (JStr "?")) +:+ "-"
              +:+ toString (js_or (end_ s) (JStr "?"))]
      else []).

Definition renderFinding (index : nat) (item : finding) : article :=
  {| className := "finding";
     heading :=
       Some (toString (js_or (issue item)
                         (JStr ("Finding " +:+ pretty (index + 1)))));
     innerHTML :=
       (if truthy (risk item)
        then ["<strong>Risk:</strong> " +:+ escapeHtml (risk item)] else [])
       ++ (if truthy (suggestion item)
           then ["<strong>Suggestion:</strong> " +:+ escapeHtml (suggestion item)]
           else [])
       ++ (match fspan item with
           | Some s =>
               if truthy (page s) || truthy (start s) || truthy (end_ s)
               then ["<strong>Span:</strong> "
                       +:+ escapeHtml (JStr (join bullet (spanParts s)))]
               else []
           | None => []
           end) |}.

Definition renderFindings (items : list finding) : container :=
  match items with
  | [] => Markup (emptyMarkup "No findings returned.")
  | _ => Articles (imap renderFinding items)
  end.

Definition pageLabel (item : citation) : jsval :=
  if truthy (cpage item) then JStr ("Page " +:+ toString (cpage item))
  else JStr "Location".

Definition renderCitation (item : citation) : article :=
  {| className := "citation";
     heading := None;
     innerHTML :=
       ["<strong>" +:+ escapeHtml (pageLabel item) +:+ ":</strong> "
          +:+ escapeHtml (js_or (snippet item) (JStr EmptyString))] |}.

Definition renderCitations (items : list citation) : container :=
  match items with
  | [] => Markup (emptyMarkup "No citations returned.")
  | _ => Articles (renderCitation <$> items)
  end.

(** *** The submit handler, up to its first [await] *)

Inductive control := FileInput | TextInput | InstructionsInput.

Record errorBox := { err_textContent : string; err_hidden : bool }.

Inductive request :=
| PostUpload (instructions return_json : string) (style : option string)
    (file : string)
| PostText (text instructions : string) (style : option string)
    (return_json : bool).

Record form := {
  fileInput_files : list string;
  textInput_value : string;
  instructionsInput_value : string;
  styleSelect_value : string;
  returnJsonToggle_checked : bool;
  errorEl : option errorBox;
  statusEl : option string;
  submitBtn_disabled : bool;
  focused : option control;
  sent : list request;
}.

Definition set_errorEl (e : option errorBox) (f : form) : form :=
  {| fileInput_files := fileInput_files f; textInput_value := textInput_value f;
     instructionsInput_value := instructionsInput_value f;
     styleSelect_value := styleSelect_value f;
     returnJsonToggle_checked := returnJsonToggle_checked f;
     errorEl := e; statusEl := statusEl f;
     submitBtn_disabled := submitBtn_disabled f; focused := focused f;
     sent := sent f |}.

Definition set_statusEl (m : option string) (f : form) : form :=
  {| fileInput_files := fileInput_files f; textInput_value := textInput_value f;
     instructionsInput_value := instructionsInput_value f;
     styleSelect_value := styleSelect_value f;
     returnJsonToggle_checked := returnJsonToggle_checked f;
     errorEl := errorEl f; statusEl := m;
     submitBtn_disabled := submitBtn_disabled f; focused := focused f;
     sent := sent f |}.

Definition set_submitBtn_disabled (b : bool) (f : form) : form :=
  {| fileInput_files := fileInput_files f; textInput_value := textInput_value f;
     instructionsInput_value := instructionsInput_value f;
     styleSelect_value := styleSelect_value f;
     returnJsonToggle_checked := returnJsonToggle_checked f;
     errorEl := errorEl f; statusEl := statusEl f;
     submitBtn_disabled := b; focused := focused f;
     sent := sent f |}.

Definition focus (c : control) (f : form) : form :=
  {| fileInput_files := fileInput_files f; textInput_value := textInput_value f;
     instructionsInput_value := instructionsInput_value f;
     styleSelect_value := styleSelect_value f;
     returnJsonToggle_checked := returnJsonToggle_checked f;
     errorEl := errorEl f; statusEl := statusEl f;
     submitBtn_disabled := submitBtn_disabled f; focused := Some c;
     sent := sent f |}.

Definition fetch (r : request) (f : form) : form :=
  {| fileInput_files := fileInput_files f; textInput_value := textInput_value f;
     instructionsInput_value := instructionsInput_value f;
     styleSelect_value := styleSelect_value f;
     returnJsonToggle_checked := returnJsonToggle_checked f;
     errorEl := errorEl f; statusEl := statusEl f;
     submitBtn_disabled := submitBtn_disabled f; focused := focused f;
     sent := sent f ++ [r] |}.

Definition showError (message : string) (f : form) : form :=
  match errorEl f with
  | None => f
  | Some _ =>
      set_errorEl (Some {| err_textContent := message; err_hidden := false |}) f
  end.

Definition clearError (f : form) : form :=
  match errorEl f with
  | None => f
  | Some _ =>
      set_errorEl (Some {| err_textContent := EmptyString; err_hidden := true |}) f
  end.

Definition updateStatus (message : string) (f : form) : form :=
  match statusEl f with
  | None => f
  | Some _ => set_statusEl (Some message) f
  end.

Definition setLoading (isLoading : bool) (f : form) : form :=
  set_submitBtn_disabled isLoading f.

Definition boolString (b : bool) : string := if b then "true" else "false".

Definition submitAnalysis (hasFile : bool) (instructionsValue styleValue : string)
    (wantsJson : bool) (f : form) : form :=
  if hasFile then
    fetch (PostUpload instructionsValue (boolString wantsJson)
             (if nonEmpty styleValue then Some styleValue else None)
             (default EmptyString (head (fileInput_files f)))) f
  else
    fetch (PostText (trim (textInput_value f)) instructionsValue
             (if nonEmpty styleValue then Some styleValue else None)
             wantsJson) f.

(** The listener registered on the form's [submit] event, from its start to
    the [await] of [submitAnalysis]. *)
Definition submit_begin (f0 : form) : form :=
  let f := clearError f0 in
  let hasFile := match fileInput_files f with [] => false | _ => true end in
  let textValue := trim (textInput_value f) in
  let instructionsValue := trim (instructionsInput_value f) in
  let styleValue := styleSelect_value f in
  let wantsJson := returnJsonToggle_checked f in
  if negb hasFile && negb (nonEmpty textValue) then
    focus FileInput (showError "Upload a document or paste text to analyze." f)
  else if negb (nonEmpty instructionsValue) then
    focus InstructionsInput (showError "Instructions are required." f)
  else
    submitAnalysis hasFile instructionsValue styleValue wantsJson
      (updateStatus "Analyzing…" (setLoading true f)).

End IssueSpotter.

(** ** The shared UI script: tab groups *)

Module AppUI.
Import JsString.

(** A DOM element, with the attributes the tab controller reads and
    writes. *)
Record element := {
  id : string;
  aria_controls : option string;
  class_active : bool;
  aria_selected : option string;
  tabindex : option string;
  hidden : option string;
}.

(** The value stored in [tabGroups]: references (positions in the document)
    to the tab elements and to the panels found by [initTabs]. *)
Record group := { tabs : list nat; panels : list nat }.

(** The document, in document order, and the [tabGroups] map. *)
Record ui := {
  document : list element;
  tabGroups : list (string * group);
}.

(** [document.getElementById(x)]: the first element with that id. *)
Definition getElementById (doc : list element) (x : string) : option nat :=
  fst <$> list_find (fun e => String.eqb (id e) x = true) doc.

(** The three writes to the tab itself. *)
Definition markTab (isActive : bool) (e : element) : element :=
  {| id := id e; aria_controls := aria_controls e;
     class_active := isActive;
     aria_selected := Some (if isActive then "true" else "false");
     tabindex := Some (if isActive then "0" else "-1");
     hidden := hidden e |}.

(** The writes to the panel: the [active] class and the [hidden] attribute. *)
Definition markPanel (isActive : bool) (e : element) : element :=
  {| id := id e; aria_controls := aria_controls e;
     class_active := isActive;
     aria_selected := aria_selected e;
     tabindex := tabindex e;
     hidden := if isActive then None else Some "true" |}.

(** The body of [tabs.forEach] in [activateTab], for the tab at [t]. *)
Definition visitTab (tabId : string) (doc : list element) (t : nat) : list element :=
  match doc !! t with
  | None => doc
  | Some tab =>
      let controls := aria_controls tab in
      let panel :=
        match controls with
        | Some c => if nonEmpty c then getElementById doc c else None
        | None => None
        end in
      let isActive := String.eqb (id tab) tabId in
      let doc1 := alter (markTab isActive) t doc in
      match panel with
      | Some p => alter (markPanel isActive) p doc1
      | None => doc1
      end
  end.

Definition activateTab (groupId tabId : string) (u : ui) : ui :=
  match JsMap.get groupId (tabGroups u) with
  | None => u
  | Some g =>
      {| document := foldl (visitTab tabId) (document u) (tabs g);
         tabGroups := tabGroups u |}
  end.

(** A tab is marked active / selected. *)
Definition selected (e : element) : bool :=
  class_active e && bool_decide (aria_selected e = Some "true").

(** A panel is visible. *)
Definition visible (e : element) : bool :=
  bool_decide (hidden e = None).

(** Reference notions for the tab controller. *)

(** The position of the panel that the tab at [t] controls: what
    [activateTab] computes as [panel] for that tab. *)
Definition panelOf (doc : list element) (t : nat) : option nat :=
  match doc !! t with
  | Some tab =>
      match aria_controls tab with
      | Some c => if nonEmpty c then getElementById doc c else None
      | None => None
      end
  | None => None
  end.

Definition selectedAt (doc : list element) (t : nat) : bool :=
  match doc !! t with Some e => selected e | None => false end.

Definition visibleAt (doc : list element) (p : nat) : bool :=
  match doc !! p with Some e => visible e | None => false end.

(** A group as [initTabs] registers it on a well-formed page: every tab
    controls a panel, which [panels] lists in the order of the tabs; tabs
    and panels are pairwise distinct elements; no two tabs share an id. *)
Definition wellFormed (doc : list element) (g : group) : Prop :=
  Forall2 (fun t p => panelOf doc t = Some p) (tabs g) (panels g)
  /\ NoDup (tabs g ++ panels g)
  /\ (forall t1 t2 e1 e2,
        t1 ∈ tabs g -> t2 ∈ tabs g ->
        doc !! t1 = Some e1 -> doc !! t2 = Some e2 ->
        id e1 = id e2 -> t1 = t2).

(** What the tab controller never writes. *)
Definition shape (e : element) : string * option string :=
  (id e, aria_controls e).

(** *** Keyboard navigation and registration *)

(** [tabs.findIndex(tab => tab.id === targetId)] *)
Definition findIndex (doc : list element) (ts : list nat) (targetId : string) :
    option nat :=
  fst <$> list_find (fun t => id <$> doc !! t = Some targetId) ts.

(** What a [keydown] leaves behind: the page, the element that has the
    focus, and whether [event.preventDefault()] was called. *)
Record keyed := {
  page : ui;
  focus : option nat;
  defaultPrevented : bool;
}.

(** The index computed from [event.key]; the flag tells whether the key was
    an arrow key. *)
Definition nextIndex (key : string) (currentIndex n : nat) : nat * bool :=
  if String.eqb key "ArrowRight" || String.eqb key "ArrowDown" then
    (Z.to_nat ((Z.of_nat currentIndex + 1) mod Z.of_nat n), true)
  else if String.eqb key "ArrowLeft" || String.eqb key "ArrowUp" then
    (Z.to_nat ((Z.of_nat currentIndex - 1 + Z.of_nat n) mod Z.of_nat n), true)
  else (currentIndex, false).

(** [handleTabKeydown(event, groupId)], with [event.target.id] and
    [event.key] as arguments and the focused element as state. *)
Definition handleTabKeydown (target key groupId : string) (u : ui)
    (focused : option nat) : keyed :=
  match JsMap.get groupId (tabGroups u) with
  | None => {| page := u; focus := focused; defaultPrevented := false |}
  | Some g =>
      match findIndex (document u) (tabs g) target with
      | None => {| page := u; focus := focused; defaultPrevented := false |}
      | Some currentIndex =>
          let (next, prevented) := nextIndex key currentIndex (length (tabs g)) in
          if (next =? currentIndex)%nat then
            {| page := u; focus := focused; defaultPrevented := prevented |}
          else
            match tabs g !! next with
            | Some t =>
                {| page :=
                     activateTab groupId
                       (default EmptyString (id <$> document u !! t)) u;
                   focus := Some t;
                   defaultPrevented := prevented |}
            | None => {| page := u; focus := focused; defaultPrevented := prevented |}
            end
      end
  end.

(** A [.tablist] container: its [data-tab-group] attribute and the
    [role="tab"] elements inside it. *)
Record tablist := {
  dataset_tabGroup : option string;
  tablist_tabs : list nat;
}.

(** The group id [initTabs] gives the tablist at position [index]. *)
Definition groupIdOf (index : nat) (tl : tablist) : string :=
  match dataset_tabGroup tl with
  | Some s => if nonEmpty s then s else "tab-group-" +:+ pretty index
  | None => "tab-group-" +:+ pretty index
  end.

(** The two attributes [initTabs] sets on a tab. *)
Definition initTab (e : element) : element :=
  {| id := id e; aria_controls := aria_controls e;
     class_active := class_active e;
     aria_selected := Some (if class_active e then "true" else "false");
     tabindex := Some (if class_active e then "0" else "-1");
     hidden := hidden e |}.

(** The attribute [initTabs] sets on a panel. *)
Definition initPanel (e : element) : element :=
  {| id := id e; aria_controls := aria_controls e;
     class_active := class_active e;
     aria_selected := aria_selected e;
     tabindex := Some "0";
     hidden := hidden e |}.

(** The body of the [forEach] over the tablists; the registration of the
    click and keydown listeners is left out. *)
Definition initTablist (u : ui) (index : nat) (tl : tablist) : ui :=
  let groupId := groupIdOf index tl in
  let tabs := tablist_tabs tl in
  let panels := omap (panelOf (document u)) tabs in
  let doc1 := foldl (fun doc t => alter initTab t doc) (document u) tabs in
  let doc2 := foldl (fun doc p => alter initPanel p doc) doc1 panels in
  {| document := doc2;
     tabGroups := JsMap.set groupId {| tabs := tabs; panels := panels |}
                    (tabGroups u) |}.

Fixpoint initTabsFrom (index : nat) (tablists : list tablist) (u : ui) : ui :=
  match tablists with
  | [] => u
  | tl :: rest => initTabsFrom (S index) rest (initTablist u index tl)
  end.

(** [initTabs], given what [document.querySelectorAll('.tablist')] finds. *)
Definition initTabs (tablists : list tablist) (u : ui) : ui :=
  initTabsFrom 0 tablists u.

(** An element whose [aria-selected] and [tabindex] say what its [active]
    class says. *)
Definition mirrorsClass (e : element) : Prop :=
  aria_selected e = Some (if class_active e then "true" else "false").

End AppUI.

(** ** The shared script: copy and download buttons *)

Module AppButtons.
Import JsString.

(** The element a button points at, as far as the script reads it: a form
    control, which has a [value], or any other element, read through its
    [textContent]. *)
Inductive target :=
| Control (value : string)
| Element (textContent : string).

(** The first element of the document that carries the id. *)
Fixpoint firstWithId (doc : list (string * target)) (x : string) :
    option target :=
  match doc with
  | [] => None
  | (y, t) :: doc' => if String.eqb y x then Some t else firstWithId doc' x
  end.

(** [document.getElementById]: no element is found for the empty id, also
    when an element of the page has an empty [id] attribute. *)
Definition getElementById (doc : list (string * target)) (x : string) :
    option target :=
  if nonEmpty x then firstWithId doc x else None.

(** ['value' in target ? target.value : target.textContent || ''] *)
Definition textOf (t : target) : string :=
  match t with
  | Control value => value
  | Element textContent => if nonEmpty textContent then textContent else EmptyString
  end.

Record button := { textContent : string; disabled : bool }.

(** A button (absent when the caller passes [null]), the labels that the
    callbacks waiting on the 1600 ms timer will put back, oldest first, and
    the console. *)
Record state := {
  btn : option button;
  timers : list string;
  console : list string;
}.

(** [flashButtonState(button, message)] *)
Definition flashButtonState (message : string) (s : state) : state :=
  match btn s with
  | None => s
  | Some b =>
      let original := textContent b in
      {| btn := Some {| textContent := message; disabled := true |};
         timers := timers s ++ [original];
         console := console s |}
  end.

(** The oldest waiting callback of [setTimeout] runs. *)
Definition timeout (s : state) : state :=
  match timers s with
  | [] => s
  | original :: rest =>
      {| btn := (fun _ => {| textContent := original; disabled := false |}) <$> btn s;
         timers := rest;
         console := console s |}
  end.

(** [copyToClipboard], up to the [await]: the text handed to
    [navigator.clipboard.writeText], or [None] when there is no target. *)
Definition copyToClipboard_begin (doc : list (string * target)) (targetId : string) :
    option string :=
  match getElementById doc targetId with
  | None => None
  | Some t => Some (trim (textOf t))
  end.

(** [copyToClipboard], from the moment [writeText] settles; [error] is the
    reason of a rejection. *)
Definition copyToClipboard_resume (error : option string) (s : state) : state :=
  match error with
  | None => flashButtonState "Copied" s
  | Some e =>
      flashButtonState "Copy failed"
        {| btn := btn s; timers := timers s;
           console := console s ++ ["Copy failed " +:+ e] |}
  end.

(** [downloadContent]: the file offered to the browser, as the name given
    to the anchor and the text of the blob. *)
Definition downloadContent (doc : list (string * target)) (targetId filename : string) :
    option (string * string) :=
  match getElementById doc targetId with
  | None => None
  | Some t => Some (filename, textOf t)
  end.

(** The click listener that [initDownloadButtons] puts on an element with a
    [data-download] attribute. *)
Definition downloadClick (doc : list (string * target))
    (dataset_download : string) (dataset_downloadTarget : option string) :
    option (string * string) :=
  let filename :=
    if nonEmpty dataset_download then dataset_download else "download.txt" in
  match dataset_downloadTarget with
  | Some t => if nonEmpty t then downloadContent doc t filename else None
  | None => None
  end.

End AppButtons.

(** ** issue-spotter.js: the submit handler, after the [await] *)

Module IssueSpotterPage.
Import JsString IssueSpotter.

(** The payload of a 2xx response.  [summary] is a string or absent;
    [findings] and [citations] are [None] when they are not arrays;
    [raw_json] and [stringified] are what [JSON.stringify(..., null, 2)]
    gives for [data.raw_json] ([None] when that is absent or falsy) and for
    the whole payload. *)
Record analysis := {
  summary : option string;
  findings : option (list finding);
  citations : option (list citation);
  raw_json : option string;
  stringified : string;
}.

(** How the request settles.  [Threw]: the fetch is rejected, or the body
    of a 2xx response cannot be read or is [null]; an exception with this
    message reaches the [catch] block.  [Failed]: a response that is not a
    2xx, with its status text and the [detail] of its body ([JUndefined]
    when the body cannot be read or has none). *)
Inductive reply :=
| Threw (message : string)
| Failed (statusText : string) (detail : jsval)
| Succeeded (data : analysis).

(** The results side of the page, the tab controller when its script is
    loaded, and the console. *)
Record outputs := {
  summaryOutput : string;
  findingsOutput : container;
  citationsOutput : container;
  jsonOutput : string;
  lawAgentUI : option AppUI.ui;
  console : list string;
}.

Definition renderResults (data : analysis) (wantsJson : bool) (o : outputs) :
    outputs :=
  {| summaryOutput :=
       match summary data with
       | Some s => if nonEmpty s && nonEmpty (trim s) then trim s
                   else "No summary provided."
       | None => "No summary provided."
       end;
     findingsOutput := renderFindings (default [] (findings data));
     citationsOutput := renderCitations (default [] (citations data));
     jsonOutput :=
       if wantsJson then default (stringified data) (raw_json data)
       else "JSON output was disabled for this request.";
     lawAgentUI := lawAgentUI o;
     console := console o |}.

(** The message of the error that reaches the [catch] block. *)
Definition failureMessage (r : reply) : option string :=
  match r with
  | Threw m => Some m
  | Failed statusText detail =>
      Some (if truthy detail then toString detail
            else if nonEmpty statusText then statusText
            else "Analysis failed.")
  | Succeeded _ => None
  end.

(** The listener from the moment the request settles: [try], [catch] and
    [finally]. *)
Definition submit_resume (wantsJson : bool) (r : reply) (f : form) (o : outputs) :
    form * outputs :=
  match r with
  | Succeeded data =>
      let o1 := renderResults data wantsJson o in
      let f1 := updateStatus "Analysis complete." f in
      let o2 :=
        {| summaryOutput := summaryOutput o1; findingsOutput := findingsOutput o1;
           citationsOutput := citationsOutput o1; jsonOutput := jsonOutput o1;
           lawAgentUI := AppUI.activateTab "results" "tab-summary" <$> lawAgentUI o1;
           console := console o1 |} in
      (setLoading false f1, o2)
  | _ =>
      let m := default EmptyString (failureMessage r) in
      let o1 :=
        {| summaryOutput := summaryOutput o; findingsOutput := findingsOutput o;
           citationsOutput := citationsOutput o; jsonOutput := jsonOutput o;
           lawAgentUI := lawAgentUI o; console := console o ++ [m] |} in
      let f1 := updateStatus "Analysis failed." f in
      let f2 := showError (if nonEmpty m then m
                           else "Unable to process the request.") f1 in
      (setLoading false f2, o1)
  end.

(** The form passes the two checks of the submit handler. *)
Definition valid (f : form) : bool :=
  (match fileInput_files f with [] => false | _ => true end
   || nonEmpty (trim (textInput_value f)))
  && nonEmpty (trim (instructionsInput_value f)).

End IssueSpotterPage.

(** ** witness-finder.js *)

Module WitnessFinder.
Import JsString.

(** *** Data *)

Record candidate := {
  id : option string;
  name : string;
  title : option string;
  organization : option string;
  sector : option string;
  location : option string;
  years_experience : option Q;
  similarity_score : Q;
  summary : option string;
  skills : option (list string);
  links : option (list string);
}.

(** A parsed response body, as far as the scripts look into it: [null];
    an array, of which [fetchSaved] reads the elements ([None] for an
    element that is not an object); or any other value, of which the
    scripts read the properties [status], [detail] and [candidates]
    ([None] for a property that is absent or, for [candidates], not an
    array). *)
Inductive json :=
| JsonNull
| JsonObject (status detail : option string)
    (candidates : option (list candidate))
| JsonArray (items : list (option candidate)).

Inductive body :=
| Invalid (message : string)
| Json (j : json).

(** How a [fetch] settles: the promise rejects, or a response arrives. *)
Inductive outcome :=
| NetworkError (message : string)
| Response (ok : bool) (b : body).

Inductive error :=
| RuntimeError (message : string)
| TypeError
| Error (message : string).

Inductive request :=
| PostSearch (industry description : string) (name : option string) (limit : nat)
| PostSave (c : candidate)
| GetSaved
| DeleteSaved (candidateId : option string).

(** A suspended call: what the continuation after the [await] closes over. *)
Inductive call :=
| SearchCall
| SaveCall (c : candidate) (button : option nat)
| DeleteCall (candidateId : option string)
| FetchSavedCall.

Record button := {
  textContent : string;
  disabled : bool;
  onclick : candidate;
}.

Record card := {
  card_title : string;
  card_score : string;
  card_meta : string;
  card_summary : string;
  card_skills : list string;
  saveBtn : nat;
}.

Record savedCard := {
  saved_title : string;
  saved_meta : string;
  saved_summary : string;
  removeBtn : option string;
}.

Record savedEls := {
  savedListEl : list savedCard;
  savedListEl_hidden : bool;
  savedEmptyEl_hidden : bool;
}.

Record errorBox := { err_textContent : string; err_hidden : bool }.

Inductive control := Industry | Description | Name.

(** The [state] object of the script. *)
Record state := {
  loading : bool;
  results : list candidate;
  filtered : list candidate;
  saved : list (option string * candidate);
}.

(** The [value] of the four filter inputs.  The two numeric inputs hold the
    empty string ([None]) or the text of a number. *)
Record filters := {
  filterSimilarity : option Q;
  filterExperience : option Q;
  filterSector : string;
  filterLocation : string;
}.

(** The fields of the search form. *)
Record formData := {
  industry : string;
  description : string;
  name_ : string;
}.

(** The search form and what surrounds it. *)
Record chrome := {
  errorEl : option errorBox;
  statusEl : option string;
  form_hidden : bool;
  loadingEl : option bool;
  submitBtn_disabled : bool;
  firstControl : option control;
  focused : option control;
}.

(** The result list, the saved list and the toasts. [buttons] holds every
    save button created so far; a card refers to its button by position. *)
Record panes := {
  toastContainer : option (list string);
  resultsEl : option (list card);
  emptyEl : option bool;
  savedPane : option savedEls;
  toggleSaved_expanded : option string;
  buttons : list button;
}.

Record io := {
  console : list error;
  sent : list request;
  pending : list call;
  clipboard : list string;
}.

Record world := {
  st : state;
  inputs : filters;
  fields : formData;
  top : chrome;
  view : panes;
  env : io;
}.

(** *** Field updates *)

Definition on_st (f : state -> state) (w : world) : world :=
  {| st := f (st w); inputs := inputs w; fields := fields w; top := top w;
     view := view w; env := env w |}.

Definition on_top (f : chrome -> chrome) (w : world) : world :=
  {| st := st w; inputs := inputs w; fields := fields w; top := f (top w);
     view := view w; env := env w |}.

Definition on_view (f : panes -> panes) (w : world) : world :=
  {| st := st w; inputs := inputs w; fields := fields w; top := top w;
     view := f (view w); env := env w |}.

Definition on_env (f : io -> io) (w : world) : world :=
  {| st := st w; inputs := inputs w; fields := fields w; top := top w;
     view := view w; env := f (env w) |}.

Definition set_inputs (i : filters) (w : world) : world :=
  {| st := st w; inputs := i; fields := fields w; top := top w;
     view := view w; env := env w |}.

Definition set_loading (b : bool) (s : state) : state :=
  {| loading := b; results := results s; filtered := filtered s; saved := saved s |}.

Definition set_results (l : list candidate) (s : state) : state :=
  {| loading := loading s; results := l; filtered := filtered s; saved := saved s |}.

Definition set_filtered (l : list candidate) (s : state) : state :=
  {| loading := loading s; results := results s; filtered := l; saved := saved s |}.

Definition set_saved (m : list (option string * candidate)) (s : state) : state :=
  {| loading := loading s; results := results s; filtered := filtered s; saved := m |}.

Definition set_errorEl (e : option errorBox) (c : chrome) : chrome :=
  {| errorEl := e; statusEl := statusEl c; form_hidden := form_hidden c;
     loadingEl := loadingEl c; submitBtn_disabled := submitBtn_disabled c;
     firstControl := firstControl c; focused := focused c |}.

Definition set_statusEl (m : option string) (c : chrome) : chrome :=
  {| errorEl := errorEl c; statusEl := m; form_hidden := form_hidden c;
     loadingEl := loadingEl c; submitBtn_disabled := submitBtn_disabled c;
     firstControl := firstControl c; focused := focused c |}.

Definition set_form_hidden (b : bool) (c : chrome) : chrome :=
  {| errorEl := errorEl c; statusEl := statusEl c; form_hidden := b;
     loadingEl := loadingEl c; submitBtn_disabled := submitBtn_disabled c;
     firstControl := firstControl c; focused := focused c |}.

Definition set_loadingEl (h : option bool) (c : chrome) : chrome :=
  {| errorEl := errorEl c; statusEl := statusEl c; form_hidden := form_hidden c;
     loadingEl := h; submitBtn_disabled := submitBtn_disabled c;
     firstControl := firstControl c; focused := focused c |}.

Definition set_submitBtn_disabled (b : bool) (c : chrome) : chrome :=
  {| errorEl := errorEl c; statusEl := statusEl c; form_hidden := form_hidden c;
     loadingEl := loadingEl c; submitBtn_disabled := b;
     firstControl := firstControl c; focused := focused c |}.

Definition set_focused (x : option control) (c : chrome) : chrome :=
  {| errorEl := errorEl c; statusEl := statusEl c; form_hidden := form_hidden c;
     loadingEl := loadingEl c; submitBtn_disabled := submitBtn_disabled c;
     firstControl := firstControl c; focused := x |}.

Definition set_toastContainer (t : option (list string)) (p : panes) : panes :=
  {| toastContainer := t; resultsEl := resultsEl p; emptyEl := emptyEl p;
     savedPane := savedPane p; toggleSaved_expanded := toggleSaved_expanded p;
     buttons := buttons p |}.

Definition set_resultsEl (r : option (list card)) (p : panes) : panes :=
  {| toastContainer := toastContainer p; resultsEl := r; emptyEl := emptyEl p;
     savedPane := savedPane p; toggleSaved_expanded := toggleSaved_expanded p;
     buttons := buttons p |}.

Definition set_emptyEl (e : option bool) (p : panes) : panes :=
  {| toastContainer := toastContainer p; resultsEl := resultsEl p; emptyEl := e;
     savedPane := savedPane p; toggleSaved_expanded := toggleSaved_expanded p;
     buttons := buttons p |}.

Definition set_savedPane (s : option savedEls) (p : panes) : panes :=
  {| toastContainer := toastContainer p; resultsEl := resultsEl p; emptyEl := emptyEl p;
     savedPane := s; toggleSaved_expanded := toggleSaved_expanded p;
     buttons := buttons p |}.

Definition set_buttons (b : list button) (p : panes) : panes :=
  {| toastContainer := toastContainer p; resultsEl := resultsEl p; emptyEl := emptyEl p;
     savedPane := savedPane p; toggleSaved_expanded := toggleSaved_expanded p;
     buttons := b |}.

Definition log (e : error) (i : io) : io :=
  {| console := console i ++ [e]; sent := sent i; pending := pending i;
     clipboard := clipboard i |}.

Definition send (r : request) (k : call) (i : io) : io :=
  {| console := console i; sent := sent i ++ [r]; pending := pending i ++ [k];
     clipboard := clipboard i |}.

Definition set_pending (l : list call) (i : io) : io :=
  {| console := console i; sent := sent i; pending := l;
     clipboard := clipboard i |}.

Definition writeText (t : string) (i : io) : io :=
  {| console := console i; sent := sent i; pending := pending i;
     clipboard := clipboard i ++ [t] |}.

(** *** Operations *)

Section Operations.

(** [`${n}`] for a number [n]. *)
Variable Number_toString : Q -> string.

(** [s.toLowerCase()] *)
Variable String_toLowerCase : string -> string.

(** The message of the [TypeError] that the engine throws when a property
    of [null] is read. *)
Variable TypeError_message : string.

(** Prints integer-valued numbers as JavaScript does; it instantiates
    [Number_toString] when the model is run on examples. *)
Definition integerToString (q : Q) : string :=
  pretty (Qnum q / Zpos (Qden q))%Z.

(** [x < y] on finite numbers. *)
Definition Qlt_bool (x y : Q) : bool :=
  (Qnum x * QDen y <? Qnum y * QDen x)%Z.

Definition truthyStr (o : option string) : bool :=
  match o with Some s => nonEmpty s | None => false end.

Definition truthyNum (o : option Q) : bool :=
  match o with Some q => negb (Qeq_bool q 0) | None => false end.

(** [Number(x || 0)] *)
Definition numberOrZero (o : option Q) : Q :=
  if truthyNum o then default 0%Q o else 0%Q.

(** The strings of an array that survive [.filter(Boolean)]. *)
Definition present (o : option string) : list string :=
  match o with
  | Some s => if nonEmpty s then [s] else []
  | None => []
  end.

Definition middot : string := " · ".
Definition newline : string := String (ascii_of_nat 10) EmptyString.

(** [showToast]; the timer that later fades the toast out is left out. *)
Definition showToast (message : string) (w : world) : world :=
  match toastContainer (view w) with
  | None => w
  | Some ts => on_view (set_toastContainer (Some (ts ++ [message]))) w
  end.

Definition updateStatus (message : string) (w : world) : world :=
  match statusEl (top w) with
  | None => w
  | Some _ => on_top (set_statusEl (Some message)) w
  end.

Definition clearErrorEl (w : world) : world :=
  match errorEl (top w) with
  | None => w
  | Some _ =>
      on_top (set_errorEl
                (Some {| err_textContent := EmptyString; err_hidden := true |})) w
  end.

Definition showErrorEl (message : string) (w : world) : world :=
  match errorEl (top w) with
  | None => w
  | Some _ =>
      on_top (set_errorEl
                (Some {| err_textContent := message; err_hidden := false |})) w
  end.

(** [startLoading], without the progress bar and the countdown. *)
Definition startLoading (w : world) : world :=
  match loadingEl (top w) with
  | None => w
  | Some _ =>
      clearErrorEl
        (on_top (set_submitBtn_disabled true)
           (on_top (set_loadingEl (Some false))
              (on_top (set_form_hidden true)
                 (on_st (set_loading true) w))))
  end.

(** [stopLoading], up to the [setTimeout]. *)
Definition stopLoading (w : world) : world :=
  on_top (set_submitBtn_disabled false) (on_st (set_loading false) w).

(** The callback [stopLoading] hands to [setTimeout]. *)
Definition stopLoading_timeout (success : bool) (w : world) : world :=
  let w1 :=
    match loadingEl (top w) with
    | None => w
    | Some _ => on_top (set_loadingEl (Some true)) w
    end in
  let w2 := on_top (set_form_hidden false) w1 in
  match firstControl (top w2) with
  | Some c => if negb success then on_top (set_focused (Some c)) w2 else w2
  | None => w2
  end.

Definition renderEmptyState (w : world) : world :=
  match emptyEl (view w) with
  | None => w
  | Some _ =>
      let showEmpty :=
        (0 <? length (results (st w)))%nat
        && (length (filtered (st w)) =? 0)%nat in
      on_view (set_emptyEl (Some (negb showEmpty))) w
  end.

Definition metaParts (c : candidate) : list string :=
  present (title c) ++ present (organization c) ++ present (sector c)
  ++ match years_experience c with
     | Some y => [Number_toString y +:+ " yrs exp."]
     | None => []
     end
  ++ present (location c).

(** The card built for a candidate; [b] is the position of its save
    button.  The copy and source buttons and the links section are left
    out. *)
Definition renderCard (b : nat) (c : candidate) : card :=
  {| card_title := name c;
     card_score := Number_toString (similarity_score c) +:+ "% match";
     card_meta := join middot (metaParts c);
     card_summary :=
       if truthyStr (summary c) then default EmptyString (summary c)
       else "No summary available.";
     card_skills := take 8 (default [] (skills c));
     saveBtn := b |}.

Definition newSaveBtn (m : list (option string * candidate)) (c : candidate) : button :=
  let isSaved := JsMap.has (id c) m in
  {| textContent := if isSaved then "Saved" else "Save";
     disabled := isSaved;
     onclick := c |}.

Definition renderResults (w : world) : world :=
  match resultsEl (view w) with
  | None => w
  | Some _ =>
      let base := length (buttons (view w)) in
      let cards := imap (fun i c => renderCard (base + i) c) (filtered (st w)) in
      let fresh := newSaveBtn (saved (st w)) <$> filtered (st w) in
      renderEmptyState
        (on_view (set_buttons (buttons (view w) ++ fresh))
           (on_view (set_resultsEl (Some cards)) w))
  end.

(** The callback of [state.results.filter] in [applyFilters]. *)
Definition passes (minSimilarity minExperience : Q)
    (sectorQuery locationQuery : string) (c : candidate) : bool :=
  if Qlt_bool (similarity_score c) minSimilarity then false
  else
    let years := numberOrZero (years_experience c) in
    if Qlt_bool years minExperience then false
    else if nonEmpty sectorQuery
            && negb (includes
                       (String_toLowerCase (default EmptyString (sector c)))
                       sectorQuery)
    then false
    else if nonEmpty locationQuery
            && negb (includes
                       (String_toLowerCase (default EmptyString (location c)))
                       locationQuery)
    then false
    else true.

Definition applyFilters (w : world) : world :=
  let minSimilarity := default 0%Q (filterSimilarity (inputs w)) in
  let minExperience := default 0%Q (filterExperience (inputs w)) in
  let sectorQuery := String_toLowerCase (trim (filterSector (inputs w))) in
  let locationQuery := String_toLowerCase (trim (filterLocation (inputs w))) in
  renderResults
    (on_st (set_filtered
              (List.filter
                 (passes minSimilarity minExperience sectorQuery locationQuery)
                 (results (st w)))) w).

Definition renderSavedCard (c : candidate) : savedCard :=
  {| saved_title := name c;
     saved_meta :=
       join middot (present (title c) ++ present (organization c)
                    ++ present (location c));
     saved_summary :=
       if truthyStr (summary c) then default EmptyString (summary c)
       else "No summary provided.";
     removeBtn := id c |}.

Definition renderSaved (w : world) : world :=
  match savedPane (view w) with
  | None => w
  | Some _ =>
      let savedValues := JsMap.values (saved (st w)) in
      match savedValues with
      | [] =>
          on_view (set_savedPane
                     (Some {| savedListEl := [];
                              savedListEl_hidden := true;
                              savedEmptyEl_hidden := false |})) w
      | _ =>
          on_view (set_savedPane
                     (Some {| savedListEl := renderSavedCard <$> savedValues;
                              savedListEl_hidden :=
                                negb (bool_decide
                                        (toggleSaved_expanded (view w) = Some "true"));
                              savedEmptyEl_hidden := true |})) w
      end
  end.

(** [data.status] for a parsed body: reading a property of [null] throws
    ([None]); any other value has the property or yields [undefined]. *)
Definition statusOf (data : json) : option (option string) :=
  match data with
  | JsonNull => None
  | JsonObject status _ _ => Some status
  | JsonArray _ => Some None
  end.

(** The [catch] blocks of the three reconciler functions. *)
Definition caught (e : error) (toast : option string) (w : world) : world :=
  let w1 := on_env (log e) w in
  match toast with
  | Some message => showToast message w1
  | None => w1
  end.

(** Reference: how the specification sorts the ways a call can settle.
    The request failed when the network call was rejected or the response
    is not a 2xx. *)
Definition requestFailed (o : outcome) : bool :=
  match o with
  | NetworkError _ => true
  | Response ok _ => negb ok
  end.

(** The [status] of a 2xx response whose body could be read. *)
Definition repliedStatus (o : outcome) : option (option string) :=
  match o with
  | Response true (Json data) => statusOf data
  | _ => None
  end.

(** A 2xx response with [status] exactly [s]. *)
Definition replied (s : string) (o : outcome) : bool :=
  bool_decide (repliedStatus o = Some (Some s)).

(** [handleSave], up to the [await fetch(...)]. *)
Definition handleSave_begin (c : candidate) (button : option nat) (w : world) : world :=
  on_env (send (PostSave c) (SaveCall c button)) w.

Definition markSaved (b : button) : button :=
  {| textContent := "Saved"; disabled := true; onclick := onclick b |}.

(** [handleSave], from the moment its [fetch] settles. *)
Definition handleSave_resume (c : candidate) (button : option nat)
    (o : outcome) (w : world) : world :=
  let failure := Some "Unable to save candidate." in
  match o with
  | NetworkError m => caught (RuntimeError m) failure w
  | Response false _ => caught (Error "Failed to save") failure w
  | Response true (Invalid m) => caught (RuntimeError m) failure w
  | Response true (Json data) =>
      let w1 := on_st (set_saved (JsMap.set (id c) c (saved (st w)))) w in
      match statusOf data with
      | None => caught TypeError failure w1
      | Some status =>
          let w2 :=
            if bool_decide (status = Some "duplicate")
            then showToast "Already saved." w1
            else showToast "Candidate saved." w1 in
          let w3 :=
            match button with
            | Some b => on_view (set_buttons (alter markSaved b (buttons (view w2)))) w2
            | None => w2
            end in
          renderSaved w3
      end
  end.

(** [handleDelete], up to the [await fetch(...)]. *)
Definition handleDelete_begin (candidateId : option string) (w : world) : world :=
  on_env (send (DeleteSaved candidateId) (DeleteCall candidateId)) w.

(** [handleDelete], from the moment its [fetch] settles. *)
Definition handleDelete_resume (candidateId : option string)
    (o : outcome) (w : world) : world :=
  let failure := Some "Unable to remove candidate." in
  match o with
  | NetworkError m => caught (RuntimeError m) failure w
  | Response false _ => caught (Error "Failed to delete") failure w
  | Response true (Invalid m) => caught (RuntimeError m) failure w
  | Response true (Json data) =>
      match statusOf data with
      | None => caught TypeError failure w
      | Some status =>
          if bool_decide (status = Some "ok") then
            applyFilters
              (renderSaved
                 (showToast "Removed from saved."
                    (on_st (set_saved (JsMap.delete candidateId (saved (st w)))) w)))
          else w
      end
  end.

Definition fetchSaved_begin (w : world) : world :=
  on_env (send GetSaved FetchSavedCall) w.

(** The callback of [data.forEach] in [fetchSaved]. *)
Definition keepSaved (m : list (option string * candidate))
    (item : option candidate) : list (option string * candidate) :=
  match item with
  | Some c => if truthyStr (id c) then JsMap.set (id c) c m else m
  | None => m
  end.

Definition fetchSaved_resume (o : outcome) (w : world) : world :=
  match o with
  | NetworkError m => caught (RuntimeError m) None w
  | Response false _ => caught (Error "Failed to fetch saved") None w
  | Response true (Invalid m) => caught (RuntimeError m) None w
  | Response true (Json data) =>
      let w1 :=
        match data with
        | JsonArray items =>
            on_st (set_saved (foldl keepSaved (saved (st w)) items)) w
        | _ => w
        end in
      renderSaved w1
  end.

(** The array literal of [copyCandidate], before [.filter(Boolean)]. *)
Definition copyLines (c : candidate) : list string :=
  [ "Name: " +:+ name c;
    if truthyStr (title c)
    then "Title: " +:+ default EmptyString (title c) else EmptyString;
    if truthyStr (organization c)
    then "Organization: " +:+ default EmptyString (organization c) else EmptyString;
    if truthyStr (sector c)
    then "Sector: " +:+ default EmptyString (sector c) else EmptyString;
    if truthyStr (location c)
    then "Location: " +:+ default EmptyString (location c) else EmptyString;
    match years_experience c with
    | Some y => "Years experience: " +:+ Number_toString y
    | None => EmptyString
    end;
    "Similarity: " +:+ Number_toString (similarity_score c) +:+ "%";
    if truthyStr (summary c)
    then "Summary: " +:+ default EmptyString (summary c) else EmptyString;
    match skills c with
    | Some (x :: l) => "Skills: " +:+ join ", " (x :: l)
    | _ => EmptyString
    end;
    match links c with
    | Some (x :: l) => "Links: " +:+ join ", " (x :: l)
    | _ => EmptyString
    end ].

(** The lines that reach the clipboard, and the text itself. *)
Definition copiedLines (c : candidate) : list string :=
  List.filter nonEmpty (copyLines c).

Definition copyText (c : candidate) : string :=
  join newline (copiedLines c).

Definition copyCandidate (c : candidate) (w : world) : world :=
  on_env (writeText (copyText c)) w.

(** The two callbacks on the promise of [writeText]. *)
Definition copyCandidate_settled (resolved : bool) (w : world) : world :=
  if resolved then showToast "Candidate copied." w
  else showToast "Unable to copy candidate." w.

(** Reference: the summary as the specification words it.  A field yields
    one line, [Label: value], or no line; the lines follow the order of the
    fields.  [filled] is a text field that is neither absent nor empty. *)
Definition labelled (label : string) (value : option string) : list string :=
  match value with
  | Some v => [label +:+ ": " +:+ v]
  | None => []
  end.

Definition filled (o : option string) : option string :=
  match o with
  | Some s => if nonEmpty s then Some s else None
  | None => None
  end.

Definition filledList (o : option (list string)) : option string :=
  match o with
  | Some (x :: l) => Some (join ", " (x :: l))
  | _ => None
  end.

Definition summaryLines (c : candidate) : list string :=
  labelled "Name" (Some (name c))
  ++ labelled "Title" (filled (title c))
  ++ labelled "Organization" (filled (organization c))
  ++ labelled "Sector" (filled (sector c))
  ++ labelled "Location" (filled (location c))
  ++ labelled "Years experience" (Number_toString <$> years_experience c)
  ++ labelled "Similarity" (Some (Number_toString (similarity_score c) +:+ "%"))
  ++ labelled "Summary" (filled (summary c))
  ++ labelled "Skills" (filledList (skills c))
  ++ labelled "Links" (filledList (links c)).

(** [onSubmit], up to the [await performSearch(...)]. *)
Definition onSubmit_begin (w : world) : world :=
  if loading (st w) then w
  else
    let industry := trim (industry (fields w)) in
    let description := trim (description (fields w)) in
    let name := trim (name_ (fields w)) in
    if negb (nonEmpty industry) || negb (nonEmpty description) then
      match errorEl (top w) with
      | Some _ =>
          on_top (set_errorEl
                    (Some {| err_textContent := "Industry and description are required.";
                             err_hidden := false |})) w
      | None => w
      end
    else
      let payload :=
        PostSearch industry description
          (if nonEmpty name then Some name else None) 8 in
      on_env (send payload SearchCall)
        (updateStatus "Searching the web for expert witnesses…" (startLoading w)).

Definition message (e : error) : string :=
  match e with
  | RuntimeError m => m
  | TypeError => TypeError_message
  | Error m => m
  end.

(** What [performSearch] yields once its [fetch] has settled. *)
Definition performSearch_result (o : outcome) : error + body :=
  match o with
  | NetworkError m => inl (RuntimeError m)
  | Response false (Json JsonNull) => inl TypeError
  | Response false (Json (JsonObject _ detail _)) =>
      inl (Error (if truthyStr detail then default EmptyString detail
                  else "Search failed."))
  | Response false _ => inl (Error "Search failed.")
  | Response true b => inr b
  end.

Definition searchFailed (e : error) (w : world) : world :=
  let text :=
    if nonEmpty (message e) then message e
    else "Search failed. Please try again." in
  stopLoading
    (updateStatus "Search failed. Please try again."
       (showErrorEl text (on_env (log e) w))).

(** [onSubmit], from the moment the search settles, up to the timer that
    [stopLoading] sets. *)
Definition onSubmit_resume (o : outcome) (w : world) : world :=
  match performSearch_result o with
  | inl e => searchFailed e w
  | inr (Invalid m) => searchFailed (RuntimeError m) w
  | inr (Json data) =>
      let candidates :=
        match data with
        | JsonObject _ _ (Some cs) => cs
        | _ => []
        end in
      let w1 := applyFilters (on_st (set_results candidates) w) in
      let w2 :=
        match candidates with
        | [] => updateStatus "No candidates returned. Try refining your query." w1
        | _ =>
            updateStatus
              ("Found " +:+ pretty (length candidates) +:+ " candidate"
                 +:+ (if (length candidates =? 1)%nat then EmptyString else "s")
                 +:+ ".") w1
        end in
      stopLoading w2
  end.

(** *** Events *)

(** What can happen on the page.  [EditFilters] is the user changing the
    value of the filter inputs; [FiltersInput] is an [input] or [keyup]
    event reaching one of them, which runs [handleFilters].  The two are
    separate: a value can change without such an event (a paste with the
    mouse), and other events can come between the change and the event. *)
Inductive event :=
| Submit
| EditForm (d : formData)
| EditFilters (f : filters)
| FiltersInput
| ClickSave (b : nat)
| ClickCopy (c : candidate)
| ClickRemove (i : nat)
| Settle (i : nat) (o : outcome)
| Timeout (success : bool)
| ClipboardSettled (resolved : bool).

(** A click reaches [handleSave] only through the save button of a card that
    is on the page, and a disabled button dispatches no click. *)
Definition clickSave (b : nat) (w : world) : world :=
  match resultsEl (view w) with
  | None => w
  | Some cards =>
      if bool_decide (b ∈ saveBtn <$> cards) then
        match buttons (view w) !! b with
        | Some btn =>
            if disabled btn then w
            else handleSave_begin (onclick btn) (Some b) w
        | None => w
        end
      else w
  end.

Definition clickRemove (i : nat) (w : world) : world :=
  match savedPane (view w) with
  | None => w
  | Some els =>
      match savedListEl els !! i with
      | Some sc => handleDelete_begin (removeBtn sc) w
      | None => w
      end
  end.

(** The [i]-th suspended call settles with [o]. *)
Definition settle (i : nat) (o : outcome) (w : world) : world :=
  match pending (env w) !! i with
  | None => w
  | Some k =>
      let w' := on_env (set_pending (take i (pending (env w)) ++
                                       (drop (S i) (pending (env w))))) w in
      match k with
      | SearchCall => onSubmit_resume o w'
      | SaveCall c button => handleSave_resume c button o w'
      | DeleteCall candidateId => handleDelete_resume candidateId o w'
      | FetchSavedCall => fetchSaved_resume o w'
      end
  end.

Definition step (w : world) (e : event) : world :=
  match e with
  | Submit => onSubmit_begin w
  | EditForm d =>
      {| st := st w; inputs := inputs w; fields := d; top := top w;
         view := view w; env := env w |}
  | EditFilters f => set_inputs f w
  | FiltersInput => applyFilters w
  | ClickSave b => clickSave b w
  | ClickCopy c => copyCandidate c w
  | ClickRemove i => clickRemove i w
  | Settle i o => settle i o w
  | Timeout success => stopLoading_timeout success w
  | ClipboardSettled resolved => copyCandidate_settled resolved w
  end.

(** The world right after [init]: the [state] object as the script creates
    it, nothing rendered yet, and [fetchSaved] suspended on its request. *)
Definition initial (w : world) : Prop :=
  st w = {| loading := false; results := []; filtered := []; saved := [] |}
  /\ buttons (view w) = []
  /\ env w = {| console := []; sent := [GetSaved]; pending := [FetchSavedCall];
                clipboard := [] |}.

Inductive reachable : world -> Prop :=
| reachable_init w : initial w -> reachable w
| reachable_step w e : reachable w -> reachable (step w e).

(** Every key of the saved cache is the [id] of the candidate stored
    under it. *)
Definition keyedById (m : list (option string * candidate)) : Prop :=
  forall k c, (k, c) ∈ m -> id c = k.

(** The ways one operation can change the cache. *)
Inductive cacheChange (m : list (option string * candidate)) :
  list (option string * candidate) -> Prop :=
| cacheSame : cacheChange m m
| cacheSet c : cacheChange m (JsMap.set (id c) c m)
| cacheDelete k : cacheChange m (JsMap.delete k m)
| cacheFetched items : cacheChange m (foldl keepSaved m items).

(** *** Sources, links and the saved-list toggle *)

(** [candidate.sources] as far as the script reads it: absent, or the [url]
    of each entry ([None] for an entry without one). *)
Definition sources := option (list (option string)).

(** [openSources].  The second component lists the windows handed to
    [setTimeout], each with its delay in milliseconds. *)
Definition openSources (srcs : sources) (w : world) : world * list (string * nat) :=
  let links := flat_map present (default [] srcs) in
  match links with
  | [] => (showToast "No sources available for this candidate." w, [])
  | _ => (w, imap (fun index url => (url, index * 150)) (take 4 links))
  end.

(** [set.add(x)] on the insertion-ordered elements of a [Set]. *)
Definition setAdd {A} `{EqDecision A} (elements : list A) (x : A) : list A :=
  if bool_decide (x ∈ elements) then elements else elements ++ [x].

(** [[...new Set(xs)]] *)
Definition setOf {A} `{EqDecision A} (xs : list A) : list A :=
  foldl setAdd [] xs.

(** [createLinksSection]: [None] for [null], else the [href] of the anchors
    appended to the section.  An entry of [combined] is a link, or the
    [url] of a source, which may be [undefined] ([None]). *)
Definition createLinksSection (c : candidate) (srcs : sources) :
    option (list string) :=
  let primaryLinks := default [] (links c) in
  let sourceLinks := default [] srcs in
  let combined := take 6 (setOf ((Some <$> primaryLinks) ++ sourceLinks)) in
  match combined with
  | [] => None
  | _ => Some (flat_map present combined)
  end.

(** The click listener that [initSavedToggle] puts on the toggle button, as
    a function of the button's [aria-expanded] and of the saved list; the
    third component is the button's new label. *)
Definition toggleSaved_click (expanded : option string) (els : savedEls) :
    option string * savedEls * string :=
  let wasExpanded := bool_decide (expanded = Some "true") in
  (Some (if negb wasExpanded then "true" else "false"),
   {| savedListEl := savedListEl els;
      savedListEl_hidden := wasExpanded;
      savedEmptyEl_hidden := savedEmptyEl_hidden els |},
   if wasExpanded then "Show saved" else "Hide saved").

(** The number of searches whose request has not settled yet. *)
Definition isSearch (k : call) : bool :=
  match k with SearchCall => true | _ => false end.

Definition searchesInFlight (w : world) : nat :=
  length (List.filter isSearch (pending (env w))).

(** The filter callback for the current values of the filter inputs. *)
Definition currentFilter (w : world) : candidate -> bool :=
  passes (default 0%Q (filterSimilarity (inputs w)))
    (default 0%Q (filterExperience (inputs w)))
    (String_toLowerCase (trim (filterSector (inputs w))))
    (String_toLowerCase (trim (filterLocation (inputs w)))).

End Operations.
End WitnessFinder.

(** ** Concrete pages and candidates, to run the model on *)

Module Examples.
Import JsString WitnessFinder.

(** The message V8 gives the [TypeError] of the search path.  The pages
    below never meet that error. *)
Definition typeErrorMessage : string :=
  "Cannot read properties of null (reading 'detail')".

Definition alice : candidate :=
  {| id := Some "a"; name := "Alice Adams"; title := Some "Toxicologist";
     organization := None; sector := Some "Pharma"; location := Some "NY";
     years_experience := Some 5%Q; similarity_score := 90%Q;
     summary := None; skills := Some ["assays"; "GLP"]; links := None |}.

Definition bob : candidate :=
  {| id := Some "b"; name := "Bob Brown"; title := None;
     organization := None; sector := Some "Tech"; location := Some "CA";
     years_experience := Some 1%Q; similarity_score := 40%Q;
     summary := None; skills := None; links := None |}.

(** A candidate whose name is the empty string. *)
Definition nameless : candidate :=
  {| id := Some "n"; name := EmptyString; title := None;
     organization := None; sector := None; location := None;
     years_experience := None; similarity_score := 90%Q;
     summary := None; skills := None; links := None |}.

Definition noFilters : filters :=
  {| filterSimilarity := Some 0%Q; filterExperience := Some 0%Q;
     filterSector := EmptyString; filterLocation := EmptyString |}.

(** A page with every element in place, as [init] leaves it. *)
Definition page0 : world :=
  {| st := {| loading := false; results := []; filtered := []; saved := [] |};
     inputs := noFilters;
     fields := {| industry := EmptyString; description := EmptyString;
                  name_ := EmptyString |};
     top := {| errorEl := Some {| err_textContent := EmptyString; err_hidden := true |};
               statusEl := Some EmptyString; form_hidden := false;
               loadingEl := Some true; submitBtn_disabled := false;
               firstControl := Some Industry; focused := None |};
     view := {| toastContainer := Some []; resultsEl := Some [];
                emptyEl := Some true;
                savedPane := Some {| savedListEl := []; savedListEl_hidden := true;
                                     savedEmptyEl_hidden := false |};
                toggleSaved_expanded := Some "false"; buttons := [] |};
     env := {| console := []; sent := [GetSaved]; pending := [FetchSavedCall];
               clipboard := [] |} |}.

Definition okBody (status : string) : outcome :=
  Response true (Json (JsonObject (Some status) None None)).

(** The page after the saved list came back empty and a search returned
    [alice] and [bob]. *)
Definition searched : world :=
  step integerToString toLowerCaseAscii typeErrorMessage
    (step integerToString toLowerCaseAscii typeErrorMessage
       (step integerToString toLowerCaseAscii typeErrorMessage
          (step integerToString toLowerCaseAscii typeErrorMessage page0
             (Settle 0 (Response true (Json (JsonArray [])))))
          (EditForm {| industry := "pharma"; description := "dose study";
                       name_ := EmptyString |}))
       Submit)
    (Settle 0 (Response true (Json (JsonObject None None (Some [alice; bob]))))).

(** The same page with a single blank typed into the sector filter. *)
Definition blankSector : world :=
  set_inputs {| filterSimilarity := Some 0%Q; filterExperience := Some 0%Q;
                filterSector := " "; filterLocation := EmptyString |} searched.

(** The page right after a click on [alice]'s save button. *)
Definition clicked : world := step integerToString toLowerCaseAscii
    typeErrorMessage searched (ClickSave 0).

(** The page after that save was answered with "ok". *)
Definition aliceSaved : world :=
  step integerToString toLowerCaseAscii typeErrorMessage clicked (Settle 0
      (okBody "ok")).

(** A network call that is rejected. *)
Definition offline : outcome := NetworkError "Failed to fetch".

(** The search form with a description and no industry, on an idle page. *)
Definition missingIndustry : world :=
  step integerToString toLowerCaseAscii typeErrorMessage
    (step integerToString toLowerCaseAscii typeErrorMessage page0
       (Settle 0 (Response true (Json (JsonArray [])))))
    (EditForm {| industry := EmptyString; description := "dose study";
                 name_ := EmptyString |}).

(** The page with the search form filled in, before it is submitted. *)
Definition ready : world :=
  step integerToString toLowerCaseAscii typeErrorMessage
    (step integerToString toLowerCaseAscii typeErrorMessage page0
       (Settle 0 (Response true (Json (JsonArray [])))))
    (EditForm {| industry := " pharma "; description := "dose study";
                 name_ := " " |}).

(** The same page without the loading panel. *)
Definition readyWithoutLoadingEl : world :=
  on_top (set_loadingEl None) ready.

(** The page while that search is in flight. *)
Definition searching : world := step integerToString toLowerCaseAscii
    typeErrorMessage ready Submit.

(** A no-break space, U+00A0, and a page whose industry field holds
    nothing else. *)
Definition nbsp : string := utf8 160.

Definition nbspIndustry : world :=
  step integerToString toLowerCaseAscii typeErrorMessage ready
    (EditForm {| industry := nbsp; description := "dose study";
                 name_ := EmptyString |}).

(** The filter of the specification's scenario: similarity at least 50. *)
Definition atLeast50 : filters :=
  {| filterSimilarity := Some 50%Q; filterExperience := Some 0%Q;
     filterSector := EmptyString; filterLocation := EmptyString |}.

(** A page with one tab group, "results": two tabs, the first one active,
    and their two panels. *)
Definition tab (x controls : string) (active : bool) : AppUI.element :=
  {| AppUI.id := x; AppUI.aria_controls := Some controls;
     AppUI.class_active := active;
     AppUI.aria_selected := Some (if active then "true" else "false");
     AppUI.tabindex := Some (if active then "0" else "-1");
     AppUI.hidden := None |}.

Definition panel (x : string) (active : bool) : AppUI.element :=
  {| AppUI.id := x; AppUI.aria_controls := None;
     AppUI.class_active := active;
     AppUI.aria_selected := None; AppUI.tabindex := Some "0";
     AppUI.hidden := if active then None else Some "true" |}.

Definition resultsGroup : AppUI.group :=
  {| AppUI.tabs := [0; 1]; AppUI.panels := [2; 3] |}.

Definition tabsPage : AppUI.ui :=
  {| AppUI.document :=
       [tab "tab-summary" "panel-summary" true;
        tab "tab-findings" "panel-findings" false;
        panel "panel-summary" true;
        panel "panel-findings" false];
     AppUI.tabGroups := [("results", resultsGroup)] |}.

(** A page whose second tab has no [aria-controls]: [initTabs] registers
    both tabs and the one panel it finds. *)
Definition bareTab (x : string) : AppUI.element :=
  {| AppUI.id := x; AppUI.aria_controls := None;
     AppUI.class_active := false;
     AppUI.aria_selected := Some "false"; AppUI.tabindex := Some "-1";
     AppUI.hidden := None |}.

Definition bareGroup : AppUI.group :=
  {| AppUI.tabs := [0; 1]; AppUI.panels := [2] |}.

Definition barePage : AppUI.ui :=
  {| AppUI.document :=
       [tab "tab-summary" "panel-summary" true;
        bareTab "tab-notes";
        panel "panel-summary" true];
     AppUI.tabGroups := [("results", bareGroup)] |}.

(** The same page before [initTabs] has run, and its one tablist. *)
Definition resultsTablist : AppUI.tablist :=
  {| AppUI.dataset_tabGroup := Some "results"; AppUI.tablist_tabs := [0; 1] |}.

Definition rawPage : AppUI.ui :=
  {| AppUI.document := AppUI.document tabsPage; AppUI.tabGroups := [] |}.

End Examples.

Module IssueSpotterExamples.
Import JsString IssueSpotter IssueSpotterPage.

(** The issue-spotter form after a first attempt was refused for want of
    instructions: text pasted, instructions now typed, the error still
    showing. *)
Definition pastedForm : form :=
  {| fileInput_files := []; textInput_value := " The tenant shall pay. ";
     instructionsInput_value := "Spot risks"; styleSelect_value := EmptyString;
     returnJsonToggle_checked := true;
     errorEl := Some {| err_textContent := "Instructions are required.";
                        err_hidden := false |};
     statusEl := Some EmptyString; submitBtn_disabled := false;
     focused := Some InstructionsInput; sent := [] |}.

Definition lateFee : finding :=
  {| issue := JStr "Late fee"; risk := JStr "<b>high</b>";
     suggestion := JUndefined;
     fspan := Some {| page := JNum 2; start := JNum 0; end_ := JNum 40 |} |}.

Definition untitled : finding :=
  {| issue := JUndefined; risk := JUndefined; suggestion := JStr "Add a cap";
     fspan := None |}.

Definition report : analysis :=
  {| summary := Some " Two risks. ";
     findings := Some [lateFee; untitled];
     citations := Some [{| cpage := JNum 2; snippet := JStr "shall pay" |}];
     raw_json := None; stringified := "{}" |}.

Definition blankOutputs : outputs :=
  {| summaryOutput := EmptyString; findingsOutput := Markup EmptyString;
     citationsOutput := Markup EmptyString; jsonOutput := EmptyString;
     lawAgentUI := Some Examples.tabsPage; console := [] |}.

End IssueSpotterExamples.

(* ================================================================== *)
(** * Part II: properties                                              *)
(* ================================================================== *)

(** ** Strings *)

Section StringFacts.
Import JsString.

Lemma append_cons (a : ascii) (s t : string) :
  String a s +:+ t = String a (s +:+ t).
Proof. reflexivity. Qed.

Lemma append_assoc (s t u : string) : (s +:+ t) +:+ u = s +:+ (t +:+ u).
Proof.
  induction s as [|a s IH]; [reflexivity|]. now rewrite !append_cons, IH.
Qed.

Lemma chars_append (s t : string) : chars (s +:+ t) = chars s ++ chars t.
Proof.
  induction s as [|a s IH]; [reflexivity|].
  rewrite append_cons. simpl. now rewrite IH.
Qed.

Lemma prefix_spec (q s : string) :
  String.prefix q s = true <-> exists post, s = q +:+ post.
Proof.
  revert s. induction q as [|a q IH]; intros s.
  - split; [intros _; now exists s | now destruct s].
  - destruct s as [|b s]; simpl.
    + split; [discriminate | intros [post H]; discriminate].
    + destruct (ascii_dec a b) as [->|Hne].
      * rewrite IH. split; intros [post H]; exists post.
        -- now rewrite append_cons, H.
        -- rewrite append_cons in H. now injection H.
      * split; [discriminate |].
        intros [post H]. rewrite append_cons in H. injection H; congruence.
Qed.

Lemma includes_nil (q : string) :
  includes EmptyString q = String.prefix q EmptyString || false.
Proof. reflexivity. Qed.

Lemma includes_cons (a : ascii) (s q : string) :
  includes (String a s) q = String.prefix q (String a s) || includes s q.
Proof. reflexivity. Qed.

(** [includes] decides [contains]. *)
Lemma includes_spec (s q : string) :
  includes s q = true <-> contains s q.
Proof.
  unfold contains. induction s as [|a s IH].
  - rewrite includes_nil, orb_false_r, prefix_spec. split.
    + intros [post H]. now exists EmptyString, post.
    + intros [pre [post H]]. destruct pre; [now exists post|discriminate].
  - rewrite includes_cons, orb_true_iff, prefix_spec, IH. split.
    + intros [[post H]|[pre [post H]]].
      * now exists EmptyString, post.
      * exists (String a pre), post. now rewrite append_cons, H.
    + intros [pre [post H]]. destruct pre as [|b pre].
      * left. now exists post.
      * right. rewrite append_cons in H. injection H as _ H. now exists pre, post.
Qed.

Lemma replaceAll_append c r (s t : string) :
  replaceAll c r (s +:+ t) = replaceAll c r s +:+ replaceAll c r t.
Proof.
  induction s as [|a s IH]; [reflexivity|].
  rewrite append_cons. simpl. now rewrite IH, append_assoc.
Qed.

End StringFacts.

(** ** Trimming and the white-space table *)

Section TrimFacts.
Import JsString.

Lemma allFrom_spec (P : N -> bool) (count : nat) (cp : N) :
  allFrom P cp count = true ->
  forall x, (cp <= x)%N -> (x < cp + N.of_nat count)%N -> P x = true.
Proof.
  revert cp. induction count as [|count IH]; intros cp H x Hle Hlt; [lia|].
  simpl in H. apply andb_true_iff in H as [Hcp H].
  destruct (N.eq_dec x cp) as [->|Hne]; [exact Hcp|].
  apply (IH (N.succ cp) H); lia.
Qed.

(** The code points of the Basic Multilingual Plane, one by one. *)
Lemma trimsAsTabulated_BMP : allFrom trimsAsTabulated 0 (N.to_nat 65536) = true.
Proof. vm_compute. reflexivity. Qed.

(** A byte that starts no white-space code point stops [trimStart]. *)
Lemma trimStart_stops (a : ascii) (s : string) :
  startsNoWhiteSpace a = true -> trimStart (String a s) = String a s.
Proof.
  unfold startsNoWhiteSpace. cbv zeta. intros H.
  apply andb_true_iff in H as [H1 H].
  apply negb_true_iff in H1. apply negb_true_iff in H.
  apply orb_false_iff in H as [H H6].
  apply orb_false_iff in H as [H H5].
  apply orb_false_iff in H as [H H4].
  apply orb_false_iff in H as [H2 H3].
  simpl. rewrite H1. destruct s as [|b s]; [reflexivity|].
  unfold isWhiteSpace2. rewrite H2. simpl.
  destruct s as [|c s]; [reflexivity|].
  unfold isWhiteSpace3. cbv zeta. rewrite H3, H4, H5, H6. reflexivity.
Qed.

Lemma trimEnd_plain (s : string) :
  forallb startsNoWhiteSpace (chars s) = true -> trimEnd s = s.
Proof.
  induction s as [|a s IH]; [reflexivity|].
  intros H. simpl in H. apply andb_true_iff in H as [Ha Hs].
  change (trimEnd (String a s))
    with (if allWhiteSpace (String a s) then EmptyString
          else String a (trimEnd s)).
  unfold allWhiteSpace. rewrite (trimStart_stops a s Ha), (IH Hs). reflexivity.
Qed.

Lemma trim_plain (s : string) :
  forallb startsNoWhiteSpace (chars s) = true -> trim s = s.
Proof.
  intros H. unfold trim.
  destruct s as [|a s]; [reflexivity|].
  assert (Ha : startsNoWhiteSpace a = true).
  { simpl in H. now apply andb_true_iff in H as [Ha _]. }
  rewrite (trimStart_stops a s Ha). now apply trimEnd_plain.
Qed.

(** Continuation bytes and the lead bytes of four-byte sequences start no
    white-space code point. *)
Lemma startsNoWhiteSpace_bytes :
  allFrom (fun n => implb (((128 <=? n) && (n <? 192)) || (240 <=? n))%N
                      (startsNoWhiteSpace (ascii_of_N n))) 0 256 = true.
Proof. vm_compute. reflexivity. Qed.

Lemma startsNoWhiteSpace_byte (n : N) :
  (n < 256)%N -> ((128 <= n)%N /\ (n < 192)%N) \/ (240 <= n)%N ->
  startsNoWhiteSpace (ascii_of_N n) = true.
Proof.
  intros Hn Hr.
  pose proof (allFrom_spec _ _ _ startsNoWhiteSpace_bytes n) as H.
  change (N.of_nat 256) with 256%N in H.
  assert (H0 : (0 <= n)%N) by lia.
  assert (H256 : (n < 0 + 256)%N) by lia.
  specialize (H H0 H256). cbv beta in H.
  assert (Hc : (((128 <=? n) && (n <? 192)) || (240 <=? n))%N = true).
  { destruct Hr as [[H1 H2]|H1].
    - apply orb_true_iff. left. apply andb_true_iff.
      split; [now apply N.leb_le | now apply N.ltb_lt].
    - apply orb_true_iff. right. now apply N.leb_le. }
  rewrite Hc in H. exact H.
Qed.

Lemma utf8_beyond (cp : N) :
  (65536 <= cp)%N -> (cp < 1114112)%N ->
  isWhiteSpaceCodePoint cp = false
  /\ forallb startsNoWhiteSpace (chars (utf8 cp)) = true.
Proof.
  intros Hlo Hhi. split.
  - unfold isWhiteSpaceCodePoint.
    repeat match goal with
           | |- context [(?x =? ?y)%N] =>
               rewrite (proj2 (N.eqb_neq x y)) by lia
           | |- context [(?x <=? ?y)%N] =>
               first [ rewrite (proj2 (N.leb_gt x y)) by lia
                     | rewrite (proj2 (N.leb_le x y)) by lia ]
           end.
    reflexivity.
  - unfold utf8. cbv zeta.
    rewrite !(proj2 (N.ltb_ge _ _)) by lia.
    assert (H1 : (cp / 262144 < 16)%N) by (apply N.Div0.div_lt_upper_bound; lia).
    assert (Hbyte : forall x, (x < 64)%N ->
              startsNoWhiteSpace (ascii_of_N (128 + x)) = true).
    { intros x Hx. apply startsNoWhiteSpace_byte; lia. }
    cbn [chars forallb].
    remember (cp / 262144)%N as q eqn:Eq. clear Eq.
    rewrite (startsNoWhiteSpace_byte (240 + q)) by lia.
    rewrite !Hbyte by (apply N.mod_lt; discriminate).
    reflexivity.
Qed.

(** [trim] follows the white-space table of the language: for every code
    point, a string made of it alone is emptied exactly when the code
    point is in the table, and around other text the code point is
    stripped from both ends, and kept inside, exactly when it is in the
    table. *)
Lemma trim_follows_the_table (cp : N) :
  (cp < 1114112)%N ->
  trim (utf8 cp)
  = (if isWhiteSpaceCodePoint cp then EmptyString else utf8 cp)
  /\ trim (utf8 cp +:+ "a" +:+ utf8 cp +:+ "b" +:+ utf8 cp)
     = (if isWhiteSpaceCodePoint cp then "a" +:+ utf8 cp +:+ "b"
        else utf8 cp +:+ "a" +:+ utf8 cp +:+ "b" +:+ utf8 cp).
Proof.
  intros Hcp. destruct (N.lt_ge_cases cp 65536) as [Hlo|Hhi].
  - pose proof (allFrom_spec _ _ _ trimsAsTabulated_BMP cp) as H.
    rewrite N2Nat.id in H.
    assert (H0 : (0 <= cp)%N) by lia.
    assert (Hb : (cp < 0 + 65536)%N) by lia.
    specialize (H H0 Hb).
    unfold trimsAsTabulated in H. cbv zeta in H.
    apply andb_true_iff in H as [H1 H2].
    apply String.eqb_eq in H1, H2. now split.
  - destruct (utf8_beyond cp Hhi Hcp) as (-> & Hu).
    split; [now apply trim_plain|].
    apply trim_plain.
    rewrite !chars_append, !forallb_app, Hu. reflexivity.
Qed.

End TrimFacts.

(** ** issue-spotter.js: escaping *)

Section Escaping.
Import JsString IssueSpotter.

(** The five replacements, run one after the other, replace each character
    by its entity: no replacement rewrites the output of an earlier one in a
    way that matters, since [&] goes first. *)
Lemma replacements_escapeEach (s : string) :
  replaceAll "'" "&#039;"
    (replaceAll dquote "&quot;"
       (replaceAll ">" "&gt;"
          (replaceAll "<" "&lt;" (replaceAll "&" "&amp;" s))))
  = escapeEach s.
Proof.
  induction s as [|a s IH]; [reflexivity|].
  change (replaceAll "&" "&amp;" (String a s))
    with ((if Ascii.eqb a "&" then "&amp;" else String a EmptyString)
            +:+ replaceAll "&" "&amp;" s).
  rewrite !replaceAll_append, IH.
  change (escapeEach (String a s)) with (entity a +:+ escapeEach s).
  f_equal.
  destruct a as [[] [] [] [] [] [] [] []]; reflexivity.
Qed.

Lemma entity_markupFree (a : ascii) :
  forallb (fun x => negb (markupChar x)) (chars (entity a)) = true.
Proof. destruct a as [[] [] [] [] [] [] [] []]; reflexivity. Qed.

Lemma escapeEach_markupFree (s : string) : markupFree (escapeEach s).
Proof.
  unfold markupFree. induction s as [|a s IH]; intros x Hx.
  - simpl in Hx. now apply elem_of_nil in Hx.
  - change (escapeEach (String a s)) with (entity a +:+ escapeEach s) in Hx.
    rewrite chars_append, elem_of_app in Hx. destruct Hx as [Hx|Hx]; [|auto].
    pose proof (entity_markupFree a) as Hall.
    rewrite forallb_forall in Hall.
    apply list_elem_of_In, Hall, negb_true_iff in Hx. exact Hx.
Qed.

Lemma toString_or_empty (v : jsval) :
  truthy v = true -> toString (js_or v (JStr EmptyString)) = toString v.
Proof. unfold js_or. now intros ->. Qed.

Lemma escapeHtml_escapeEach (v : jsval) :
  escapeHtml v = escapeEach (toString (js_or v (JStr EmptyString))).
Proof. unfold escapeHtml. apply replacements_escapeEach. Qed.

Lemma escapeHtml_JStr (s : string) : escapeHtml (JStr s) = escapeEach s.
Proof.
  rewrite escapeHtml_escapeEach. f_equal.
  unfold js_or. simpl. now destruct s.
Qed.

(** C7. Every string that [renderFindings] and [renderCitations] insert as
    markup is a fixed [<strong>] label followed by escaped text: the risk,
    the suggestion, the span label, the citation's page label and its
    snippet all pass through [escapeHtml], which replaces every [&], [<],
    [>], double quote and single quote by its entity; the escaped text
    therefore holds no character that could open a tag or close an
    attribute. *)
Theorem untrusted_fields_are_escaped :
  (forall v, escapeHtml v = escapeEach (toString (js_or v (JStr EmptyString))))
  /\ (forall s, markupFree (escapeEach s))
  /\ (forall items arts a p,
        renderFindings items = Articles arts ->
        a ∈ arts -> p ∈ innerHTML a ->
        exists i item, items !! i = Some item /\
          (p = "<strong>Risk:</strong> " +:+ escapeEach (toString (risk item))
           \/ p = "<strong>Suggestion:</strong> "
                    +:+ escapeEach (toString (suggestion item))
           \/ exists s, fspan item = Some s /\
                p = "<strong>Span:</strong> "
                      +:+ escapeEach (join bullet (spanParts s))))
  /\ (forall items arts a p,
        renderCitations items = Articles arts ->
        a ∈ arts -> p ∈ innerHTML a ->
        exists item, item ∈ items /\
          p = "<strong>" +:+ escapeEach (toString (pageLabel item))
                +:+ ":</strong> "
                +:+ escapeEach (toString (js_or (snippet item) (JStr EmptyString)))).
Proof.
  split; [exact escapeHtml_escapeEach|].
  split; [exact escapeEach_markupFree|].
  split.
  - intros items arts a p Hr Ha Hp.
    destruct items as [|x items]; [discriminate|].
    remember (x :: items) as l eqn:El.
    assert (Hl : arts = imap renderFinding l) by (subst l; now injection Hr).
    subst arts. clear Hr El.
    apply elem_of_lookup_imap_1 in Ha as (i & item & -> & Hi).
    exists i, item. split; [exact Hi|].
    simpl in Hp. rewrite !elem_of_app in Hp.
    destruct Hp as [Hp|[Hp|Hp]].
    + destruct (truthy (risk item)) eqn:E; [|now apply elem_of_nil in Hp].
      apply list_elem_of_singleton in Hp. left.
      now rewrite Hp, escapeHtml_escapeEach, toString_or_empty.
    + destruct (truthy (suggestion item)) eqn:E; [|now apply elem_of_nil in Hp].
      apply list_elem_of_singleton in Hp. right; left.
      now rewrite Hp, escapeHtml_escapeEach, toString_or_empty.
    + destruct (fspan item) as [s|]; [|now apply elem_of_nil in Hp].
      destruct (truthy (page s) || truthy (start s) || truthy (end_ s));
        [|now apply elem_of_nil in Hp].
      apply list_elem_of_singleton in Hp. right; right.
      exists s. split; [reflexivity|]. now rewrite Hp, escapeHtml_JStr.
  - intros items arts a p Hr Ha Hp.
    destruct items as [|x items]; [discriminate|].
    remember (x :: items) as l eqn:El.
    assert (Hl : arts = renderCitation <$> l) by (subst l; now injection Hr).
    subst arts. clear Hr El.
    apply list_elem_of_fmap in Ha as (item & -> & Hin).
    exists item. split; [exact Hin|].
    simpl in Hp. apply list_elem_of_singleton in Hp.
    rewrite Hp, !escapeHtml_escapeEach.
    assert (Hl : toString (js_or (pageLabel item) (JStr EmptyString))
                 = toString (pageLabel item)).
    { unfold pageLabel. destruct (truthy (cpage item)); reflexivity. }
    assert (Hs : toString (js_or (js_or (snippet item) (JStr EmptyString))
                             (JStr EmptyString))
                 = toString (js_or (snippet item) (JStr EmptyString))).
    { unfold js_or. destruct (truthy (snippet item)) eqn:E; [now rewrite E|reflexivity]. }
    now rewrite Hl, Hs.
Qed.

End Escaping.

(** ** witness-finder.js: the filter engine *)

Section Filtering.
Import JsString WitnessFinder.
Variable Number_toString : Q -> string.
Variable String_toLowerCase : string -> string.
Variable TypeError_message : string.

Lemma Qlt_bool_false (x y : Q) : Qlt_bool x y = false <-> (y <= x)%Q.
Proof. unfold Qlt_bool, Qle. rewrite Z.ltb_ge. reflexivity. Qed.

Lemma numberOrZero_default (o : option Q) :
  (numberOrZero o == default 0 o)%Q.
Proof.
  unfold numberOrZero, truthyNum. destruct o as [q|]; simpl; [|reflexivity].
  destruct (Qeq_bool q 0) eqn:E; simpl; [|reflexivity].
  apply Qeq_bool_iff in E. now rewrite E.
Qed.

Lemma nonEmpty_false (s : string) : nonEmpty s = false <-> s = EmptyString.
Proof. destruct s; simpl; split; congruence. Qed.

(** One text filter of the callback: it rejects nothing when the query is
    empty, and otherwise asks that the field, in lower case, contain it. *)
Lemma textFilter_spec (field : option string) (query : string) :
  nonEmpty query
  && negb (includes (String_toLowerCase (default EmptyString field)) query)
  = false
  <-> query = EmptyString
      \/ contains (String_toLowerCase (default EmptyString field)) query.
Proof.
  rewrite andb_false_iff, negb_false_iff, nonEmpty_false, includes_spec.
  reflexivity.
Qed.

Lemma passes_spec (minSimilarity minExperience : Q)
    (sectorQuery locationQuery : string) (c : candidate) :
  passes String_toLowerCase minSimilarity minExperience
    sectorQuery locationQuery c = true
  <-> (minSimilarity <= similarity_score c)%Q
      /\ (minExperience <= default 0%Q (years_experience c))%Q
      /\ (sectorQuery = EmptyString
          \/ contains (String_toLowerCase (default EmptyString (sector c)))
               sectorQuery)
      /\ (locationQuery = EmptyString
          \/ contains (String_toLowerCase (default EmptyString (location c)))
               locationQuery).
Proof.
  unfold passes.
  rewrite <- (numberOrZero_default (years_experience c)).
  rewrite <- !Qlt_bool_false, <- !textFilter_spec.
  destruct (Qlt_bool (similarity_score c) minSimilarity);
    [split; [discriminate | intros [? _]; discriminate]|].
  destruct (Qlt_bool (numberOrZero (years_experience c)) minExperience);
    [split; [discriminate | intros (_ & ? & _); discriminate]|].
  destruct (nonEmpty sectorQuery && _);
    [split; [discriminate | intros (_ & _ & ? & _); discriminate]|].
  destruct (nonEmpty locationQuery && _);
    [split; [discriminate | intros (_ & _ & _ & ?); discriminate]|].
  now split.
Qed.

Lemma filter_sublist {A} (f : A -> bool) (l : list A) :
  sublist (List.filter f l) l.
Proof.
  induction l as [|x l IH]; simpl; [constructor|].
  destruct (f x); now constructor.
Qed.

Lemma renderEmptyState_st (w : world) : st (renderEmptyState w) = st w.
Proof. unfold renderEmptyState. now destruct (emptyEl (view w)). Qed.

Lemma renderResults_st (w : world) :
  st (renderResults Number_toString w) = st w.
Proof.
  unfold renderResults. destruct (resultsEl (view w)); [|reflexivity].
  now rewrite renderEmptyState_st.
Qed.

Lemma applyFilters_filtered (w : world) :
  filtered (st (applyFilters Number_toString String_toLowerCase w))
  = List.filter
      (passes String_toLowerCase (default 0%Q (filterSimilarity (inputs w)))
         (default 0%Q (filterExperience (inputs w)))
         (String_toLowerCase (trim (filterSector (inputs w))))
         (String_toLowerCase (trim (filterLocation (inputs w)))))
      (results (st w)).
Proof. unfold applyFilters. now rewrite renderResults_st. Qed.

Lemma applyFilters_results (w : world) :
  results (st (applyFilters Number_toString String_toLowerCase w)) = results (st w).
Proof. unfold applyFilters. now rewrite renderResults_st. Qed.

Lemma applyFilters_saved (w : world) :
  saved (st (applyFilters Number_toString String_toLowerCase w)) = saved (st w).
Proof. unfold applyFilters. now rewrite renderResults_st. Qed.

(** C1 (amended). The filtered view is a subsequence of the result set, the
    result set itself is left alone, and a candidate is in the view exactly
    when it is a result whose similarity reaches the minimum, whose years of
    experience (0 when missing) reach the minimum, and whose sector and
    location, put in lower case, each contain the query of the
    corresponding filter: the text of the filter with the white space
    around it trimmed, put in lower case.  A query that is empty rejects
    nothing.  Lower case is what [String.prototype.toLowerCase] gives, and
    the statement holds whatever that function is. *)
Theorem filtered_view_characterised (w : world) :
  let view := filtered (st (applyFilters Number_toString String_toLowerCase w)) in
  let minSimilarity := default 0%Q (filterSimilarity (inputs w)) in
  let minExperience := default 0%Q (filterExperience (inputs w)) in
  let sectorQuery := String_toLowerCase (trim (filterSector (inputs w))) in
  let locationQuery := String_toLowerCase (trim (filterLocation (inputs w))) in
  sublist view (results (st w))
  /\ results (st (applyFilters Number_toString String_toLowerCase w))
     = results (st w)
  /\ forall c, c ∈ view <->
       c ∈ results (st w)
       /\ (minSimilarity <= similarity_score c)%Q
       /\ (minExperience <= default 0%Q (years_experience c))%Q
       /\ (sectorQuery = EmptyString
           \/ contains (String_toLowerCase (default EmptyString (sector c)))
                sectorQuery)
       /\ (locationQuery = EmptyString
           \/ contains (String_toLowerCase (default EmptyString (location c)))
                locationQuery).
Proof.
  cbv zeta. unfold applyFilters. rewrite renderResults_st. simpl.
  split; [apply filter_sublist|]. split; [reflexivity|].
  intros c. rewrite !list_elem_of_In, filter_In, passes_spec. reflexivity.
Qed.

End Filtering.

(** C1, as stated, fails when a filter box holds only white space: the
    filter is not empty and the sector ["Pharma"] does not contain a blank,
    case ignored, yet the candidate stays in the view.  The texts are
    ASCII, where lower case is [toLowerCaseAscii]. *)
Lemma blank_sector_filter_keeps_candidate :
  Examples.alice
    ∈ WitnessFinder.filtered
        (WitnessFinder.st
           (WitnessFinder.applyFilters WitnessFinder.integerToString
               JsString.toLowerCaseAscii
              Examples.blankSector))
  /\ WitnessFinder.filterSector (WitnessFinder.inputs Examples.blankSector)
     <> EmptyString
  /\ ~ JsString.contains (JsString.toLowerCaseAscii "Pharma")
         (JsString.toLowerCaseAscii
            (WitnessFinder.filterSector (WitnessFinder.inputs
                Examples.blankSector))).
Proof.
  split; [|split].
  - vm_compute. apply list_elem_of_here.
  - discriminate.
  - intros H. apply includes_spec in H. vm_compute in H. discriminate.
Qed.

(** The scenario of the specification: with a minimum similarity of 50 the
    view holds the first candidate only. *)
Example scenario_min_similarity_50 :
  WitnessFinder.filtered
    (WitnessFinder.st
       (WitnessFinder.step WitnessFinder.integerToString
          JsString.toLowerCaseAscii Examples.typeErrorMessage
          (WitnessFinder.step WitnessFinder.integerToString
             JsString.toLowerCaseAscii Examples.typeErrorMessage
             Examples.searched (WitnessFinder.EditFilters Examples.atLeast50))
          WitnessFinder.FiltersInput))
  = [Examples.alice].
Proof. vm_compute. reflexivity. Qed.

(** ** witness-finder.js: the clipboard summary *)

Section Clipboard.
Import JsString WitnessFinder.
Variable Number_toString : Q -> string.
Variable String_toLowerCase : string -> string.
Variable TypeError_message : string.

Lemma filled_line (label : string) (o : option string) :
  (if truthyStr o then label +:+ default EmptyString o else EmptyString)
  = match filled o with Some v => label +:+ v | None => EmptyString end.
Proof.
  destruct o as [s|]; simpl; [|reflexivity]. now destruct (nonEmpty s).
Qed.

Lemma copiedLines_summaryLines (c : candidate) :
  copiedLines Number_toString c = summaryLines Number_toString c.
Proof.
  unfold copiedLines, copyLines, summaryLines, labelled.
  rewrite !filled_line.
  destruct (filled (title c)), (filled (organization c)), (filled (sector c)),
    (filled (location c)), (years_experience c), (filled (summary c)),
    (skills c) as [[|? ?]|], (links c) as [[|? ?]|]; reflexivity.
Qed.

(** C9 (amended). The text sent to the clipboard is made of one line per
    field, in the order name, title, organization, sector, location, years
    of experience, similarity, summary, skills, links, joined by line
    breaks.  The name line and the similarity line are always there; the
    line of any other field is left out when the field is absent or empty
    (for the years of experience: when it is not a number). *)
Theorem copied_summary_lines (c : candidate) (w : world) :
  copiedLines Number_toString c
  = labelled "Name" (Some (name c))
    ++ labelled "Title" (filled (title c))
    ++ labelled "Organization" (filled (organization c))
    ++ labelled "Sector" (filled (sector c))
    ++ labelled "Location" (filled (location c))
    ++ labelled "Years experience" (Number_toString <$> years_experience c)
    ++ labelled "Similarity" (Some (Number_toString (similarity_score c) +:+ "%"))
    ++ labelled "Summary" (filled (summary c))
    ++ labelled "Skills" (filledList (skills c))
    ++ labelled "Links" (filledList (links c))
  /\ clipboard (env (copyCandidate Number_toString c w))
     = clipboard (env w) ++ [join newline (copiedLines Number_toString c)].
Proof.
  split; [apply copiedLines_summaryLines | reflexivity].
Qed.

End Clipboard.

(** C9, as stated, fails for the name: a candidate whose name is empty still
    gets its [Name:] line. *)
Lemma empty_name_is_not_omitted :
  WitnessFinder.name Examples.nameless = EmptyString
  /\ WitnessFinder.copiedLines WitnessFinder.integerToString Examples.nameless
     = ["Name: "; "Similarity: 90%"].
Proof. split; vm_compute; reflexivity. Qed.

(** ** The [Map] of saved candidates *)

Section MapFacts.
Context {K V : Type} `{EqDecision K}.
Implicit Types (m : list (K * V)) (k : K) (v : V).

Lemma elem_of_set m k v x :
  x ∈ JsMap.set k v m -> x = (k, v) \/ x ∈ m.
Proof.
  induction m as [|[k' v'] m IH]; simpl.
  - rewrite list_elem_of_singleton. auto.
  - destruct (decide (k' = k)); rewrite !elem_of_cons; [tauto|].
    intros [->|Hx]; [tauto|]. destruct (IH Hx); tauto.
Qed.

Lemma elem_of_delete m k x : x ∈ JsMap.delete k m -> x ∈ m.
Proof.
  induction m as [|[k' v'] m IH]; simpl; [tauto|].
  destruct (decide (k' = k)); rewrite !elem_of_cons; [tauto|].
  intros [->|Hx]; auto.
Qed.

Lemma keys_set_present m k v :
  JsMap.has k m = true -> JsMap.keys (JsMap.set k v m) = JsMap.keys m.
Proof.
  unfold JsMap.has, JsMap.keys.
  induction m as [|[k' v'] m IH]; simpl; [discriminate|].
  destruct (decide (k' = k)) as [->|Hne]; simpl; [reflexivity|].
  intros Hhas. f_equal. exact (IH Hhas).
Qed.

Lemma keys_set_absent m k v :
  JsMap.has k m = false -> JsMap.keys (JsMap.set k v m) = JsMap.keys m ++ [k].
Proof.
  unfold JsMap.has, JsMap.keys.
  induction m as [|[k' v'] m IH]; simpl; [reflexivity|].
  destruct (decide (k' = k)) as [->|Hne]; simpl; [discriminate|].
  intros Hhas. f_equal. exact (IH Hhas).
Qed.

Lemma has_elem_of m k : JsMap.has k m = true <-> k ∈ JsMap.keys m.
Proof.
  unfold JsMap.has, JsMap.keys.
  induction m as [|[k' v'] m IH]; simpl.
  - split; [discriminate | intros H'; now apply elem_of_nil in H'].
  - rewrite elem_of_cons. destruct (decide (k' = k)) as [->|Hne].
    + split; auto.
    + rewrite IH. split; [intros ?; right; assumption|].
      intros [?|?]; [congruence | assumption].
Qed.

Lemma NoDup_keys_set m k v :
  NoDup (JsMap.keys m) -> NoDup (JsMap.keys (JsMap.set k v m)).
Proof.
  intros Hnd. destruct (JsMap.has k m) eqn:E.
  - now rewrite keys_set_present.
  - rewrite keys_set_absent by exact E.
    apply NoDup_app. split; [exact Hnd|]. split; [|apply NoDup_singleton].
    intros x Hx Hk. apply list_elem_of_singleton in Hk as ->.
    apply has_elem_of in Hx. congruence.
Qed.

Lemma keys_delete_sublist m k :
  sublist (JsMap.keys (JsMap.delete k m)) (JsMap.keys m).
Proof.
  unfold JsMap.keys. induction m as [|[k' v'] m IH]; simpl; [constructor|].
  destruct (decide (k' = k)); simpl; now constructor.
Qed.

Lemma NoDup_keys_delete m k :
  NoDup (JsMap.keys m) -> NoDup (JsMap.keys (JsMap.delete k m)).
Proof.
  intros Hnd. exact (sublist_NoDup _ _ Hnd (keys_delete_sublist m k)).
Qed.

Lemma get_set_eq m k v : JsMap.get k (JsMap.set k v m) = Some v.
Proof.
  induction m as [|[k' v'] m IH]; simpl.
  - now rewrite decide_True.
  - destruct (decide (k' = k)); simpl.
    + now rewrite decide_True.
    + now rewrite decide_False.
Qed.

Lemma set_get_id m k v : JsMap.get k m = Some v -> JsMap.set k v m = m.
Proof.
  induction m as [|[k' v'] m IH]; simpl; [discriminate|].
  destruct (decide (k' = k)) as [->|Hne].
  - now intros [= ->].
  - intros Hg. now rewrite IH.
Qed.

Lemma set_set m k v : JsMap.set k v (JsMap.set k v m) = JsMap.set k v m.
Proof. apply set_get_id, get_set_eq. Qed.

Lemma has_delete m k :
  NoDup (JsMap.keys m) -> JsMap.has k (JsMap.delete k m) = false.
Proof.
  intros Hnd. destruct (JsMap.has k (JsMap.delete k m)) eqn:E; [|reflexivity].
  exfalso. apply has_elem_of in E. revert Hnd E. unfold JsMap.keys.
  induction m as [|[k' v'] m IH]; simpl.
  - intros _ H'. now apply elem_of_nil in H'.
  - rewrite NoDup_cons. intros [Hk Hnd]. destruct (decide (k' = k)) as [->|Hne].
    + intros Hin. exact (Hk Hin).
    + simpl. rewrite elem_of_cons. intros [?|?]; [congruence | auto].
Qed.

End MapFacts.

(** ** witness-finder.js: saving and removing candidates *)

Section Reconciler.
Import JsString WitnessFinder.
Variable Number_toString : Q -> string.
Variable String_toLowerCase : string -> string.
Variable TypeError_message : string.

Lemma showToast_st (message : string) (w : world) : st (showToast message w) = st w.
Proof. unfold showToast. now destruct (toastContainer (view w)). Qed.

Lemma showToast_env (message : string) (w : world) : env (showToast message w) = env w.
Proof. unfold showToast. now destruct (toastContainer (view w)). Qed.

Lemma showToast_top (message : string) (w : world) : top (showToast message w) = top w.
Proof. unfold showToast. now destruct (toastContainer (view w)). Qed.

Lemma showToast_buttons (message : string) (w : world) :
  buttons (view (showToast message w)) = buttons (view w).
Proof. unfold showToast. now destruct (toastContainer (view w)). Qed.

Lemma showToast_shown (message : string) (w : world) (ts : list string) :
  toastContainer (view w) = Some ts ->
  toastContainer (view (showToast message w)) = Some (ts ++ [message]).
Proof. unfold showToast. now intros ->. Qed.

Lemma renderSaved_st (w : world) : st (renderSaved w) = st w.
Proof.
  unfold renderSaved. destruct (savedPane (view w)); [|reflexivity].
  now destruct (JsMap.values (saved (st w))).
Qed.

Lemma renderSaved_env (w : world) : env (renderSaved w) = env w.
Proof.
  unfold renderSaved. destruct (savedPane (view w)); [|reflexivity].
  now destruct (JsMap.values (saved (st w))).
Qed.

Lemma renderSaved_toasts (w : world) :
  toastContainer (view (renderSaved w)) = toastContainer (view w).
Proof.
  unfold renderSaved. destruct (savedPane (view w)); [|reflexivity].
  now destruct (JsMap.values (saved (st w))).
Qed.

Lemma renderSaved_buttons (w : world) :
  buttons (view (renderSaved w)) = buttons (view w).
Proof.
  unfold renderSaved. destruct (savedPane (view w)); [|reflexivity].
  now destruct (JsMap.values (saved (st w))).
Qed.

Lemma renderSaved_resultsEl (w : world) :
  resultsEl (view (renderSaved w)) = resultsEl (view w).
Proof.
  unfold renderSaved. destruct (savedPane (view w)); [|reflexivity].
  now destruct (JsMap.values (saved (st w))).
Qed.

(** What the saved list shows once [renderSaved] has run. *)
Lemma renderSaved_list (w : world) (els : savedEls) :
  savedPane (view w) = Some els ->
  exists els', savedPane (view (renderSaved w)) = Some els'
    /\ savedListEl els' = renderSavedCard <$> JsMap.values (saved (st w)).
Proof.
  unfold renderSaved. intros ->.
  destruct (JsMap.values (saved (st w))) eqn:E; simpl; eauto.
Qed.

(** C4. When the save request fails (the network call is rejected or the
    response is not a 2xx) the [state] object, and with it the saved cache,
    is what it was; every save button is left as it was, so the control that
    was clicked stays enabled; the toast "Unable to save candidate." is
    added; the error is written to the console and nothing else of the page
    changes (no error box, no disabled form). *)
Theorem failed_save_leaves_cache (c : candidate) (button : option nat)
    (o : outcome) (w : world) (ts : list string) :
  requestFailed o = true ->
  toastContainer (view w) = Some ts ->
  st (handleSave_resume c button o w) = st w
  /\ buttons (view (handleSave_resume c button o w)) = buttons (view w)
  /\ toastContainer (view (handleSave_resume c button o w))
     = Some (ts ++ ["Unable to save candidate."])
  /\ (exists e, console (env (handleSave_resume c button o w))
                = console (env w) ++ [e])
  /\ top (handleSave_resume c button o w) = top w
  /\ sent (env (handleSave_resume c button o w)) = sent (env w).
Proof.
  intros Hfail Hts.
  assert (Hcaught : exists e, handleSave_resume c button o w
                      = caught e (Some "Unable to save candidate.") w).
  { destruct o as [m|[] b]; simpl in Hfail; try discriminate; simpl; eauto. }
  destruct Hcaught as [e ->]. unfold caught.
  rewrite showToast_st, showToast_buttons, showToast_top, showToast_env.
  rewrite (showToast_shown _ _ ts) by exact Hts.
  simpl. repeat split; eauto.
Qed.

(** A save answered by a 2xx with a readable, non-null body. *)
Lemma handleSave_resume_stored (c : candidate) (button : option nat)
    (status detail : option string) (cs : option (list candidate)) (w : world) :
  st (handleSave_resume c button
        (Response true (Json (JsonObject status detail cs))) w)
  = set_saved (JsMap.set (id c) c (saved (st w))) (st w).
Proof.
  unfold handleSave_resume. simpl statusOf. cbv iota beta.
  rewrite renderSaved_st.
  destruct button, (bool_decide (status = Some "duplicate"));
    simpl; now rewrite showToast_st.
Qed.

Lemma handleSave_resume_success_view (c : candidate) (button : option nat)
    (status detail : option string) (cs : option (list candidate)) (w : world)
    (ts : list string) :
  toastContainer (view w) = Some ts ->
  toastContainer (view (handleSave_resume c button
                          (Response true (Json (JsonObject status detail cs))) w))
  = Some (ts ++ [if bool_decide (status = Some "duplicate")
                 then "Already saved." else "Candidate saved."])
  /\ env (handleSave_resume c button
            (Response true (Json (JsonObject status detail cs))) w) = env w.
Proof.
  intros Hts. unfold handleSave_resume. simpl statusOf. cbv iota beta.
  rewrite renderSaved_toasts, renderSaved_env.
  destruct button, (bool_decide (status = Some "duplicate"));
    simpl; rewrite ?showToast_env; unfold showToast; simpl; rewrite Hts;
    split; reflexivity.
Qed.

(** C5. A save that the backend answers with status "duplicate" for a
    candidate whose id is already a key of the cache leaves the keys of the
    cache as they were (no second entry), stores the candidate under its
    id, logs no error, and shows "Already saved."; repeating the save leaves
    the cache as the first save left it.  Apart from the toast text the
    outcome is the one of a save answered with any other status, which
    shows "Candidate saved.". *)
Theorem duplicate_save_is_idempotent (c : candidate) (button : option nat)
    (detail : option string) (cs : option (list candidate))
    (status : option string) (w : world) (ts : list string) :
  let duplicate := Response true (Json (JsonObject (Some "duplicate") detail cs)) in
  let other := Response true (Json (JsonObject status detail cs)) in
  JsMap.has (id c) (saved (st w)) = true ->
  status <> Some "duplicate" ->
  toastContainer (view w) = Some ts ->
  JsMap.keys (saved (st (handleSave_resume c button duplicate w)))
  = JsMap.keys (saved (st w))
  /\ JsMap.get (id c) (saved (st (handleSave_resume c button duplicate w))) = Some c
  /\ saved (st (handleSave_resume c button duplicate
                  (handleSave_resume c button duplicate w)))
     = saved (st (handleSave_resume c button duplicate w))
  /\ console (env (handleSave_resume c button duplicate w)) = console (env w)
  /\ toastContainer (view (handleSave_resume c button duplicate w))
     = Some (ts ++ ["Already saved."])
  /\ toastContainer (view (handleSave_resume c button other w))
     = Some (ts ++ ["Candidate saved."])
  /\ on_view (set_toastContainer None) (handleSave_resume c button duplicate w)
     = on_view (set_toastContainer None) (handleSave_resume c button other w).
Proof.
  cbv zeta. intros Hhas Hstatus Hts.
  destruct (handleSave_resume_success_view c button (Some "duplicate") detail cs w ts Hts)
    as [Hdup Henv].
  destruct (handleSave_resume_success_view c button status detail cs w ts Hts)
    as [Hother _].
  rewrite bool_decide_eq_true_2 in Hdup by reflexivity.
  rewrite bool_decide_eq_false_2 in Hother by exact Hstatus.
  rewrite Hdup, Hother, Henv, !handleSave_resume_stored.
  repeat split.
  - now apply keys_set_present.
  - apply get_set_eq.
  - apply set_set.
  - unfold handleSave_resume. simpl statusOf. cbv iota beta.
    rewrite bool_decide_eq_true_2 by reflexivity.
    rewrite (bool_decide_eq_false_2 (status = Some "duplicate")) by exact Hstatus.
    unfold showToast. simpl. rewrite Hts.
    destruct button; unfold renderSaved; simpl;
      destruct (savedPane (view w)); simpl; try reflexivity;
      destruct (JsMap.values _); reflexivity.
Qed.

Lemma showToast_inputs (message : string) (w : world) :
  inputs (showToast message w) = inputs w.
Proof. unfold showToast. now destruct (toastContainer (view w)). Qed.

Lemma renderSaved_inputs (w : world) : inputs (renderSaved w) = inputs w.
Proof.
  unfold renderSaved. destruct (savedPane (view w)); [|reflexivity].
  now destruct (JsMap.values (saved (st w))).
Qed.

Lemma renderEmptyState_frame (w : world) :
  toastContainer (view (renderEmptyState w)) = toastContainer (view w)
  /\ savedPane (view (renderEmptyState w)) = savedPane (view w)
  /\ resultsEl (view (renderEmptyState w)) = resultsEl (view w)
  /\ buttons (view (renderEmptyState w)) = buttons (view w)
  /\ env (renderEmptyState w) = env w
  /\ top (renderEmptyState w) = top w.
Proof. unfold renderEmptyState. now destruct (emptyEl (view w)). Qed.

Lemma renderResults_frame (w : world) :
  toastContainer (view (renderResults Number_toString w)) = toastContainer (view w)
  /\ savedPane (view (renderResults Number_toString w)) = savedPane (view w)
  /\ env (renderResults Number_toString w) = env w
  /\ top (renderResults Number_toString w) = top w.
Proof.
  unfold renderResults. destruct (resultsEl (view w)); [|now repeat split].
  destruct (renderEmptyState_frame
              (on_view (set_buttons (buttons (view w)
                                     ++ (newSaveBtn (saved (st w)) <$> filtered (st w))))
                 (on_view (set_resultsEl
                             (Some (imap (fun i c => renderCard Number_toString
                                                       (length (buttons (view w)) + i) c)
                                      (filtered (st w))))) w)))
    as (-> & -> & _ & _ & -> & ->).
  now repeat split.
Qed.

(** What the result list shows once [renderResults] has run: one card per
    candidate of the view, each with a button of its own, created just
    now. *)
Lemma renderResults_cards (w : world) (cards : list card) :
  resultsEl (view w) = Some cards ->
  resultsEl (view (renderResults Number_toString w))
  = Some (imap (fun i c => renderCard Number_toString (length (buttons (view w)) + i) c)
            (filtered (st w)))
  /\ buttons (view (renderResults Number_toString w))
     = buttons (view w) ++ (newSaveBtn (saved (st w)) <$> filtered (st w)).
Proof.
  unfold renderResults. intros ->.
  match goal with
  | |- context [renderEmptyState ?x] =>
      destruct (renderEmptyState_frame x) as (_ & _ & -> & -> & _)
  end.
  split; reflexivity.
Qed.

(** C6 (amended). The entry is removed from the saved cache exactly when
    the delete request is answered by a 2xx whose status is "ok"; in that
    case the toast "Removed from saved." is added, the saved list is drawn
    again from the cache, and the filtered view is computed again from the
    untouched result set and drawn again with fresh save buttons.  In every
    other case the cache is what it was; when the network call is rejected
    or the response is not a 2xx, the toast "Unable to remove candidate."
    is added. *)
Theorem delete_removes_only_on_ok (candidateId : option string) (o : outcome)
    (w : world) (ts : list string) :
  toastContainer (view w) = Some ts ->
  NoDup (JsMap.keys (saved (st w))) ->
  let w' := handleDelete_resume Number_toString String_toLowerCase candidateId o
      w in
  (replied "ok" o = true ->
     saved (st w') = JsMap.delete candidateId (saved (st w))
     /\ JsMap.has candidateId (saved (st w')) = false
     /\ toastContainer (view w') = Some (ts ++ ["Removed from saved."])
     /\ (forall els, savedPane (view w) = Some els ->
           exists els', savedPane (view w') = Some els'
             /\ savedListEl els' = renderSavedCard <$> JsMap.values (saved (st w')))
     /\ results (st w') = results (st w)
     /\ filtered (st w') = filtered (st (applyFilters Number_toString
         String_toLowerCase w))
     /\ (forall cards, resultsEl (view w) = Some cards ->
           resultsEl (view w')
           = Some (imap (fun i c => renderCard Number_toString
                                     (length (buttons (view w)) + i) c)
                     (filtered (st w')))
           /\ buttons (view w')
              = buttons (view w) ++ (newSaveBtn (saved (st w')) <$> filtered (st w'))))
  /\ (replied "ok" o = false -> saved (st w') = saved (st w))
  /\ (requestFailed o = true ->
        toastContainer (view w') = Some (ts ++ ["Unable to remove candidate."])).
Proof.
  intros Hts Hnd w'. subst w'. split; [|split].
  - intros Hok. apply bool_decide_eq_true_1 in Hok.
    destruct o as [m|[] [m|data]]; try discriminate. simpl in Hok.
    unfold handleDelete_resume. rewrite Hok.
    rewrite bool_decide_eq_true_2 by reflexivity.
    set (w1 := on_st (set_saved (JsMap.delete candidateId (saved (st w)))) w).
    set (w2 := showToast "Removed from saved." w1).
    set (w3 := renderSaved w2).
    assert (Hst3 : st w3 = st w1)
      by (unfold w3, w2; now rewrite renderSaved_st, showToast_st).
    assert (Hsaved : saved (st (applyFilters Number_toString String_toLowerCase w3))
                     = JsMap.delete candidateId (saved (st w)))
      by (now rewrite applyFilters_saved, Hst3).
    assert (Hin3 : inputs w3 = inputs w)
      by (unfold w3, w2; now rewrite renderSaved_inputs, showToast_inputs).
    assert (Hfiltered : filtered (st (applyFilters Number_toString
        String_toLowerCase w3))
                        = filtered (st (applyFilters Number_toString
                            String_toLowerCase w)))
      by (now rewrite !applyFilters_filtered, Hst3, Hin3).
    assert (Hres3 : resultsEl (view w3) = resultsEl (view w))
      by (unfold w3, w2; rewrite renderSaved_resultsEl; unfold showToast, w1;
          simpl; now rewrite Hts).
    assert (Hbtn3 : buttons (view w3) = buttons (view w))
      by (unfold w3, w2; now rewrite renderSaved_buttons, showToast_buttons).
    rewrite Hsaved, Hfiltered, applyFilters_results, Hst3.
    repeat apply conj; try reflexivity.
    + now apply has_delete.
    + unfold applyFilters.
      match goal with
      | |- context [renderResults _ ?x] =>
          destruct (renderResults_frame x) as (-> & _)
      end.
      simpl. unfold w3. rewrite renderSaved_toasts. unfold w2.
      apply showToast_shown. exact Hts.
    + intros els Hels.
      destruct (renderSaved_list w2 els) as (els' & Hpane & Hlist).
      { unfold w2, showToast, w1. simpl. rewrite Hts. exact Hels. }
      exists els'. split.
      * unfold applyFilters.
        match goal with
        | |- context [renderResults _ ?x] =>
            destruct (renderResults_frame x) as (_ & -> & _)
        end.
        exact Hpane.
      * rewrite Hlist. unfold w2. now rewrite showToast_st.
    + intros cards Hcards. rewrite <- Hfiltered, <- Hsaved.
      rewrite <- Hres3 in Hcards. rewrite <- Hbtn3.
      generalize dependent w3. intros w3 _ _ _ _ _ _ Hcards.
      unfold applyFilters.
      match goal with
      | |- context [renderResults _ ?x] =>
          destruct (renderResults_cards x cards Hcards) as (-> & ->)
      end.
      rewrite renderResults_st. split; reflexivity.
  - intros Hno. apply bool_decide_eq_false_1 in Hno.
    unfold handleDelete_resume, caught.
    destruct o as [m|[] [m|data]]; rewrite ?showToast_st; try reflexivity.
    simpl in Hno. destruct (statusOf data) as [status|].
    + destruct (bool_decide (status = Some "ok")) eqn:E; [|reflexivity].
      apply bool_decide_eq_true_1 in E. congruence.
    + now rewrite showToast_st.
  - intros Hfail. unfold handleDelete_resume, caught.
    destruct o as [m|[] b]; simpl in Hfail; try discriminate;
      now apply showToast_shown.
Qed.

(** *** The cache invariant *)

Lemma keyedById_set (c : candidate) (m : list (option string * candidate)) :
  keyedById m -> keyedById (JsMap.set (id c) c m).
Proof.
  intros Hm k c' Hin. apply elem_of_set in Hin as [[= -> ->]|Hin]; auto.
Qed.

Lemma keyedById_delete (k : option string) (m : list (option string * candidate)) :
  keyedById m -> keyedById (JsMap.delete k m).
Proof. intros Hm k' c' Hin. apply elem_of_delete in Hin. auto. Qed.

(** An entry of the cache after [fetchSaved]'s loop is an entry from before
    or a fetched candidate under its own, truthy, id. *)
Lemma keepSaved_entries (items : list (option candidate))
    (m : list (option string * candidate)) (k : option string) (c : candidate) :
  (k, c) ∈ foldl keepSaved m items ->
  (k, c) ∈ m \/ (Some c ∈ items /\ id c = k /\ truthyStr k = true).
Proof.
  revert m. induction items as [|item items IH]; intros m; simpl; [auto|].
  intros Hin. apply IH in Hin as [Hin|(Hin & Hid & Ht)].
  - destruct item as [c'|]; simpl in Hin; [|auto].
    destruct (truthyStr (id c')) eqn:E; [|auto].
    apply elem_of_set in Hin as [[= -> ->]|Hin]; [|auto].
    right. repeat split; [apply list_elem_of_here | exact E].
  - right. repeat split; [now apply list_elem_of_further | exact Hid | exact Ht].
Qed.

Lemma keepSaved_NoDup (items : list (option candidate))
    (m : list (option string * candidate)) :
  NoDup (JsMap.keys m) -> NoDup (JsMap.keys (foldl keepSaved m items)).
Proof.
  revert m. induction items as [|item items IH]; intros m Hnd; simpl; [exact Hnd|].
  apply IH. destruct item as [c|]; simpl; [|exact Hnd].
  destruct (truthyStr (id c)); [now apply NoDup_keys_set | exact Hnd].
Qed.

Lemma keepSaved_keyed (items : list (option candidate))
    (m : list (option string * candidate)) :
  keyedById m -> keyedById (foldl keepSaved m items).
Proof.
  intros Hm k c Hin. apply keepSaved_entries in Hin as [Hin|(_ & Hid & _)]; auto.
Qed.

Lemma cacheChange_keyed m m' :
  cacheChange m m' -> keyedById m -> keyedById m'.
Proof.
  intros [| | |]; auto using keyedById_set, keyedById_delete, keepSaved_keyed.
Qed.

Lemma cacheChange_NoDup m m' :
  cacheChange m m' -> NoDup (JsMap.keys m) -> NoDup (JsMap.keys m').
Proof.
  intros [| | |]; auto using NoDup_keys_set, NoDup_keys_delete, keepSaved_NoDup.
Qed.

Lemma handleSave_resume_cache (c : candidate) (button : option nat)
    (o : outcome) (w : world) :
  cacheChange (saved (st w)) (saved (st (handleSave_resume c button o w))).
Proof.
  destruct o as [m|[] [m|data]]; unfold handleSave_resume, caught;
    rewrite ?showToast_st; try apply cacheSame.
  destruct (statusOf data) as [status|].
  - rewrite renderSaved_st.
    destruct button, (bool_decide (status = Some "duplicate")); simpl;
      rewrite showToast_st; apply cacheSet.
  - rewrite showToast_st. apply cacheSet.
Qed.

Lemma handleDelete_resume_cache (k : option string) (o : outcome) (w : world) :
  cacheChange (saved (st w))
    (saved (st (handleDelete_resume Number_toString String_toLowerCase k o w))).
Proof.
  destruct o as [m|[] [m|data]]; unfold handleDelete_resume, caught;
    rewrite ?showToast_st; try apply cacheSame.
  destruct (statusOf data) as [status|]; [|rewrite showToast_st; apply cacheSame].
  destruct (bool_decide (status = Some "ok")); [|apply cacheSame].
  rewrite applyFilters_saved, renderSaved_st, showToast_st. apply cacheDelete.
Qed.

Lemma fetchSaved_resume_cache (o : outcome) (w : world) :
  cacheChange (saved (st w)) (saved (st (fetchSaved_resume o w))).
Proof.
  destruct o as [m|[] [m|data]]; unfold fetchSaved_resume, caught;
    try apply cacheSame.
  rewrite renderSaved_st. destruct data; try apply cacheSame. apply cacheFetched.
Qed.

Lemma updateStatus_st (message : string) (w : world) :
  st (updateStatus message w) = st w.
Proof. unfold updateStatus. now destruct (statusEl (top w)). Qed.

Lemma showErrorEl_st (message : string) (w : world) :
  st (showErrorEl message w) = st w.
Proof. unfold showErrorEl. now destruct (errorEl (top w)). Qed.

Lemma startLoading_saved (w : world) : saved (st (startLoading w)) = saved (st w).
Proof.
  unfold startLoading, clearErrorEl. destruct (loadingEl (top w)); [|reflexivity].
  simpl. now destruct (errorEl (top w)).
Qed.

Lemma onSubmit_begin_saved (w : world) :
  saved (st (onSubmit_begin w)) = saved (st w).
Proof.
  unfold onSubmit_begin. destruct (loading (st w)); [reflexivity|].
  destruct (_ || _).
  - now destruct (errorEl (top w)).
  - simpl. now rewrite updateStatus_st, startLoading_saved.
Qed.

Lemma onSubmit_resume_saved (o : outcome) (w : world) :
  saved (st (onSubmit_resume Number_toString String_toLowerCase
      TypeError_message o w)) = saved (st w).
Proof.
  assert (Hfail : forall e, saved (st (searchFailed TypeError_message e w)) =
      saved (st w)).
  { intros e. unfold searchFailed, stopLoading. simpl.
    now rewrite updateStatus_st, showErrorEl_st. }
  unfold onSubmit_resume.
  destruct (performSearch_result o) as [e|[m|data]]; auto.
  unfold stopLoading. simpl.
  match goal with
  | |- context [match ?x with [] => _ | _ :: _ => _ end] => destruct x
  end; now rewrite updateStatus_st, applyFilters_saved.
Qed.

Lemma stopLoading_timeout_st (success : bool) (w : world) :
  st (stopLoading_timeout success w) = st w.
Proof.
  unfold stopLoading_timeout.
  destruct (loadingEl (top w)); simpl; destruct (firstControl (top w)); simpl;
    destruct success; reflexivity.
Qed.

Lemma clickSave_st (b : nat) (w : world) : st (clickSave b w) = st w.
Proof.
  unfold clickSave. destruct (resultsEl (view w)); [|reflexivity].
  destruct (bool_decide _); [|reflexivity].
  destruct (buttons (view w) !! b) as [btn|]; [|reflexivity].
  now destruct (disabled btn).
Qed.

Lemma clickRemove_st (i : nat) (w : world) : st (clickRemove i w) = st w.
Proof.
  unfold clickRemove. destruct (savedPane (view w)) as [els|]; [|reflexivity].
  now destruct (savedListEl els !! i).
Qed.

Lemma step_cache (w : world) (e : event) :
  cacheChange (saved (st w)) (saved (st (step Number_toString String_toLowerCase
      TypeError_message w e))).
Proof.
  destruct e as [|d|f| |b|c|i|i o|success|resolved]; simpl.
  - rewrite onSubmit_begin_saved. apply cacheSame.
  - apply cacheSame.
  - apply cacheSame.
  - rewrite applyFilters_saved. apply cacheSame.
  - rewrite clickSave_st. apply cacheSame.
  - apply cacheSame.
  - rewrite clickRemove_st. apply cacheSame.
  - unfold settle. destruct (pending (env w) !! i) as [k|]; [|apply cacheSame].
    destruct k as [|c button|k|].
    + rewrite onSubmit_resume_saved. apply cacheSame.
    + apply (handleSave_resume_cache c button o
               (on_env (set_pending (take i (pending (env w))
                                     ++ drop (S i) (pending (env w)))) w)).
    + apply (handleDelete_resume_cache k o
               (on_env (set_pending (take i (pending (env w))
                                     ++ drop (S i) (pending (env w)))) w)).
    + apply (fetchSaved_resume_cache o
               (on_env (set_pending (take i (pending (env w))
                                     ++ drop (S i) (pending (env w)))) w)).
  - rewrite stopLoading_timeout_st. apply cacheSame.
  - unfold copyCandidate_settled. destruct resolved; rewrite showToast_st;
      apply cacheSame.
Qed.

Lemma reachable_cache (w : world) :
  reachable Number_toString String_toLowerCase TypeError_message w ->
  keyedById (saved (st w)) /\ NoDup (JsMap.keys (saved (st w))).
Proof.
  induction 1 as [w (Hst & _)|w e _ [IHk IHn]].
  - rewrite Hst. simpl. split; [|constructor].
    intros k c Hin. now apply elem_of_nil in Hin.
  - split.
    + exact (cacheChange_keyed _ _ (step_cache w e) IHk).
    + exact (cacheChange_NoDup _ _ (step_cache w e) IHn).
Qed.

(** C10. In every reachable state each key of the saved cache is the id of
    the candidate stored under it (and no key occurs twice).  The three
    operations that write the cache keep it so: [fetchSaved] and
    [handleSave] store a candidate under its own id, [handleDelete] only
    removes.  An entry that [fetchSaved] adds comes from the fetched list
    and has an id that is present and not empty. *)
Theorem saved_cache_keyed_by_id :
  (forall w, reachable Number_toString String_toLowerCase TypeError_message w ->
     keyedById (saved (st w)) /\ NoDup (JsMap.keys (saved (st w))))
  /\ (forall o w, keyedById (saved (st w)) ->
        keyedById (saved (st (fetchSaved_resume o w))))
  /\ (forall c button o w, keyedById (saved (st w)) ->
        keyedById (saved (st (handleSave_resume c button o w))))
  /\ (forall k o w, keyedById (saved (st w)) ->
        keyedById (saved (st (handleDelete_resume Number_toString
            String_toLowerCase k o w))))
  /\ (forall o w k c,
        (k, c) ∈ saved (st (fetchSaved_resume o w)) ->
        (k, c) ∈ saved (st w)
        \/ (id c = k /\ exists s, k = Some s /\ s <> EmptyString)).
Proof.
  split; [exact reachable_cache|].
  split; [intros o w; apply cacheChange_keyed, fetchSaved_resume_cache|].
  split; [intros c button o w; apply cacheChange_keyed, handleSave_resume_cache|].
  split; [intros k o w; apply cacheChange_keyed, handleDelete_resume_cache|].
  intros o w k c Hin.
  assert (Hcases : saved (st (fetchSaved_resume o w)) = saved (st w)
                   \/ exists items, saved (st (fetchSaved_resume o w))
                                    = foldl keepSaved (saved (st w)) items).
  { destruct o as [m|[] [m|data]]; unfold fetchSaved_resume, caught; auto.
    rewrite renderSaved_st. destruct data; eauto. }
  destruct Hcases as [Heq|[items Heq]]; rewrite Heq in Hin; [auto|].
  apply keepSaved_entries in Hin as [Hin|(_ & Hid & Ht)]; [auto|].
  right. split; [exact Hid|].
  destruct k as [s|]; [|discriminate]. exists s. split; [reflexivity|].
  intros ->. discriminate.
Qed.

(** *** The save control *)

(** *** Where buttons come from and what changes them *)

(** [renderResults] keeps every button there is and adds one per card,
    disabled exactly when the candidate's id is in the cache. *)
Lemma renderResults_buttons (w : world) (b : nat) (btn' : button) :
  buttons (view (renderResults Number_toString w)) !! b = Some btn' ->
  buttons (view w) !! b = Some btn'
  \/ ((length (buttons (view w)) <= b)%nat
      /\ exists c, btn' = newSaveBtn (saved (st w)) c).
Proof.
  destruct (resultsEl (view w)) as [cards|] eqn:Hcards.
  - destruct (renderResults_cards w cards Hcards) as (_ & ->).
    intros H. apply lookup_app_Some in H as [H|[Hlen H]]; [now left|right].
    split; [exact Hlen|].
    apply list_lookup_fmap_Some in H as (c & -> & _). now exists c.
  - unfold renderResults. rewrite Hcards. now left.
Qed.

Lemma applyFilters_buttons (w : world) (b : nat) (btn' : button) :
  buttons (view (applyFilters Number_toString String_toLowerCase w)) !! b
  = Some btn' ->
  buttons (view w) !! b = Some btn'
  \/ ((length (buttons (view w)) <= b)%nat
      /\ exists c, btn' = newSaveBtn (saved (st w)) c).
Proof.
  unfold applyFilters. intros H.
  apply renderResults_buttons in H. exact H.
Qed.

Lemma caught_buttons (e : error) (toast : option string) (w : world) :
  buttons (view (caught e toast w)) = buttons (view w).
Proof.
  unfold caught. destruct toast; [|reflexivity]. now rewrite showToast_buttons.
Qed.

Lemma updateStatus_view (message : string) (w : world) :
  view (updateStatus message w) = view w.
Proof. unfold updateStatus. now destruct (statusEl (top w)). Qed.

Lemma showErrorEl_view (message : string) (w : world) :
  view (showErrorEl message w) = view w.
Proof. unfold showErrorEl. now destruct (errorEl (top w)). Qed.

Lemma onSubmit_begin_buttons (w : world) :
  buttons (view (onSubmit_begin w)) = buttons (view w).
Proof.
  unfold onSubmit_begin. destruct (loading (st w)); [reflexivity|].
  destruct (_ || _).
  - now destruct (errorEl (top w)).
  - simpl. rewrite updateStatus_view. unfold startLoading, clearErrorEl.
    destruct (loadingEl (top w)); [|reflexivity].
    simpl. now destruct (errorEl (top w)).
Qed.

Lemma onSubmit_resume_buttons (o : outcome) (w : world) (b : nat) (btn' : button) :
  buttons (view (onSubmit_resume Number_toString String_toLowerCase
                   TypeError_message o w)) !! b = Some btn' ->
  buttons (view w) !! b = Some btn'
  \/ ((length (buttons (view w)) <= b)%nat
      /\ exists c,
           btn' = newSaveBtn
                    (saved (st (onSubmit_resume Number_toString String_toLowerCase
                                  TypeError_message o w))) c).
Proof.
  rewrite onSubmit_resume_saved.
  assert (Hfail : forall e, view (searchFailed TypeError_message e w) = view w).
  { intros e. unfold searchFailed, stopLoading. simpl.
    now rewrite updateStatus_view, showErrorEl_view. }
  unfold onSubmit_resume.
  destruct (performSearch_result o) as [e|[m|data]];
    try (rewrite Hfail; now left).
  unfold stopLoading. simpl.
  match goal with
  | |- context [match ?x with [] => _ | _ :: _ => _ end] => destruct x
  end; rewrite updateStatus_view; intros H;
    apply applyFilters_buttons in H; exact H.
Qed.

Lemma handleSave_resume_buttons (c : candidate) (button : option nat)
    (o : outcome) (w : world) :
  buttons (view (handleSave_resume c button o w))
  = match o, button with
    | Response true (Json data), Some b =>
        match statusOf data with
        | Some _ => alter markSaved b (buttons (view w))
        | None => buttons (view w)
        end
    | _, _ => buttons (view w)
    end.
Proof.
  unfold handleSave_resume.
  destruct o as [m|[] [m|data]]; try (rewrite caught_buttons; now destruct button).
  destruct (statusOf data) as [status|].
  - rewrite renderSaved_buttons.
    destruct button as [b|], (bool_decide (status = Some "duplicate")); simpl;
      now rewrite showToast_buttons.
  - rewrite caught_buttons. now destruct button.
Qed.

Lemma handleDelete_resume_buttons (k : option string) (o : outcome) (w : world)
    (b : nat) (btn' : button) :
  buttons (view (handleDelete_resume Number_toString String_toLowerCase k o w)) !! b
  = Some btn' ->
  buttons (view w) !! b = Some btn'
  \/ ((length (buttons (view w)) <= b)%nat
      /\ exists c,
           btn' = newSaveBtn
                    (saved (st (handleDelete_resume Number_toString
                                  String_toLowerCase k o w))) c).
Proof.
  unfold handleDelete_resume.
  destruct o as [m|[] [m|data]]; try (rewrite caught_buttons; now left).
  destruct (statusOf data) as [status|]; [|rewrite caught_buttons; now left].
  destruct (bool_decide (status = Some "ok")); [|now left].
  set (w1 := renderSaved _).
  assert (Hb : buttons (view w1) = buttons (view w)).
  { subst w1. now rewrite renderSaved_buttons, showToast_buttons. }
  rewrite applyFilters_saved, <- Hb. intros H.
  apply applyFilters_buttons in H. exact H.
Qed.

Lemma fetchSaved_resume_buttons (o : outcome) (w : world) :
  buttons (view (fetchSaved_resume o w)) = buttons (view w).
Proof.
  unfold fetchSaved_resume.
  destruct o as [m|[] [m|data]]; try apply caught_buttons.
  rewrite renderSaved_buttons. now destruct data.
Qed.

Lemma clickSave_buttons (b : nat) (w : world) :
  buttons (view (clickSave b w)) = buttons (view w).
Proof.
  unfold clickSave. destruct (resultsEl (view w)); [|reflexivity].
  destruct (bool_decide _); [|reflexivity].
  destruct (buttons (view w) !! b) as [btn|]; [|reflexivity].
  now destruct (disabled btn).
Qed.

Lemma clickRemove_buttons (i : nat) (w : world) :
  buttons (view (clickRemove i w)) = buttons (view w).
Proof.
  unfold clickRemove. destruct (savedPane (view w)) as [els|]; [|reflexivity].
  now destruct (savedListEl els !! i).
Qed.

Lemma stopLoading_timeout_buttons (success : bool) (w : world) :
  buttons (view (stopLoading_timeout success w)) = buttons (view w).
Proof.
  unfold stopLoading_timeout.
  destruct (loadingEl (top w)); simpl; destruct (firstControl (top w)); simpl;
    destruct success; reflexivity.
Qed.

(** A button of the page after an event is a button that was there, as it
    was; or a new one, drawn by [renderResults]; or the button of a save
    that has just succeeded. *)
Lemma step_buttons (w : world) (e : event) (b : nat) (btn' : button) :
  buttons (view (step Number_toString String_toLowerCase TypeError_message w e))
      !! b
  = Some btn' ->
  buttons (view w) !! b = Some btn'
  \/ ((length (buttons (view w)) <= b)%nat
      /\ exists c,
           btn' = newSaveBtn
                    (saved (st (step Number_toString String_toLowerCase
                                  TypeError_message w e))) c)
  \/ (exists i c data status btn,
        e = Settle i (Response true (Json data))
        /\ pending (env w) !! i = Some (SaveCall c (Some b))
        /\ statusOf data = Some status
        /\ buttons (view w) !! b = Some btn
        /\ btn' = markSaved btn).
Proof.
  destruct e as [|d|f| |b0|c|i|i o|success|resolved]; simpl.
  - rewrite onSubmit_begin_buttons. now left.
  - now left.
  - now left.
  - intros H. apply applyFilters_buttons in H as [H|H]; [now left|].
    right. left. now rewrite applyFilters_saved.
  - rewrite clickSave_buttons. now left.
  - now left.
  - rewrite clickRemove_buttons. now left.
  - unfold settle. destruct (pending (env w) !! i) as [k|] eqn:Ek; [|now left].
    set (w' := on_env _ w).
    destruct k as [|c button|k|].
    + intros H. apply onSubmit_resume_buttons in H as [H|H]; [now left|].
      right. now left.
    + rewrite handleSave_resume_buttons.
      destruct o as [m|[] [m|data]]; try (now left).
      destruct button as [b1|]; [|now left].
      destruct (statusOf data) as [status|] eqn:Es; [|now left].
      change (buttons (view w')) with (buttons (view w)).
      rewrite list_lookup_alter. destruct (decide (b1 = b)) as [->|Hne]; [|now
          left].
      destruct (buttons (view w) !! b) as [btn|] eqn:Eb; [|discriminate].
      simpl. intros H. injection H as <-.
      right. right. now exists i, c, data, status, btn.
    + intros H. apply handleDelete_resume_buttons in H as [H|H]; [now left|].
      right. now left.
    + rewrite fetchSaved_resume_buttons. now left.
  - rewrite stopLoading_timeout_buttons. now left.
  - unfold copyCandidate_settled.
    destruct resolved; rewrite showToast_buttons; now left.
Qed.

(** C3 (amended). A save control is disabled by two things only.  (a) A
    card drawn for a candidate whose id is in the cache gets a disabled
    button.  (b) A save that is answered with a 2xx and a JSON body other
    than [null] disables the button it was started from and labels it
    "Saved".  Whatever the event, a button that is disabled after it was
    disabled before it, or is a new button of kind (a), or is the button of
    a save that has just succeeded as in (b).  Starting a save sends one
    request and leaves every button as it was, so the control stays enabled
    while the request is in flight and a further click on it starts a
    further save; a click on a disabled control starts nothing. *)
Theorem save_control_disabled_after_success :
  (forall c button w,
     buttons (view (handleSave_begin c button w)) = buttons (view w)
     /\ st (handleSave_begin c button w) = st w
     /\ sent (env (handleSave_begin c button w)) = sent (env w) ++ [PostSave c]
     /\ pending (env (handleSave_begin c button w))
        = pending (env w) ++ [SaveCall c button])
  /\ (forall b w cards btn,
        resultsEl (view w) = Some cards -> b ∈ saveBtn <$> cards ->
        buttons (view w) !! b = Some btn -> disabled btn = false ->
        clickSave b w = handleSave_begin (onclick btn) (Some b) w)
  /\ (forall b w btn,
        buttons (view w) !! b = Some btn -> disabled btn = true ->
        clickSave b w = w)
  /\ (forall c b data status w btn,
        statusOf data = Some status ->
        buttons (view w) !! b = Some btn ->
        buttons (view (handleSave_resume c (Some b)
                         (Response true (Json data)) w)) !! b
        = Some {| textContent := "Saved"; disabled := true; onclick := onclick btn |})
  /\ (forall w cards i c,
        resultsEl (view w) = Some cards ->
        filtered (st w) !! i = Some c ->
        exists btn,
          buttons (view (renderResults Number_toString w))
            !! (length (buttons (view w)) + i)%nat = Some btn
          /\ onclick btn = c
          /\ disabled btn = JsMap.has (id c) (saved (st w)))
  /\ (forall w e b btn',
        buttons (view (step Number_toString String_toLowerCase
                         TypeError_message w e)) !! b = Some btn' ->
        disabled btn' = true ->
        (exists btn, buttons (view w) !! b = Some btn /\ disabled btn = true)
        \/ ((length (buttons (view w)) <= b)%nat
            /\ JsMap.has (id (onclick btn'))
                 (saved (st (step Number_toString String_toLowerCase
                               TypeError_message w e))) = true)
        \/ (exists i c data status,
              e = Settle i (Response true (Json data))
              /\ pending (env w) !! i = Some (SaveCall c (Some b))
              /\ statusOf data = Some status
              /\ textContent btn' = "Saved")).
Proof.
  repeat apply conj.
  - intros c button w. repeat split.
  - intros b w cards btn Hcards Hin Hbtn Hen. unfold clickSave.
    rewrite Hcards, bool_decide_eq_true_2, Hbtn, Hen by exact Hin. reflexivity.
  - intros b w btn Hbtn Hdis. unfold clickSave.
    destruct (resultsEl (view w)); [|reflexivity].
    destruct (bool_decide _); [|reflexivity]. now rewrite Hbtn, Hdis.
  - intros c b data status w btn Hs Hbtn.
    rewrite handleSave_resume_buttons, Hs, list_lookup_alter.
    rewrite decide_True, Hbtn by reflexivity. reflexivity.
  - intros w cards i c Hcards Hi.
    destruct (renderResults_cards w cards Hcards) as (_ & ->).
    exists (newSaveBtn (saved (st w)) c).
    rewrite lookup_app_r by lia.
    replace (length (buttons (view w)) + i - length (buttons (view w)))%nat
      with i by lia.
    rewrite list_lookup_fmap, Hi. now repeat split.
  - intros w e b btn' Hb Hdis.
    apply step_buttons in Hb
      as [Hb|[(Hlen & c & ->)|(i & c & data & status & btn & -> & Hp & Hs & Hb &
          ->)]].
    + left. now exists btn'.
    + right. left. split; [exact Hlen|]. exact Hdis.
    + right. right. now exists i, c, data, status.
Qed.

End Reconciler.

(** C3, as stated, fails: after a first click the request is in flight and
    the control is still enabled; a second click sends the request again. *)
Lemma second_click_sends_second_request :
  WitnessFinder.pending
    (WitnessFinder.env (WitnessFinder.clickSave 0 Examples.searched))
  = [WitnessFinder.SaveCall Examples.alice (Some 0)]
  /\ WitnessFinder.disabled
       <$> WitnessFinder.buttons
             (WitnessFinder.view (WitnessFinder.clickSave 0 Examples.searched)) !! 0
     = Some false
  /\ WitnessFinder.sent
       (WitnessFinder.env
          (WitnessFinder.clickSave 0 (WitnessFinder.clickSave 0 Examples.searched)))
     = WitnessFinder.sent (WitnessFinder.env Examples.searched)
       ++ [WitnessFinder.PostSave Examples.alice;
           WitnessFinder.PostSave Examples.alice].
Proof. repeat split; vm_compute; reflexivity. Qed.

(** C6, as stated, fails for a 2xx response that carries another status:
    the cache is untouched, but so is everything else; no toast is added. *)
Lemma other_status_shows_no_toast :
  WitnessFinder.replied "ok" (Examples.okBody "not_found") = false
  /\ WitnessFinder.requestFailed (Examples.okBody "not_found") = false
  /\ WitnessFinder.handleDelete_resume WitnessFinder.integerToString
      JsString.toLowerCaseAscii (Some "a")
       (Examples.okBody "not_found") Examples.aliceSaved
     = Examples.aliceSaved.
Proof. repeat split; vm_compute; reflexivity. Qed.


(** *** The statements above, at a concrete page *)

Lemma aliceSaved_reachable :
  WitnessFinder.reachable WitnessFinder.integerToString
      JsString.toLowerCaseAscii Examples.typeErrorMessage Examples.aliceSaved.
Proof.
  unfold Examples.aliceSaved, Examples.clicked, Examples.searched.
  repeat apply WitnessFinder.reachable_step.
  apply WitnessFinder.reachable_init. repeat split.
Qed.

Lemma failed_save_leaves_cache_witness :
  WitnessFinder.requestFailed Examples.offline = true
  /\ WitnessFinder.toastContainer (WitnessFinder.view Examples.clicked) = Some []
  /\ WitnessFinder.st
       (WitnessFinder.handleSave_resume Examples.alice (Some 0) Examples.offline
          Examples.clicked)
     = WitnessFinder.st Examples.clicked
  /\ WitnessFinder.buttons
       (WitnessFinder.view
          (WitnessFinder.handleSave_resume Examples.alice (Some 0) Examples.offline
             Examples.clicked))
     = WitnessFinder.buttons (WitnessFinder.view Examples.clicked)
  /\ WitnessFinder.toastContainer
       (WitnessFinder.view
          (WitnessFinder.handleSave_resume Examples.alice (Some 0) Examples.offline
             Examples.clicked))
     = Some ["Unable to save candidate."].
Proof.
  assert (Hfail : WitnessFinder.requestFailed Examples.offline = true)
    by reflexivity.
  assert (Hts : WitnessFinder.toastContainer (WitnessFinder.view Examples.clicked)
                = Some []) by (vm_compute; reflexivity).
  pose proof (failed_save_leaves_cache Examples.alice (Some 0) Examples.offline
                Examples.clicked [] Hfail Hts) as (H1 & H2 & H3 & _).
  repeat apply conj; assumption.
Defined.

Lemma duplicate_save_is_idempotent_witness :
  JsMap.has (WitnessFinder.id Examples.alice)
    (WitnessFinder.saved (WitnessFinder.st Examples.aliceSaved)) = true
  /\ JsMap.keys
       (WitnessFinder.saved
          (WitnessFinder.st
             (WitnessFinder.handleSave_resume Examples.alice (Some 0)
                (WitnessFinder.Response true
                   (WitnessFinder.Json
                      (WitnessFinder.JsonObject (Some "duplicate") None None)))
                Examples.aliceSaved)))
     = JsMap.keys
         (WitnessFinder.saved (WitnessFinder.st Examples.aliceSaved))
  /\ WitnessFinder.toastContainer
       (WitnessFinder.view
          (WitnessFinder.handleSave_resume Examples.alice (Some 0)
             (WitnessFinder.Response true
                (WitnessFinder.Json
                   (WitnessFinder.JsonObject (Some "duplicate") None None)))
             Examples.aliceSaved))
     = Some ["Candidate saved."; "Already saved."].
Proof.
  assert (Hhas : JsMap.has (WitnessFinder.id Examples.alice)
                   (WitnessFinder.saved (WitnessFinder.st Examples.aliceSaved))
                 = true) by (vm_compute; reflexivity).
  assert (Hne : Some "ok" <> Some "duplicate") by discriminate.
  assert (Hts : WitnessFinder.toastContainer (WitnessFinder.view Examples.aliceSaved)
                = Some ["Candidate saved."]) by (vm_compute; reflexivity).
  pose proof (duplicate_save_is_idempotent Examples.alice (Some 0) None None
                (Some "ok") Examples.aliceSaved ["Candidate saved."] Hhas Hne Hts)
    as (H1 & _ & _ & _ & H5 & _).
  repeat apply conj; assumption.
Defined.

Lemma delete_removes_only_on_ok_witness :
  WitnessFinder.replied "ok" (Examples.okBody "ok") = true
  /\ NoDup (JsMap.keys
              (WitnessFinder.saved (WitnessFinder.st Examples.aliceSaved)))
  /\ JsMap.has (Some "a")
       (WitnessFinder.saved
          (WitnessFinder.st
             (WitnessFinder.handleDelete_resume WitnessFinder.integerToString
                 JsString.toLowerCaseAscii
                (Some "a") (Examples.okBody "ok") Examples.aliceSaved)))
     = false
  /\ WitnessFinder.toastContainer
       (WitnessFinder.view
          (WitnessFinder.handleDelete_resume WitnessFinder.integerToString
              JsString.toLowerCaseAscii
             (Some "a") (Examples.okBody "ok") Examples.aliceSaved))
     = Some ["Candidate saved."; "Removed from saved."].
Proof.
  assert (Hok : WitnessFinder.replied "ok" (Examples.okBody "ok") = true)
    by reflexivity.
  assert (Hnd : NoDup (JsMap.keys
                         (WitnessFinder.saved (WitnessFinder.st Examples.aliceSaved))))
    by (vm_compute; apply NoDup_singleton).
  assert (Hts : WitnessFinder.toastContainer (WitnessFinder.view Examples.aliceSaved)
                = Some ["Candidate saved."]) by (vm_compute; reflexivity).
  pose proof (delete_removes_only_on_ok WitnessFinder.integerToString
      JsString.toLowerCaseAscii (Some "a")
                (Examples.okBody "ok") Examples.aliceSaved ["Candidate saved."]
                Hts Hnd) as (Hremoved & _ & _).
  destruct (Hremoved Hok) as (_ & H2 & H3 & _).
  repeat apply conj; assumption.
Defined.

Lemma saved_cache_keyed_by_id_witness :
  WitnessFinder.reachable WitnessFinder.integerToString
      JsString.toLowerCaseAscii Examples.typeErrorMessage Examples.aliceSaved
  /\ WitnessFinder.saved (WitnessFinder.st Examples.aliceSaved)
     = [(Some "a", Examples.alice)]
  /\ WitnessFinder.keyedById
       (WitnessFinder.saved (WitnessFinder.st Examples.aliceSaved)).
Proof.
  split; [exact aliceSaved_reachable|].
  split; [vm_compute; reflexivity|].
  exact (proj1 (proj1 (saved_cache_keyed_by_id WitnessFinder.integerToString
      JsString.toLowerCaseAscii Examples.typeErrorMessage)
                  Examples.aliceSaved aliceSaved_reachable)).
Defined.

(** ** The tab controller *)

Section Tabs.
Import JsString AppUI.

Lemma shape_markTab (b : bool) (e : element) : shape (markTab b e) = shape e.
Proof. reflexivity. Qed.

Lemma shape_markPanel (b : bool) (e : element) : shape (markPanel b e) = shape e.
Proof. reflexivity. Qed.

Lemma shape_alter (f : element -> element) (i : nat) (doc : list element) :
  (forall e, shape (f e) = shape e) ->
  shape <$> alter f i doc = shape <$> doc.
Proof.
  intros Hf. apply list_eq. intros j.
  rewrite !list_lookup_fmap, list_lookup_alter.
  destruct (decide (i = j)) as [->|]; [|reflexivity].
  destruct (doc !! j); simpl; [now rewrite Hf | reflexivity].
Qed.

Lemma getElementById_shape (doc1 doc2 : list element) (x : string) :
  shape <$> doc1 = shape <$> doc2 ->
  getElementById doc1 x = getElementById doc2 x.
Proof.
  unfold getElementById. revert doc2.
  induction doc1 as [|e1 doc1 IH]; intros [|e2 doc2] Heq; try discriminate;
    [reflexivity|].
  rewrite !fmap_cons in Heq.
  assert (He : shape e1 = shape e2) by congruence.
  assert (Hrest : shape <$> doc1 = shape <$> doc2) by congruence.
  assert (Hid : id e1 = id e2) by (unfold shape in He; congruence).
  simpl.
  rewrite Hid. destruct (decide (String.eqb (id e2) x = true)); [reflexivity|].
  specialize (IH doc2 Hrest).
  destruct (list_find _ doc1) as [[]|], (list_find _ doc2) as [[]|];
    simpl in *; congruence.
Qed.

Lemma panelOf_shape (doc1 doc2 : list element) (t : nat) :
  shape <$> doc1 = shape <$> doc2 -> panelOf doc1 t = panelOf doc2 t.
Proof.
  intros Heq. unfold panelOf.
  assert (Ht : shape <$> doc1 !! t = shape <$> doc2 !! t)
    by (now rewrite <- !list_lookup_fmap, Heq).
  destruct (doc1 !! t) as [e1|], (doc2 !! t) as [e2|]; try discriminate;
    [|reflexivity].
  simpl in Ht. unfold shape in Ht. injection Ht as Hid Hc. rewrite Hc.
  destruct (aria_controls e2) as [c|]; [|reflexivity].
  destruct (nonEmpty c); [|reflexivity]. now apply getElementById_shape.
Qed.

Lemma visitTab_shape (tabId : string) (doc : list element) (t : nat) :
  shape <$> visitTab tabId doc t = shape <$> doc.
Proof.
  unfold visitTab. destruct (doc !! t) as [tab|]; [|reflexivity].
  destruct (match aria_controls tab with
            | Some c => if nonEmpty c then getElementById doc c else None
            | None => None
            end) as [p|].
  - rewrite shape_alter by apply shape_markPanel.
    apply shape_alter, shape_markTab.
  - apply shape_alter, shape_markTab.
Qed.

Lemma getElementById_lookup (doc : list element) (x : string) (p : nat) :
  getElementById doc x = Some p -> is_Some (doc !! p).
Proof.
  unfold getElementById. intros H.
  destruct (list_find _ doc) as [[i e]|] eqn:E; [|discriminate].
  injection H as <-. apply list_find_Some in E as (E & _). eauto.
Qed.

Lemma panelOf_lookup (doc : list element) (t p : nat) :
  panelOf doc t = Some p -> is_Some (doc !! t) /\ is_Some (doc !! p).
Proof.
  unfold panelOf. destruct (doc !! t) as [tab|]; [|discriminate].
  destruct (aria_controls tab) as [c|]; [|discriminate].
  destruct (nonEmpty c); [|discriminate].
  intros H. split; [eauto | eapply getElementById_lookup; eauto].
Qed.

(** One visit: the tab and its panel are written, nothing else is. *)
Lemma visitTab_lookup (tabId : string) (doc : list element) (t p : nat)
    (tab pe : element) :
  doc !! t = Some tab -> doc !! p = Some pe ->
  panelOf doc t = Some p -> p <> t ->
  visitTab tabId doc t !! t = Some (markTab (String.eqb (id tab) tabId) tab)
  /\ visitTab tabId doc t !! p = Some (markPanel (String.eqb (id tab) tabId) pe)
  /\ forall i, i <> t -> i <> p -> visitTab tabId doc t !! i = doc !! i.
Proof.
  intros Ht Hp Hpanel Hne. unfold visitTab. unfold panelOf in Hpanel.
  rewrite Ht in *. rewrite Hpanel.
  repeat apply conj.
  - rewrite list_lookup_alter_ne by exact Hne.
    rewrite list_lookup_alter, decide_True by reflexivity. now rewrite Ht.
  - rewrite list_lookup_alter, decide_True by reflexivity.
    rewrite list_lookup_alter_ne by congruence. now rewrite Hp.
  - intros i Hit Hip.
    rewrite !list_lookup_alter_ne by congruence. reflexivity.
Qed.

Lemma panels_shape (doc1 doc2 : list element) (ts ps : list nat) :
  shape <$> doc1 = shape <$> doc2 ->
  Forall2 (fun t p => panelOf doc1 t = Some p) ts ps ->
  Forall2 (fun t p => panelOf doc2 t = Some p) ts ps.
Proof.
  intros Heq H. eapply Forall2_impl; [exact H|].
  intros t p <-. symmetry. now apply panelOf_shape.
Qed.

(** The whole loop over the tabs [ts], whose panels are [ps]. *)
Lemma visitTabs_lookup (tabId : string) (ts ps : list nat) (doc : list element) :
  Forall2 (fun t p => panelOf doc t = Some p) ts ps ->
  NoDup (ts ++ ps) ->
  (forall k t p, ts !! k = Some t -> ps !! k = Some p ->
     exists tab pe, doc !! t = Some tab /\ doc !! p = Some pe
       /\ foldl (visitTab tabId) doc ts !! t
          = Some (markTab (String.eqb (id tab) tabId) tab)
       /\ foldl (visitTab tabId) doc ts !! p
          = Some (markPanel (String.eqb (id tab) tabId) pe))
  /\ (forall i, i ∉ ts -> i ∉ ps ->
        foldl (visitTab tabId) doc ts !! i = doc !! i).
Proof.
  revert ps doc. induction ts as [|t ts IH]; intros ps doc Hpanels Hnd.
  - split; [intros k t p Hk; discriminate | reflexivity].
  - destruct ps as [|p ps]; [now apply Forall2_length in Hpanels|].
    apply Forall2_cons in Hpanels as [Htp Hpanels].
    change ((t :: ts) ++ p :: ps) with (t :: (ts ++ p :: ps)) in Hnd.
    apply NoDup_cons in Hnd as [Ht Hnd].
    rewrite elem_of_app, elem_of_cons in Ht.
    apply NoDup_app in Hnd as (Hndts & Hdisj & Hndps).
    apply NoDup_cons in Hndps as [Hp_ps Hndps].
    assert (Hp_ts : p ∉ ts) by (intros Hin; apply (Hdisj p Hin), list_elem_of_here).
    assert (Hnd' : NoDup (ts ++ ps)).
    { apply NoDup_app. repeat split; [exact Hndts | | exact Hndps].
      intros x Hx Hxp. apply (Hdisj x Hx). now apply list_elem_of_further. }
    assert (Hpt : p <> t) by (intros ->; tauto).
    destruct (panelOf_lookup doc t p Htp) as [[tab Htab] [pe Hpe]].
    destruct (visitTab_lookup tabId doc t p tab pe Htab Hpe Htp Hpt)
      as (Hv_t & Hv_p & Hv_frame).
    specialize (IH ps (visitTab tabId doc t)
                  (panels_shape _ _ _ _ (eq_sym (visitTab_shape tabId doc t)) Hpanels)
                  Hnd') as [IHk IHframe].
    simpl. split.
    + intros [|k] t' p' Hk Hk'; simpl in Hk, Hk'.
      * injection Hk as <-. injection Hk' as <-.
        exists tab, pe. repeat split; [exact Htab | exact Hpe | |].
        -- rewrite IHframe by tauto. exact Hv_t.
        -- rewrite IHframe by tauto. exact Hv_p.
      * assert (Ht' : t' ∈ ts) by (eapply list_elem_of_lookup_2; eauto).
        assert (Hp' : p' ∈ ps) by (eapply list_elem_of_lookup_2; eauto).
        destruct (IHk k t' p' Hk Hk') as (tab' & pe' & H1 & H2 & H3 & H4).
        assert (Ht't : t' <> t) by (intros ->; tauto).
        assert (Ht'p : t' <> p) by (intros ->; tauto).
        assert (Hp't : p' <> t) by (intros ->; tauto).
        assert (Hp'p : p' <> p) by (intros ->; tauto).
        rewrite Hv_frame in H1, H2 by assumption.
        exists tab', pe'. repeat split; assumption.
    + intros i Hi_ts Hi_ps. rewrite not_elem_of_cons in Hi_ts, Hi_ps.
      rewrite IHframe by tauto. apply Hv_frame; tauto.
Qed.

Lemma filter_only (f : nat -> bool) (l : list nat) (x : nat) :
  NoDup l -> x ∈ l -> (forall y, y ∈ l -> (f y = true <-> y = x)) ->
  List.filter f l = [x].
Proof.
  induction l as [|a l IH]; intros Hnd Hx Hf.
  - now apply elem_of_nil in Hx.
  - apply NoDup_cons in Hnd as [Ha Hnd]. simpl.
    assert (Hrest : forall y, y ∈ l -> (f y = true <-> y = x))
      by (intros y Hy; apply Hf; now apply list_elem_of_further).
    destruct (decide (a = x)) as [->|Hne].
    + rewrite (proj2 (Hf x (list_elem_of_here _ _)) eq_refl). f_equal.
      clear IH Hx Hf. induction l as [|b l IH]; [reflexivity|]. simpl.
      apply not_elem_of_cons in Ha as [Hb Ha]. apply NoDup_cons in Hnd as [_ Hnd].
      destruct (f b) eqn:E.
      * apply (Hrest b (list_elem_of_here _ _)) in E. congruence.
      * apply IH; [exact Ha | exact Hnd |].
        intros y Hy. apply Hrest. now apply list_elem_of_further.
    + destruct (f a) eqn:E.
      * apply (Hf a (list_elem_of_here _ _)) in E. congruence.
      * apply IH; [exact Hnd | | exact Hrest].
        apply elem_of_cons in Hx as [?|?]; [congruence | assumption].
Qed.

Lemma selected_markTab (b : bool) (e : element) : selected (markTab b e) = b.
Proof. now destruct b. Qed.

Lemma visible_markPanel (b : bool) (e : element) : visible (markPanel b e) = b.
Proof. now destruct b. Qed.

(** C2 (amended). [activateTab] with a group id that is not registered
    returns the page unchanged.  For a registered group of a well-formed
    page (every tab controls a panel of its own, no two tabs share an id)
    and the id of one of its tabs, the call leaves exactly that tab marked
    active and selected and exactly its panel visible, and writes nothing
    outside the group's tabs and panels.  The function is total: no call
    raises. *)
Theorem activateTab_selects_one_tab :
  (forall u groupId tabId,
     JsMap.get groupId (tabGroups u) = None -> activateTab groupId tabId u = u)
  /\ (forall u groupId tabId g t0 tab0,
        JsMap.get groupId (tabGroups u) = Some g ->
        wellFormed (document u) g ->
        t0 ∈ tabs g -> document u !! t0 = Some tab0 -> id tab0 = tabId ->
        List.filter (selectedAt (document (activateTab groupId tabId u))) (tabs g)
        = [t0]
        /\ (exists p0, panelOf (document u) t0 = Some p0
              /\ List.filter (visibleAt (document (activateTab groupId tabId u)))
                   (panels g) = [p0])
        /\ tabGroups (activateTab groupId tabId u) = tabGroups u
        /\ (forall i, i ∉ tabs g -> i ∉ panels g ->
              document (activateTab groupId tabId u) !! i = document u !! i)).
Proof.
  split.
  - intros u groupId tabId Hget. unfold activateTab. now rewrite Hget.
  - intros u groupId tabId g t0 tab0 Hget (Hpanels & Hnd & Hids) Ht0 Htab0 Hid0.
    unfold activateTab. rewrite Hget. simpl.
    destruct (visitTabs_lookup tabId (tabs g) (panels g) (document u) Hpanels Hnd)
      as [Hk Hframe].
    pose proof Hnd as Hnd'. apply NoDup_app in Hnd' as (Hndts & _ & Hndps).
    apply list_elem_of_lookup in Ht0 as Hk0. destruct Hk0 as [k0 Hk0].
    destruct (Forall2_lookup_l _ _ _ _ _ Hpanels Hk0) as (p0 & Hp0 & Hpanel0).
    (* the flag computed for a tab of the group is set for [t0] only *)
    assert (Hflag : forall t tab, t ∈ tabs g -> document u !! t = Some tab ->
                      (String.eqb (id tab) tabId = true <-> t = t0)).
    { intros t tab Ht Htab. rewrite String.eqb_eq. split.
      - intros Hid. apply (Hids t t0 tab tab0 Ht Ht0 Htab Htab0). congruence.
      - intros ->. congruence. }
    repeat apply conj.
    + apply filter_only; [exact Hndts | exact Ht0 |].
      intros t Ht. apply list_elem_of_lookup in Ht as Hkt. destruct Hkt as [k Hkt].
      destruct (Forall2_lookup_l _ _ _ _ _ Hpanels Hkt) as (p & Hp & _).
      destruct (Hk k t p Hkt Hp) as (tab & pe & Htab & _ & Hdoc' & _).
      unfold selectedAt. rewrite Hdoc', selected_markTab. now apply Hflag.
    + exists p0. split; [exact Hpanel0|].
      apply filter_only; [exact Hndps | eapply list_elem_of_lookup_2; eauto |].
      intros p Hp. apply list_elem_of_lookup in Hp as [k Hkp].
      destruct (Forall2_lookup_r _ _ _ _ _ Hpanels Hkp) as (t & Hkt & _).
      destruct (Hk k t p Hkt Hkp) as (tab & pe & Htab & _ & _ & Hdoc').
      unfold visibleAt. rewrite Hdoc', visible_markPanel.
      rewrite (Hflag t tab) by (eauto using list_elem_of_lookup_2). split.
      * intros Heq. subst t.
        assert (k = k0) by exact (NoDup_lookup _ _ _ _ Hndts Hkt Hk0). congruence.
      * intros Heq. subst p.
        assert (k = k0) by exact (NoDup_lookup _ _ _ _ Hndps Hkp Hp0). congruence.
    + reflexivity.
    + exact Hframe.
Qed.

End Tabs.

Lemma tabsPage_wellFormed :
  AppUI.wellFormed (AppUI.document Examples.tabsPage) Examples.resultsGroup.
Proof.
  repeat apply conj.
  - repeat constructor.
  - apply (bool_decide_unpack _). vm_compute. exact I.
  - intros t1 t2 e1 e2 H1 H2 He1 He2 Hid. simpl in H1, H2.
    rewrite !elem_of_cons, elem_of_nil in H1, H2.
    destruct H1 as [->|[->|[]]], H2 as [->|[->|[]]]; try reflexivity;
      simpl in He1, He2; injection He1 as <-; injection He2 as <-; discriminate.
Qed.

Lemma activateTab_selects_one_tab_witness :
  JsMap.get "results" (AppUI.tabGroups Examples.tabsPage)
  = Some Examples.resultsGroup
  /\ List.filter
       (AppUI.selectedAt
          (AppUI.document (AppUI.activateTab "results" "tab-findings" Examples.tabsPage)))
       (AppUI.tabs Examples.resultsGroup)
     = [1]
  /\ List.filter
       (AppUI.visibleAt
          (AppUI.document (AppUI.activateTab "results" "tab-findings" Examples.tabsPage)))
       (AppUI.panels Examples.resultsGroup)
     = [3].
Proof.
  assert (Hget : JsMap.get "results" (AppUI.tabGroups Examples.tabsPage)
                 = Some Examples.resultsGroup) by reflexivity.
  assert (Hin : 1 ∈ AppUI.tabs Examples.resultsGroup)
    by (apply list_elem_of_further, list_elem_of_here).
  destruct (proj2 activateTab_selects_one_tab Examples.tabsPage "results"
              "tab-findings" Examples.resultsGroup 1
              (Examples.tab "tab-findings" "panel-findings" false)
              Hget tabsPage_wellFormed Hin eq_refl eq_refl)
    as (Htabs & (p0 & Hp0 & Hpanels) & _).
  assert (Hp : p0 = 3) by (vm_compute in Hp0; congruence).
  rewrite Hp in Hpanels.
  repeat apply conj; assumption.
Defined.

(** C2, as stated, fails in two ways.  For a tab id that no tab of a
    registered group carries, the call is not a no-op: it leaves no tab
    selected and no panel visible.  For a tab of the group that controls no
    panel, the call leaves that tab selected and no panel visible. *)
Lemma unknown_tab_deselects_every_tab :
  JsMap.get "results" (AppUI.tabGroups Examples.tabsPage)
  = Some Examples.resultsGroup
  /\ AppUI.activateTab "results" "tab-missing" Examples.tabsPage
     <> Examples.tabsPage
  /\ List.filter
       (AppUI.selectedAt
          (AppUI.document (AppUI.activateTab "results" "tab-missing" Examples.tabsPage)))
       (AppUI.tabs Examples.resultsGroup)
     = []
  /\ List.filter
       (AppUI.visibleAt
          (AppUI.document (AppUI.activateTab "results" "tab-missing" Examples.tabsPage)))
       (AppUI.panels Examples.resultsGroup)
     = []
  /\ JsMap.get "results" (AppUI.tabGroups Examples.barePage)
     = Some Examples.bareGroup
  /\ List.filter
       (AppUI.selectedAt
          (AppUI.document (AppUI.activateTab "results" "tab-notes" Examples.barePage)))
       (AppUI.tabs Examples.bareGroup)
     = [1]
  /\ List.filter
       (AppUI.visibleAt
          (AppUI.document (AppUI.activateTab "results" "tab-notes" Examples.barePage)))
       (AppUI.panels Examples.bareGroup)
     = [].
Proof.
  repeat apply conj; try (vm_compute; reflexivity).
  intros H. vm_compute in H. discriminate.
Qed.

(** ** Form validation *)

Section Validation.

(** The issue-spotter form: a submission with neither file nor text, or
    without instructions, sends nothing, shows the message in the form's
    error element, and moves the focus to the field at fault. *)
Lemma issue_spotter_validation (f : IssueSpotter.form) :
  (IssueSpotter.fileInput_files f = []
   /\ JsString.trim (IssueSpotter.textInput_value f) = EmptyString ->
   IssueSpotter.sent (IssueSpotter.submit_begin f) = IssueSpotter.sent f
   /\ IssueSpotter.focused (IssueSpotter.submit_begin f)
      = Some IssueSpotter.FileInput
   /\ (is_Some (IssueSpotter.errorEl f) ->
       IssueSpotter.errorEl (IssueSpotter.submit_begin f)
       = Some {| IssueSpotter.err_textContent :=
                   "Upload a document or paste text to analyze.";
                 IssueSpotter.err_hidden := false |}))
  /\ ((IssueSpotter.fileInput_files f <> []
       \/ JsString.trim (IssueSpotter.textInput_value f) <> EmptyString) ->
      JsString.trim (IssueSpotter.instructionsInput_value f) = EmptyString ->
      IssueSpotter.sent (IssueSpotter.submit_begin f) = IssueSpotter.sent f
      /\ IssueSpotter.focused (IssueSpotter.submit_begin f)
         = Some IssueSpotter.InstructionsInput
      /\ (is_Some (IssueSpotter.errorEl f) ->
          IssueSpotter.errorEl (IssueSpotter.submit_begin f)
          = Some {| IssueSpotter.err_textContent := "Instructions are required.";
                    IssueSpotter.err_hidden := false |})).
Proof.
  unfold IssueSpotter.submit_begin, IssueSpotter.showError, IssueSpotter.clearError.
  split.
  - intros [Hfiles Htext].
    destruct (IssueSpotter.errorEl f) as [e|] eqn:He; simpl;
      rewrite ?He, Hfiles, Htext; simpl; rewrite ?He; simpl;
      (repeat apply conj; [reflexivity | reflexivity | intros [? ?]; congruence]).
  - intros Hinput Hinstr.
    assert (Hpass : negb (match IssueSpotter.fileInput_files f with
                          | [] => false | _ => true end)
                    && negb (JsString.nonEmpty
                               (JsString.trim (IssueSpotter.textInput_value f)))
                    = false).
    { destruct Hinput as [Hf|Ht].
      - now destruct (IssueSpotter.fileInput_files f).
      - destruct (JsString.trim (IssueSpotter.textInput_value f));
          [congruence | apply andb_false_r]. }
    destruct (IssueSpotter.errorEl f) as [e|] eqn:He; simpl;
      rewrite ?He; simpl; rewrite Hpass, Hinstr; simpl; rewrite ?He; simpl;
      (repeat apply conj; [reflexivity | reflexivity | intros [? ?]; congruence]).
Qed.

(** The witness-finder form: a submission without industry or without
    description, on a page that is not loading, sends nothing and shows the
    message in the form's error element; it does not move the focus. *)
Lemma witness_form_validation (w : WitnessFinder.world) :
  WitnessFinder.loading (WitnessFinder.st w) = false ->
  JsString.trim (WitnessFinder.industry (WitnessFinder.fields w)) = EmptyString
  \/ JsString.trim (WitnessFinder.description (WitnessFinder.fields w)) = EmptyString ->
  WitnessFinder.env (WitnessFinder.onSubmit_begin w) = WitnessFinder.env w
  /\ WitnessFinder.st (WitnessFinder.onSubmit_begin w) = WitnessFinder.st w
  /\ WitnessFinder.focused (WitnessFinder.top (WitnessFinder.onSubmit_begin w))
     = WitnessFinder.focused (WitnessFinder.top w)
  /\ (is_Some (WitnessFinder.errorEl (WitnessFinder.top w)) ->
      WitnessFinder.errorEl (WitnessFinder.top (WitnessFinder.onSubmit_begin w))
      = Some {| WitnessFinder.err_textContent :=
                  "Industry and description are required.";
                WitnessFinder.err_hidden := false |}).
Proof.
  intros Hidle Hmissing. unfold WitnessFinder.onSubmit_begin. rewrite Hidle.
  assert (Hbad : negb (JsString.nonEmpty
                         (JsString.trim (WitnessFinder.industry (WitnessFinder.fields w))))
                 || negb (JsString.nonEmpty
                            (JsString.trim
                               (WitnessFinder.description (WitnessFinder.fields w))))
                 = true).
  { destruct Hmissing as [-> | ->]; [reflexivity | apply orb_true_r]. }
  rewrite Hbad.
  destruct (WitnessFinder.errorEl (WitnessFinder.top w)) as [e|]; simpl;
    (repeat apply conj; [reflexivity | reflexivity | reflexivity |
     intros [? ?]; congruence]).
Qed.

End Validation.

(** C8 at the failing input: the witness search form submitted with a
    description and no industry.  No request is sent and the message is
    shown, but the focus stays where it was: nothing has the focus, and the
    industry field does not get it. *)
Theorem witness_form_validation_leaves_focus :
  WitnessFinder.sent
    (WitnessFinder.env (WitnessFinder.onSubmit_begin Examples.missingIndustry))
  = WitnessFinder.sent (WitnessFinder.env Examples.missingIndustry)
  /\ WitnessFinder.errorEl
       (WitnessFinder.top (WitnessFinder.onSubmit_begin Examples.missingIndustry))
     = Some {| WitnessFinder.err_textContent :=
                 "Industry and description are required.";
               WitnessFinder.err_hidden := false |}
  /\ WitnessFinder.focused (WitnessFinder.top Examples.missingIndustry) = None
  /\ WitnessFinder.focused
       (WitnessFinder.top (WitnessFinder.onSubmit_begin Examples.missingIndustry))
     = None.
Proof. repeat apply conj; vm_compute; reflexivity. Qed.

(* ================================================================== *)
(** * Part III: further properties of the scripts                      *)
(* ================================================================== *)

(** ** The tab controller: keyboard, registration, repeated calls *)

Section TabsMore.
Import JsString AppUI.

Lemma findIndex_Some (doc : list element) (ts : list nat) (x : string) (i : nat) :
  findIndex doc ts x = Some i ->
  exists t, ts !! i = Some t /\ id <$> doc !! t = Some x.
Proof.
  unfold findIndex. intros H.
  destruct (list_find _ ts) as [[j t]|] eqn:E; [|discriminate].
  injection H as ->. apply list_find_Some in E as (Ht & Hid & _). eauto.
Qed.

Lemma nextIndex_forward (key : string) (i n : nat) :
  key = "ArrowRight" \/ key = "ArrowDown" ->
  nextIndex key i n = ((i + 1) mod n, true).
Proof.
  intros Hkey. unfold nextIndex.
  assert (Hk : String.eqb key "ArrowRight" || String.eqb key "ArrowDown" = true)
    by (destruct Hkey as [-> | ->]; reflexivity).
  rewrite Hk. f_equal.
  change 1%Z with (Z.of_nat 1).
  rewrite <- Nat2Z.inj_add, <- Nat2Z.inj_mod. apply Nat2Z.id.
Qed.

Lemma nextIndex_backward (key : string) (i n : nat) :
  key = "ArrowLeft" \/ key = "ArrowUp" -> i < n ->
  nextIndex key i n = ((i + n - 1) mod n, true).
Proof.
  intros Hkey Hi. unfold nextIndex.
  assert (Hk1 : String.eqb key "ArrowRight" || String.eqb key "ArrowDown" = false)
    by (destruct Hkey as [-> | ->]; reflexivity).
  assert (Hk2 : String.eqb key "ArrowLeft" || String.eqb key "ArrowUp" = true)
    by (destruct Hkey as [-> | ->]; reflexivity).
  rewrite Hk1, Hk2. f_equal.
  replace (Z.of_nat i - 1 + Z.of_nat n)%Z with (Z.of_nat (i + n - 1)) by lia.
  rewrite <- Nat2Z.inj_mod. apply Nat2Z.id.
Qed.

Lemma forward_index (i n : nat) :
  i < n -> 2 <= n ->
  (i + 1) mod n < n /\ (i + 1) mod n <> i /\ (i = n - 1 -> (i + 1) mod n = 0).
Proof.
  intros Hi Hn. destruct (decide (i + 1 = n)) as [E|E].
  - rewrite E, Nat.Div0.mod_same. lia.
  - rewrite Nat.mod_small by lia. lia.
Qed.

Lemma backward_index (i n : nat) :
  i < n -> 2 <= n ->
  (i + n - 1) mod n < n /\ (i + n - 1) mod n <> i
  /\ (i = 0 -> (i + n - 1) mod n = n - 1).
Proof.
  intros Hi Hn. destruct (decide (i = 0)) as [->|E].
  - rewrite Nat.mod_small by lia. lia.
  - replace (i + n - 1) with (i - 1 + 1 * n) by lia.
    rewrite Nat.Div0.mod_add, Nat.mod_small by lia. lia.
Qed.

(** X1. In a registered group of at least two tabs, an arrow key pressed on
    the tab at index [i] activates the neighbouring tab and gives it the
    focus, and suppresses the browser's default action: ArrowRight and
    ArrowDown go to index [(i + 1) mod n], so from the last tab to the
    first; ArrowLeft and ArrowUp go to [(i + n - 1) mod n], so from the
    first tab to the last.  The index is that of the tab the event comes
    from, not that of the active tab. *)
Theorem arrow_keys_move_and_wrap (u : ui) (target key groupId : string)
    (g : group) (i : nat) (focused : option nat) :
  JsMap.get groupId (tabGroups u) = Some g ->
  findIndex (document u) (tabs g) target = Some i ->
  2 <= length (tabs g) ->
  (key = "ArrowRight" \/ key = "ArrowDown" ->
   exists t, tabs g !! ((i + 1) mod length (tabs g)) = Some t
     /\ handleTabKeydown target key groupId u focused
        = {| page := activateTab groupId
                       (default EmptyString (id <$> document u !! t)) u;
             focus := Some t; defaultPrevented := true |})
  /\ (key = "ArrowLeft" \/ key = "ArrowUp" ->
      exists t, tabs g !! ((i + length (tabs g) - 1) mod length (tabs g)) = Some t
        /\ handleTabKeydown target key groupId u focused
           = {| page := activateTab groupId
                          (default EmptyString (id <$> document u !! t)) u;
                focus := Some t; defaultPrevented := true |})
  /\ (i = length (tabs g) - 1 -> (i + 1) mod length (tabs g) = 0)
  /\ (i = 0 -> (i + length (tabs g) - 1) mod length (tabs g) = length (tabs g) - 1).
Proof.
  intros Hget Hfind Hn.
  destruct (findIndex_Some _ _ _ _ Hfind) as (ti & Hti & _).
  assert (Hi : i < length (tabs g)) by (eapply lookup_lt_Some; eauto).
  destruct (forward_index i _ Hi Hn) as (Hf1 & Hf2 & Hf3).
  destruct (backward_index i _ Hi Hn) as (Hb1 & Hb2 & Hb3).
  repeat apply conj; [| |exact Hf3|exact Hb3].
  - intros Hkey. destruct (lookup_lt_is_Some_2 _ _ Hf1) as [t Ht].
    exists t. split; [exact Ht|].
    unfold handleTabKeydown. rewrite Hget, Hfind, (nextIndex_forward key) by exact Hkey.
    rewrite (proj2 (Nat.eqb_neq _ _) Hf2), Ht. reflexivity.
  - intros Hkey. destruct (lookup_lt_is_Some_2 _ _ Hb1) as [t Ht].
    exists t. split; [exact Ht|].
    unfold handleTabKeydown.
    rewrite Hget, Hfind, (nextIndex_backward key) by assumption.
    rewrite (proj2 (Nat.eqb_neq _ _) Hb2), Ht. reflexivity.
Qed.

(** X2. A key press changes nothing, neither the page nor the focus, when
    the group is not registered, when the event does not come from a tab of
    the group, or when the key is not an arrow key; in these cases the
    default action is not suppressed.  In a group of a single tab an arrow
    key changes nothing either, but the default action is suppressed. *)
Theorem keydown_without_effect (u : ui) (target key groupId : string)
    (focused : option nat) :
  (JsMap.get groupId (tabGroups u) = None ->
   handleTabKeydown target key groupId u focused
   = {| page := u; focus := focused; defaultPrevented := false |})
  /\ (forall g, JsMap.get groupId (tabGroups u) = Some g ->
      findIndex (document u) (tabs g) target = None ->
      handleTabKeydown target key groupId u focused
      = {| page := u; focus := focused; defaultPrevented := false |})
  /\ (forall g i, JsMap.get groupId (tabGroups u) = Some g ->
      findIndex (document u) (tabs g) target = Some i ->
      key <> "ArrowRight" -> key <> "ArrowDown" ->
      key <> "ArrowLeft" -> key <> "ArrowUp" ->
      handleTabKeydown target key groupId u focused
      = {| page := u; focus := focused; defaultPrevented := false |})
  /\ (forall g i, JsMap.get groupId (tabGroups u) = Some g ->
      findIndex (document u) (tabs g) target = Some i ->
      length (tabs g) = 1 ->
      key = "ArrowRight" \/ key = "ArrowDown"
      \/ key = "ArrowLeft" \/ key = "ArrowUp" ->
      handleTabKeydown target key groupId u focused
      = {| page := u; focus := focused; defaultPrevented := true |}).
Proof.
  unfold handleTabKeydown. repeat apply conj.
  - now intros ->.
  - now intros g -> ->.
  - intros g i -> -> H1 H2 H3 H4. unfold nextIndex.
    apply String.eqb_neq in H1, H2, H3, H4. rewrite H1, H2, H3, H4. simpl.
    now rewrite Nat.eqb_refl.
  - intros g i Hget Hfind Hn Hkey.
    destruct (findIndex_Some _ _ _ _ Hfind) as (ti & Hti & _).
    assert (Hi : i = 0) by (apply lookup_lt_Some in Hti; lia). subst i.
    rewrite Hget, Hfind, Hn.
    destruct Hkey as [Hk|[Hk|[Hk|Hk]]]; rewrite Hk; reflexivity.
Qed.

Lemma visitTabs_shape (tabId : string) (ts : list nat) (doc : list element) :
  shape <$> foldl (visitTab tabId) doc ts = shape <$> doc.
Proof.
  revert doc. induction ts as [|t ts IH]; intros doc; [reflexivity|].
  simpl. now rewrite IH, visitTab_shape.
Qed.

Lemma lookup_shape (doc1 doc2 : list element) (i : nat) (e1 : element) :
  shape <$> doc1 = shape <$> doc2 -> doc1 !! i = Some e1 ->
  exists e2, doc2 !! i = Some e2 /\ id e2 = id e1.
Proof.
  intros Heq H1.
  assert (H : shape <$> doc1 !! i = shape <$> doc2 !! i)
    by (now rewrite <- !list_lookup_fmap, Heq).
  rewrite H1 in H. destruct (doc2 !! i) as [e2|]; [|discriminate].
  exists e2. split; [reflexivity|]. simpl in H. unfold shape in H. congruence.
Qed.

(** One visit with a tab id that the visited tab does not carry: whatever
    is written is switched off. *)
Lemma visitTab_off (tabId : string) (doc : list element) (t i : nat) (e : element) :
  (forall tab, doc !! t = Some tab -> id tab <> tabId) ->
  doc !! i = Some e ->
  exists e', visitTab tabId doc t !! i = Some e'
    /\ (class_active e = false -> class_active e' = false)
    /\ (hidden e = Some "true" -> hidden e' = Some "true")
    /\ (i = t -> class_active e' = false)
    /\ (panelOf doc t = Some i -> hidden e' = Some "true").
Proof.
  intros Hid Hi. unfold visitTab, panelOf.
  destruct (doc !! t) as [tab|] eqn:Ht.
  - assert (Hoff : String.eqb (id tab) tabId = false)
      by (apply String.eqb_neq; auto).
    rewrite Hoff.
    destruct (match aria_controls tab with
              | Some c => if nonEmpty c then getElementById doc c else None
              | None => None
              end) as [p|].
    + rewrite !list_lookup_alter.
      destruct (decide (p = i)) as [->|Hp], (decide (t = i)) as [->|Hti];
        rewrite ?Hi; simpl; eexists; (split; [reflexivity|]); simpl;
        repeat split; try congruence; auto.
    + rewrite list_lookup_alter.
      destruct (decide (t = i)) as [->|Hti];
        rewrite ?Hi; simpl; eexists; (split; [reflexivity|]); simpl;
        repeat split; try congruence; auto.
  - exists e. repeat split; try congruence; auto.
Qed.

Lemma visitTabs_off (tabId : string) (ts : list nat) (doc : list element)
    (i : nat) (e : element) :
  (forall t tab, t ∈ ts -> doc !! t = Some tab -> id tab <> tabId) ->
  doc !! i = Some e ->
  exists e', foldl (visitTab tabId) doc ts !! i = Some e'
    /\ (class_active e = false -> class_active e' = false)
    /\ (hidden e = Some "true" -> hidden e' = Some "true")
    /\ (i ∈ ts -> class_active e' = false)
    /\ (forall t, t ∈ ts -> panelOf doc t = Some i -> hidden e' = Some "true").
Proof.
  revert doc e. induction ts as [|t ts IH]; intros doc e Hids Hi.
  - exists e. repeat apply conj; auto.
    + intros H. now apply elem_of_nil in H.
    + intros t H. now apply elem_of_nil in H.
  - destruct (visitTab_off tabId doc t i e) as (e1 & H1 & Ha1 & Hh1 & Ht1 & Hp1);
      [intros tab; apply Hids, list_elem_of_here | exact Hi |].
    destruct (IH (visitTab tabId doc t) e1) as (e' & H' & Ha' & Hh' & Ht' & Hp').
    { intros t' tab' Hin Htab'.
      destruct (lookup_shape _ doc t' tab' (visitTab_shape tabId doc t) Htab')
        as (tab0 & Htab0 & Hid0).
      rewrite <- Hid0.
      apply (Hids t' tab0); [now apply list_elem_of_further | exact Htab0]. }
    { exact H1. }
    exists e'. simpl. split; [exact H'|]. repeat split.
    + auto.
    + auto.
    + rewrite elem_of_cons. intros [->|Hin]; auto.
    + intros t'. rewrite elem_of_cons. intros [->|Hin] Hpanel; [auto|].
      apply (Hp' t' Hin).
      now rewrite (panelOf_shape _ doc t' (visitTab_shape tabId doc t)).
Qed.

(** X3. When no tab of a registered group carries the given id,
    [activateTab] switches the whole group off: afterwards no tab of the
    group is marked selected and no panel controlled by a tab of the group
    is visible. *)
Theorem unknown_tab_id_switches_group_off (u : ui) (groupId tabId : string)
    (g : group) :
  JsMap.get groupId (tabGroups u) = Some g ->
  (forall t tab, t ∈ tabs g -> document u !! t = Some tab -> id tab <> tabId) ->
  forall t, t ∈ tabs g ->
    selectedAt (document (activateTab groupId tabId u)) t = false
    /\ (forall p, panelOf (document u) t = Some p ->
          visibleAt (document (activateTab groupId tabId u)) p = false).
Proof.
  intros Hget Hids t Ht. unfold activateTab. rewrite Hget. simpl. split.
  - unfold selectedAt.
    destruct (foldl (visitTab tabId) (document u) (tabs g) !! t) as [e'|] eqn:E;
      [|reflexivity].
    destruct (lookup_shape _ (document u) t e' (visitTabs_shape tabId _ _) E)
      as (e & He & _).
    destruct (visitTabs_off tabId (tabs g) (document u) t e Hids He)
      as (e2 & H2 & _ & _ & Hoff & _).
    rewrite E in H2. injection H2 as <-.
    unfold selected. now rewrite (Hoff Ht).
  - intros p Hp. unfold visibleAt.
    destruct (panelOf_lookup _ _ _ Hp) as [_ [pe Hpe]].
    destruct (visitTabs_off tabId (tabs g) (document u) p pe Hids Hpe)
      as (e2 & H2 & _ & _ & _ & Hhid).
    rewrite H2. unfold visible. rewrite (Hhid t Ht Hp). reflexivity.
Qed.

Lemma activateTab_shape (u : ui) (groupId tabId : string) :
  shape <$> document (activateTab groupId tabId u) = shape <$> document u.
Proof.
  unfold activateTab. destruct (JsMap.get groupId (tabGroups u)); [|reflexivity].
  apply visitTabs_shape.
Qed.

Lemma activateTab_tabGroups (u : ui) (groupId tabId : string) :
  tabGroups (activateTab groupId tabId u) = tabGroups u.
Proof.
  unfold activateTab. now destruct (JsMap.get groupId (tabGroups u)).
Qed.

(** X4. [activateTab] keeps the structure of the page, whatever its
    arguments: the document has the same elements with the same ids and
    the same [aria-controls], so every tab still resolves to the same
    panel, and the registry of groups is untouched. *)
Theorem activateTab_keeps_structure (u : ui) (groupId tabId : string) :
  length (document (activateTab groupId tabId u)) = length (document u)
  /\ (forall i, id <$> document (activateTab groupId tabId u) !! i
               = id <$> document u !! i)
  /\ (forall i, aria_controls <$> document (activateTab groupId tabId u) !! i
               = aria_controls <$> document u !! i)
  /\ (forall x, getElementById (document (activateTab groupId tabId u)) x
               = getElementById (document u) x)
  /\ (forall t, panelOf (document (activateTab groupId tabId u)) t
               = panelOf (document u) t)
  /\ tabGroups (activateTab groupId tabId u) = tabGroups u.
Proof.
  pose proof (activateTab_shape u groupId tabId) as Hshape.
  assert (Hlookup : forall i,
             shape <$> document (activateTab groupId tabId u) !! i
             = shape <$> document u !! i)
    by (intros i; now rewrite <- !list_lookup_fmap, Hshape).
  repeat apply conj.
  - rewrite <- (length_fmap shape), Hshape. apply length_fmap.
  - intros i. specialize (Hlookup i).
    destruct (document (activateTab groupId tabId u) !! i),
      (document u !! i); simpl in *; unfold shape in *; congruence.
  - intros i. specialize (Hlookup i).
    destruct (document (activateTab groupId tabId u) !! i),
      (document u !! i); simpl in *; unfold shape in *; congruence.
  - intros x. now apply getElementById_shape.
  - intros t. now apply panelOf_shape.
  - apply activateTab_tabGroups.
Qed.

(** X5. On a page where every tab of the group controls a panel and tabs
    and panels are distinct elements, activating the same tab id a second
    time changes nothing. *)
Theorem activateTab_twice (u : ui) (groupId tabId : string) (g : group) :
  JsMap.get groupId (tabGroups u) = Some g ->
  Forall2 (fun t p => panelOf (document u) t = Some p) (tabs g) (panels g) ->
  NoDup (tabs g ++ panels g) ->
  activateTab groupId tabId (activateTab groupId tabId u)
  = activateTab groupId tabId u.
Proof.
  intros Hget Hpanels Hnd.
  unfold activateTab at 1. rewrite activateTab_tabGroups, Hget.
  unfold activateTab. rewrite Hget. simpl. f_equal.
  set (doc := document u). set (doc1 := foldl (visitTab tabId) doc (tabs g)).
  assert (Hpanels1 : Forall2 (fun t p => panelOf doc1 t = Some p) (tabs g) (panels g))
    by (eapply panels_shape; [symmetry; apply visitTabs_shape | exact Hpanels]).
  destruct (visitTabs_lookup tabId _ _ doc Hpanels Hnd) as [Hk Hframe].
  destruct (visitTabs_lookup tabId _ _ doc1 Hpanels1 Hnd) as [Hk1 Hframe1].
  fold doc1 in Hk, Hframe.
  apply list_eq. intros i.
  destruct (decide (i ∈ tabs g)) as [Hit|Hit].
  - apply list_elem_of_lookup in Hit as [k Hkt].
    destruct (Forall2_lookup_l _ _ _ _ _ Hpanels Hkt) as (p & Hkp & _).
    destruct (Hk k i p Hkt Hkp) as (tab & pe & Htab & Hpe & Hd1 & _).
    destruct (Hk1 k i p Hkt Hkp) as (tab1 & pe1 & Htab1 & _ & Hd2 & _).
    rewrite Hd1 in Htab1. injection Htab1 as <-.
    rewrite Hd2, Hd1. simpl. now destruct (String.eqb (id tab) tabId).
  - destruct (decide (i ∈ panels g)) as [Hip|Hip].
    + apply list_elem_of_lookup in Hip as [k Hkp].
      destruct (Forall2_lookup_r _ _ _ _ _ Hpanels Hkp) as (t & Hkt & _).
      destruct (Hk k t i Hkt Hkp) as (tab & pe & Htab & Hpe & Hd1t & Hd1).
      destruct (Hk1 k t i Hkt Hkp) as (tab1 & pe1 & Htab1 & Hpe1 & _ & Hd2).
      rewrite Hd1t in Htab1. injection Htab1 as <-.
      rewrite Hd1 in Hpe1. injection Hpe1 as <-.
      rewrite Hd2, Hd1. simpl. now destruct (String.eqb (id tab) tabId).
    + rewrite Hframe1 by assumption. reflexivity.
Qed.

Lemma findIndex_shape (doc1 doc2 : list element) (ts : list nat) (x : string) :
  shape <$> doc1 = shape <$> doc2 -> findIndex doc1 ts x = findIndex doc2 ts x.
Proof.
  intros Heq. unfold findIndex. f_equal.
  induction ts as [|t ts IH]; [reflexivity|]. simpl.
  assert (Hid : id <$> doc1 !! t = id <$> doc2 !! t).
  { assert (H : shape <$> doc1 !! t = shape <$> doc2 !! t)
      by (now rewrite <- !list_lookup_fmap, Heq).
    destruct (doc1 !! t), (doc2 !! t); simpl in *; unfold shape in *; congruence. }
  rewrite Hid, IH. reflexivity.
Qed.

Lemma findIndex_unique (doc : list element) (ts : list nat) (x : string) (i t : nat) :
  ts !! i = Some t -> id <$> doc !! t = Some x ->
  (forall j k tj tk, ts !! j = Some tj -> ts !! k = Some tk ->
     id <$> doc !! tj = Some x -> id <$> doc !! tk = Some x -> j = k) ->
  findIndex doc ts x = Some i.
Proof.
  intros Hi Hid Huniq. unfold findIndex.
  assert (H : list_find (fun t => id <$> doc !! t = Some x) ts = Some (i, t)).
  { apply list_find_Some. repeat split; [exact Hi | exact Hid |].
    intros j tj Hj Hlt Hidj. assert (j = i) by eauto. lia. }
  now rewrite H.
Qed.

Lemma back_and_forth (i n : nat) :
  i < n -> ((i + 1) mod n + n - 1) mod n = i.
Proof.
  intros Hi. destruct (decide (i + 1 = n)) as [E|E].
  - rewrite E, Nat.Div0.mod_same. simpl.
    rewrite Nat.mod_small by lia. lia.
  - rewrite (Nat.mod_small (i + 1)) by lia.
    replace (i + 1 + n - 1) with (i + 1 * n) by lia.
    rewrite Nat.Div0.mod_add. apply Nat.mod_small. lia.
Qed.

(** X6. In a registered group of at least two tabs with distinct ids,
    ArrowRight pressed on a tab followed by ArrowLeft pressed on the tab
    that received the focus brings the focus back to the first tab. *)
Theorem arrow_left_undoes_arrow_right (u : ui) (groupId target : string)
    (g : group) (i t0 : nat) (focused : option nat) :
  JsMap.get groupId (tabGroups u) = Some g ->
  2 <= length (tabs g) ->
  tabs g !! i = Some t0 ->
  id <$> document u !! t0 = Some target ->
  (forall x j k tj tk, tabs g !! j = Some tj -> tabs g !! k = Some tk ->
     id <$> document u !! tj = Some x -> id <$> document u !! tk = Some x ->
     j = k) ->
  (forall t, t ∈ tabs g -> is_Some (document u !! t)) ->
  exists t1 target1,
    focus (handleTabKeydown target "ArrowRight" groupId u focused) = Some t1
    /\ id <$> document u !! t1 = Some target1
    /\ focus (handleTabKeydown target1 "ArrowLeft" groupId
                (page (handleTabKeydown target "ArrowRight" groupId u focused))
                (focus (handleTabKeydown target "ArrowRight" groupId u focused)))
       = Some t0.
Proof.
  intros Hget Hn Hi Hid Huniq Hvalid.
  assert (Hfind : findIndex (document u) (tabs g) target = Some i)
    by (eapply findIndex_unique; eauto).
  assert (Hlt : i < length (tabs g)) by (eapply lookup_lt_Some; eauto).
  destruct (forward_index i _ Hlt Hn) as (Hf1 & Hf2 & _).
  destruct (lookup_lt_is_Some_2 _ _ Hf1) as [t1 Ht1].
  destruct (Hvalid t1 (list_elem_of_lookup_2 _ _ _ Ht1)) as [e1 He1].
  assert (Hr1 : handleTabKeydown target "ArrowRight" groupId u focused
                = {| page := activateTab groupId (id e1) u;
                     focus := Some t1; defaultPrevented := true |}).
  { unfold handleTabKeydown.
    rewrite Hget, Hfind, (nextIndex_forward "ArrowRight") by auto.
    rewrite (proj2 (Nat.eqb_neq _ _) Hf2), Ht1, He1. reflexivity. }
  exists t1, (id e1). rewrite Hr1. simpl.
  split; [reflexivity|]. split; [now rewrite He1|].
  assert (Hfind1 : findIndex (document (activateTab groupId (id e1) u)) (tabs g)
                     (id e1) = Some ((i + 1) mod length (tabs g))).
  { rewrite (findIndex_shape _ (document u)) by apply activateTab_shape.
    eapply findIndex_unique; eauto. now rewrite He1. }
  destruct (backward_index _ _ Hf1 Hn) as (_ & Hb2 & _).
  unfold handleTabKeydown.
  rewrite activateTab_tabGroups, Hget, Hfind1.
  rewrite (nextIndex_backward "ArrowLeft") by auto.
  rewrite (proj2 (Nat.eqb_neq _ _) Hb2), back_and_forth, Hi by exact Hlt.
  reflexivity.
Qed.

(** *** Registration *)

(** Writing [initTab] or [initPanel] at some positions keeps the shape, the
    [active] class and the [hidden] attribute of every element, and keeps
    an [aria-selected] that mirrors the class. *)
Lemma alter_fold_kept (f : element -> element) (ps : list nat)
    (doc : list element) (i : nat) (e : element) :
  (forall x, shape (f x) = shape x /\ class_active (f x) = class_active x
             /\ hidden (f x) = hidden x
             /\ (mirrorsClass x -> mirrorsClass (f x))) ->
  doc !! i = Some e ->
  exists e', foldl (fun d p => alter f p d) doc ps !! i = Some e'
    /\ shape e' = shape e /\ class_active e' = class_active e
    /\ hidden e' = hidden e
    /\ (mirrorsClass e -> mirrorsClass e')
    /\ (i ∈ ps -> (forall x, mirrorsClass (f x)) -> mirrorsClass e').
Proof.
  intros Hf. revert doc e. induction ps as [|p ps IH]; intros doc e Hi.
  - exists e. repeat apply conj; auto. intros H. now apply elem_of_nil in H.
  - simpl.
    assert (H1 : exists e1, alter f p doc !! i = Some e1
                   /\ shape e1 = shape e /\ class_active e1 = class_active e
                   /\ hidden e1 = hidden e
                   /\ (mirrorsClass e -> mirrorsClass e1)
                   /\ (i = p -> (forall x, mirrorsClass (f x)) -> mirrorsClass e1)).
    { rewrite list_lookup_alter. destruct (decide (p = i)) as [->|Hne].
      - rewrite Hi. simpl. exists (f e).
        destruct (Hf e) as (? & ? & ? & ?). repeat apply conj; auto.
      - exists e. repeat apply conj; auto. congruence. }
    destruct H1 as (e1 & He1 & Hs1 & Hc1 & Hh1 & Hm1 & Hp1).
    destruct (IH _ _ He1) as (e' & He' & Hs & Hc & Hh & Hm & Hp).
    exists e'. repeat apply conj; try congruence; auto.
    rewrite elem_of_cons. intros [->|Hin] Hall; auto.
Qed.

Lemma initTab_gentle (x : element) :
  shape (initTab x) = shape x /\ class_active (initTab x) = class_active x
  /\ hidden (initTab x) = hidden x /\ (mirrorsClass x -> mirrorsClass (initTab x)).
Proof. repeat split. Qed.

Lemma initPanel_gentle (x : element) :
  shape (initPanel x) = shape x /\ class_active (initPanel x) = class_active x
  /\ hidden (initPanel x) = hidden x /\ (mirrorsClass x -> mirrorsClass (initPanel x)).
Proof. repeat split. auto. Qed.

Lemma initTablist_kept (u : ui) (index : nat) (tl : tablist) (i : nat) (e : element) :
  document u !! i = Some e ->
  exists e', document (initTablist u index tl) !! i = Some e'
    /\ shape e' = shape e /\ class_active e' = class_active e
    /\ hidden e' = hidden e
    /\ (mirrorsClass e -> mirrorsClass e')
    /\ (i ∈ tablist_tabs tl -> mirrorsClass e').
Proof.
  intros Hi. unfold initTablist. simpl.
  destruct (alter_fold_kept initTab (tablist_tabs tl) (document u) i e
              initTab_gentle Hi) as (e1 & He1 & Hs1 & Hc1 & Hh1 & Hm1 & Hp1).
  destruct (alter_fold_kept initPanel
              (omap (panelOf (document u)) (tablist_tabs tl)) _ i e1
              initPanel_gentle He1) as (e2 & He2 & Hs2 & Hc2 & Hh2 & Hm2 & _).
  exists e2. repeat apply conj; try congruence; auto.
  intros Hin. apply Hm2, Hp1; [exact Hin|]. intros x. reflexivity.
Qed.

Lemma initTabsFrom_kept (tls : list tablist) (index : nat) (u : ui)
    (i : nat) (e : element) :
  document u !! i = Some e ->
  exists e', document (initTabsFrom index tls u) !! i = Some e'
    /\ shape e' = shape e /\ class_active e' = class_active e
    /\ hidden e' = hidden e
    /\ (mirrorsClass e -> mirrorsClass e')
    /\ (forall tl, tl ∈ tls -> i ∈ tablist_tabs tl -> mirrorsClass e').
Proof.
  revert index u e. induction tls as [|tl tls IH]; intros index u e Hi.
  - exists e. repeat apply conj; auto. intros tl H. now apply elem_of_nil in H.
  - simpl.
    destruct (initTablist_kept u index tl i e Hi)
      as (e1 & He1 & Hs1 & Hc1 & Hh1 & Hm1 & Hp1).
    destruct (IH (S index) _ _ He1) as (e' & He' & Hs & Hc & Hh & Hm & Hp).
    exists e'. repeat apply conj; try congruence; auto.
    intros tl'. rewrite elem_of_cons. intros [->|Hin] Hit; eauto.
Qed.

Lemma initTabsFrom_shape (tls : list tablist) (index : nat) (u : ui) :
  shape <$> document (initTabsFrom index tls u) = shape <$> document u.
Proof.
  apply list_eq. intros i. rewrite !list_lookup_fmap.
  destruct (document u !! i) as [e|] eqn:E.
  - destruct (initTabsFrom_kept tls index u i e E) as (e' & -> & Hs & _).
    simpl. now rewrite Hs.
  - assert (Hlen : forall tls index u,
               length (document (initTabsFrom index tls u)) = length (document u)).
    { clear. induction tls as [|tl tls IH]; intros index u; [reflexivity|].
      simpl. rewrite IH. unfold initTablist. simpl.
      generalize (omap (panelOf (document u)) (tablist_tabs tl)).
      generalize (tablist_tabs tl). intros ts ps.
      assert (H : forall (f : element -> element) (ps : list nat) (doc : list element),
                 length (foldl (fun d p => alter f p d) doc ps) = length doc).
      { clear. intros f ps. induction ps as [|p ps IH]; intros doc; [reflexivity|].
        simpl. now rewrite IH, length_alter. }
      now rewrite !H. }
    apply lookup_ge_None in E. rewrite <- (Hlen tls index u) in E.
    apply lookup_ge_None in E. now rewrite E.
Qed.

Lemma get_set_ne {V} (m : list (string * V)) (k k' : string) (v : V) :
  k' <> k -> JsMap.get k' (JsMap.set k v m) = JsMap.get k' m.
Proof.
  intros Hne. induction m as [|[k1 v1] m IH]; simpl.
  - now rewrite decide_False by congruence.
  - destruct (decide (k1 = k)) as [->|Hk]; simpl.
    + now rewrite !decide_False by congruence.
    + destruct (decide (k1 = k')); [reflexivity | exact IH].
Qed.

Lemma get_set_same {V} (m : list (string * V)) (k : string) (v : V) :
  JsMap.get k (JsMap.set k v m) = Some v.
Proof.
  induction m as [|[k1 v1] m IH]; simpl.
  - now rewrite decide_True.
  - destruct (decide (k1 = k)); simpl.
    + now rewrite decide_True.
    + now rewrite decide_False.
Qed.

Lemma initTabsFrom_get_other (tls : list tablist) (index : nat) (u : ui)
    (gid : string) :
  (forall j tl, tls !! j = Some tl -> groupIdOf (index + j) tl <> gid) ->
  JsMap.get gid (tabGroups (initTabsFrom index tls u)) = JsMap.get gid (tabGroups u).
Proof.
  revert index u. induction tls as [|tl tls IH]; intros index u Hother;
    [reflexivity|].
  simpl. rewrite IH.
  - unfold initTablist. simpl. apply get_set_ne.
    intros Heq. apply (Hother 0 tl eq_refl). now rewrite Nat.add_0_r.
  - intros j tl' Hj. replace (S index + j) with (index + S j) by lia.
    now apply Hother.
Qed.

Lemma omap_panelOf_shape (doc1 doc2 : list element) (ts : list nat) :
  shape <$> doc1 = shape <$> doc2 ->
  omap (panelOf doc1) ts = omap (panelOf doc2) ts.
Proof.
  intros Heq. induction ts as [|t ts IH]; [reflexivity|].
  simpl. rewrite (panelOf_shape doc1 doc2 t Heq).
  destruct (panelOf doc2 t); [f_equal|]; exact IH.
Qed.

Lemma initTabsFrom_registers (tls : list tablist) (index : nat) (u : ui)
    (i : nat) (tl : tablist) :
  tls !! i = Some tl ->
  (forall j tl', tls !! j = Some tl' -> i < j ->
     groupIdOf (index + j) tl' <> groupIdOf (index + i) tl) ->
  JsMap.get (groupIdOf (index + i) tl) (tabGroups (initTabsFrom index tls u))
  = Some {| tabs := tablist_tabs tl;
            panels := omap (panelOf (document u)) (tablist_tabs tl) |}.
Proof.
  revert index u i. induction tls as [|tl0 tls IH]; intros index u i Hi Hlater;
    [discriminate|].
  destruct i as [|i]; simpl in Hi.
  - injection Hi as ->. simpl. rewrite initTabsFrom_get_other.
    + unfold initTablist. simpl. rewrite Nat.add_0_r. apply get_set_same.
    + intros j tl' Hj. replace (S index + j) with (index + S j) by lia.
      apply Hlater; [exact Hj | lia].
  - simpl. replace (index + S i) with (S index + i) by lia.
    rewrite IH; [|exact Hi|].
    + f_equal. f_equal. apply omap_panelOf_shape.
      apply (initTabsFrom_shape [tl0] index u).
    + intros j tl' Hj Hlt. replace (S index + j) with (index + S j) by lia.
      replace (S index + i) with (index + S i) by lia.
      apply Hlater; [exact Hj | lia].
Qed.

Lemma omap_all_Some (f : nat -> option nat) (ts : list nat) :
  (forall t, t ∈ ts -> is_Some (f t)) ->
  Forall2 (fun t p => f t = Some p) ts (omap f ts).
Proof.
  induction ts as [|t ts IH]; intros Hall; [constructor|].
  simpl. destruct (Hall t (list_elem_of_here _ _)) as [p Hp]. rewrite Hp.
  constructor; [exact Hp|]. apply IH. intros t' Ht'.
  apply Hall. now apply list_elem_of_further.
Qed.

(** X7. [initTabs] registers every tablist under its [data-tab-group], or
    under ["tab-group-<index>"] when it has none, unless a later tablist
    takes the same id.  The registered group holds the tablist's tabs and,
    in the same order, the panels they resolve to; when every tab resolves
    to a panel the two lists correspond one to one.  After [initTabs] the
    [aria-selected] of every registered tab says what its [active] class
    says, and no element has changed its id, its [aria-controls], its
    [active] class or its [hidden] attribute. *)
Theorem initTabs_registers_groups (tls : list tablist) (u : ui) (i : nat)
    (tl : tablist) :
  tls !! i = Some tl ->
  (forall j tl', tls !! j = Some tl' -> i < j ->
     groupIdOf j tl' <> groupIdOf i tl) ->
  JsMap.get (groupIdOf i tl) (tabGroups (initTabs tls u))
  = Some {| tabs := tablist_tabs tl;
            panels := omap (panelOf (document (initTabs tls u))) (tablist_tabs tl) |}
  /\ ((forall t, t ∈ tablist_tabs tl -> is_Some (panelOf (document u) t)) ->
      Forall2 (fun t p => panelOf (document (initTabs tls u)) t = Some p)
        (tablist_tabs tl)
        (omap (panelOf (document (initTabs tls u))) (tablist_tabs tl)))
  /\ (forall t e', t ∈ tablist_tabs tl ->
        document (initTabs tls u) !! t = Some e' -> mirrorsClass e')
  /\ (forall k e, document u !! k = Some e ->
        exists e', document (initTabs tls u) !! k = Some e'
          /\ id e' = id e /\ aria_controls e' = aria_controls e
          /\ class_active e' = class_active e /\ hidden e' = hidden e).
Proof.
  intros Hi Hlater. unfold initTabs.
  pose proof (initTabsFrom_shape tls 0 u) as Hshape.
  repeat apply conj.
  - rewrite (omap_panelOf_shape _ (document u)) by exact Hshape.
    apply (initTabsFrom_registers tls 0 u i tl Hi). exact Hlater.
  - intros Hall. apply omap_all_Some. intros t Ht.
    rewrite (panelOf_shape _ (document u)) by exact Hshape. auto.
  - intros t e' Ht He'.
    destruct (lookup_shape _ (document u) t e' Hshape He') as (e & He & _).
    destruct (initTabsFrom_kept tls 0 u t e He) as (e2 & He2 & _ & _ & _ & _ & Hm).
    rewrite He' in He2. injection He2 as <-.
    apply (Hm tl); [eapply list_elem_of_lookup_2; eauto | exact Ht].
  - intros k e He.
    destruct (initTabsFrom_kept tls 0 u k e He) as (e' & He' & Hs & Hc & Hh & _).
    exists e'. unfold shape in Hs. repeat split; congruence.
Qed.

End TabsMore.

(** *** The statements above, on the example page *)

Lemma tabsPage_distinct_ids (x : string) (j k tj tk : nat) :
  AppUI.tabs Examples.resultsGroup !! j = Some tj ->
  AppUI.tabs Examples.resultsGroup !! k = Some tk ->
  AppUI.id <$> AppUI.document Examples.tabsPage !! tj = Some x ->
  AppUI.id <$> AppUI.document Examples.tabsPage !! tk = Some x ->
  j = k.
Proof.
  intros Hj Hk Hx Hy.
  destruct j as [|[|j]], k as [|[|k]]; try discriminate; try reflexivity;
    simpl in Hj, Hk; injection Hj as <-; injection Hk as <-;
    simpl in Hx, Hy; congruence.
Qed.

Lemma tabsPage_valid_tabs (t : nat) :
  t ∈ AppUI.tabs Examples.resultsGroup ->
  is_Some (AppUI.document Examples.tabsPage !! t).
Proof.
  simpl. rewrite !elem_of_cons, elem_of_nil.
  intros [->|[->|[]]]; simpl; eauto.
Qed.

Lemma tabsPage_no_such_tab (t : nat) (e : AppUI.element) :
  t ∈ AppUI.tabs Examples.resultsGroup ->
  AppUI.document Examples.tabsPage !! t = Some e ->
  AppUI.id e <> "tab-missing".
Proof.
  simpl. rewrite !elem_of_cons, elem_of_nil.
  intros [->|[->|[]]]; simpl; intros [= <-]; discriminate.
Qed.

Lemma arrow_keys_move_and_wrap_witness :
  AppUI.findIndex (AppUI.document Examples.tabsPage)
    (AppUI.tabs Examples.resultsGroup) "tab-findings" = Some 1
  /\ AppUI.focus
       (AppUI.handleTabKeydown "tab-findings" "ArrowRight" "results"
          Examples.tabsPage (Some 1))
     = Some 0
  /\ AppUI.defaultPrevented
       (AppUI.handleTabKeydown "tab-findings" "ArrowRight" "results"
          Examples.tabsPage (Some 1))
     = true.
Proof.
  assert (Hget : JsMap.get "results" (AppUI.tabGroups Examples.tabsPage)
                 = Some Examples.resultsGroup) by reflexivity.
  assert (Hfind : AppUI.findIndex (AppUI.document Examples.tabsPage)
                    (AppUI.tabs Examples.resultsGroup) "tab-findings" = Some 1)
    by (vm_compute; reflexivity).
  assert (Hn : 2 <= length (AppUI.tabs Examples.resultsGroup)) by (simpl; lia).
  destruct (proj1 (arrow_keys_move_and_wrap Examples.tabsPage "tab-findings"
                     "ArrowRight" "results" Examples.resultsGroup 1 (Some 1)
                     Hget Hfind Hn) (or_introl eq_refl)) as (t & Ht & Heq).
  simpl in Ht. injection Ht as <-.
  rewrite Heq. repeat apply conj; [exact Hfind | reflexivity | reflexivity].
Defined.

Lemma unknown_tab_id_switches_group_off_witness :
  AppUI.selectedAt
    (AppUI.document (AppUI.activateTab "results" "tab-missing" Examples.tabsPage)) 0
  = false
  /\ AppUI.visibleAt
       (AppUI.document (AppUI.activateTab "results" "tab-missing" Examples.tabsPage)) 2
     = false.
Proof.
  assert (Hget : JsMap.get "results" (AppUI.tabGroups Examples.tabsPage)
                 = Some Examples.resultsGroup) by reflexivity.
  assert (Hin : 0 ∈ AppUI.tabs Examples.resultsGroup) by apply list_elem_of_here.
  destruct (unknown_tab_id_switches_group_off Examples.tabsPage "results"
              "tab-missing" Examples.resultsGroup Hget tabsPage_no_such_tab 0 Hin)
    as [Hsel Hvis].
  split; [exact Hsel|]. apply Hvis. vm_compute. reflexivity.
Defined.

Lemma activateTab_twice_witness :
  AppUI.activateTab "results" "tab-findings"
    (AppUI.activateTab "results" "tab-findings" Examples.tabsPage)
  = AppUI.activateTab "results" "tab-findings" Examples.tabsPage.
Proof.
  assert (Hget : JsMap.get "results" (AppUI.tabGroups Examples.tabsPage)
                 = Some Examples.resultsGroup) by reflexivity.
  exact (activateTab_twice Examples.tabsPage "results" "tab-findings"
           Examples.resultsGroup Hget (proj1 tabsPage_wellFormed)
           (proj1 (proj2 tabsPage_wellFormed))).
Defined.

Lemma arrow_left_undoes_arrow_right_witness :
  exists t1 target1,
    AppUI.focus
      (AppUI.handleTabKeydown "tab-summary" "ArrowRight" "results"
         Examples.tabsPage (Some 0)) = Some t1
    /\ AppUI.id <$> AppUI.document Examples.tabsPage !! t1 = Some target1
    /\ AppUI.focus
         (AppUI.handleTabKeydown target1 "ArrowLeft" "results"
            (AppUI.page
               (AppUI.handleTabKeydown "tab-summary" "ArrowRight" "results"
                  Examples.tabsPage (Some 0)))
            (AppUI.focus
               (AppUI.handleTabKeydown "tab-summary" "ArrowRight" "results"
                  Examples.tabsPage (Some 0))))
       = Some 0.
Proof.
  assert (Hget : JsMap.get "results" (AppUI.tabGroups Examples.tabsPage)
                 = Some Examples.resultsGroup) by reflexivity.
  assert (Hn : 2 <= length (AppUI.tabs Examples.resultsGroup)) by (simpl; lia).
  exact (arrow_left_undoes_arrow_right Examples.tabsPage "results" "tab-summary"
           Examples.resultsGroup 0 0 (Some 0) Hget Hn eq_refl eq_refl
           tabsPage_distinct_ids tabsPage_valid_tabs).
Defined.

Lemma initTabs_registers_groups_witness :
  JsMap.get "results"
    (AppUI.tabGroups (AppUI.initTabs [Examples.resultsTablist] Examples.rawPage))
  = Some Examples.resultsGroup.
Proof.
  assert (Hlater : forall j tl', [Examples.resultsTablist] !! j = Some tl' -> 0 < j ->
            AppUI.groupIdOf j tl' <> AppUI.groupIdOf 0 Examples.resultsTablist)
    by (intros [|j] tl' Hj Hlt; [lia | discriminate]).
  pose proof (proj1 (initTabs_registers_groups [Examples.resultsTablist]
                       Examples.rawPage 0 Examples.resultsTablist eq_refl Hlater))
    as H.
  vm_compute in H. vm_compute. exact H.
Defined.

(** ** The issue-spotter page: request, outcome, rendering *)


(** ** issue-spotter.js: requests, outcomes, rendering *)

Section IssueSpotterMore.
Import JsString IssueSpotter IssueSpotterPage.

Lemma clearError_frame (f : form) :
  fileInput_files (clearError f) = fileInput_files f
  /\ textInput_value (clearError f) = textInput_value f
  /\ instructionsInput_value (clearError f) = instructionsInput_value f
  /\ styleSelect_value (clearError f) = styleSelect_value f
  /\ returnJsonToggle_checked (clearError f) = returnJsonToggle_checked f
  /\ sent (clearError f) = sent f
  /\ focused (clearError f) = focused f
  /\ submitBtn_disabled (clearError f) = submitBtn_disabled f.
Proof. unfold clearError. destruct (errorEl f); repeat split. Qed.

Lemma updateStatus_frame (m : string) (f : form) :
  sent (updateStatus m f) = sent f
  /\ focused (updateStatus m f) = focused f
  /\ submitBtn_disabled (updateStatus m f) = submitBtn_disabled f
  /\ errorEl (updateStatus m f) = errorEl f
  /\ fileInput_files (updateStatus m f) = fileInput_files f
  /\ textInput_value (updateStatus m f) = textInput_value f.
Proof. unfold updateStatus. destruct (statusEl f); repeat split. Qed.

(** X8. The issue-spotter form sends a request exactly when it is valid (a
    file or some text, and instructions).  A valid submission sends one
    request, disables the submit button and hides the error box; it goes to
    the upload endpoint with the first chosen file whenever a file is
    chosen, even if text was pasted too, and otherwise to the text endpoint
    with the trimmed text.  An invalid submission sends nothing and leaves
    the button as it was. *)
Theorem analysis_request_iff_valid (f : form) :
  (valid f = true ->
   let style := if nonEmpty (styleSelect_value f)
                then Some (styleSelect_value f) else None in
   let request :=
     match fileInput_files f with
     | file :: _ =>
         PostUpload (trim (instructionsInput_value f))
           (boolString (returnJsonToggle_checked f)) style file
     | [] =>
         PostText (trim (textInput_value f)) (trim (instructionsInput_value f))
           style (returnJsonToggle_checked f)
     end in
   sent (submit_begin f) = sent f ++ [request]
   /\ submitBtn_disabled (submit_begin f) = true
   /\ focused (submit_begin f) = focused f
   /\ (is_Some (errorEl f) ->
       errorEl (submit_begin f)
       = Some {| err_textContent := EmptyString; err_hidden := true |}))
  /\ (valid f = false ->
      sent (submit_begin f) = sent f
      /\ submitBtn_disabled (submit_begin f) = submitBtn_disabled f).
Proof.
  destruct (clearError_frame f) as (Hfiles & Htext & Hinstr & Hstyle & Hjson
                                    & Hsent & Hfocus & Hbtn).
  unfold valid, submit_begin. rewrite Hfiles, Htext, Hinstr, Hstyle, Hjson.
  split.
  - intros Hvalid. apply andb_true_iff in Hvalid as [Hinput Hi].
    assert (Hpass : negb (match fileInput_files f with [] => false | _ => true end)
                    && negb (nonEmpty (trim (textInput_value f))) = false).
    { rewrite <- negb_orb, Hinput. reflexivity. }
    rewrite Hpass, Hi. simpl negb. cbv iota.
    unfold submitAnalysis. simpl.
    assert (Herr : is_Some (errorEl f) ->
                   errorEl (clearError f)
                   = Some {| err_textContent := EmptyString; err_hidden := true |}).
    { unfold clearError. intros [e He]. now rewrite He. }
    destruct (fileInput_files f) as [|file rest] eqn:Ef; simpl;
      unfold updateStatus, setLoading; simpl;
      destruct (statusEl (clearError f)); simpl;
      rewrite ?Hfiles, ?Htext, ?Hsent, ?Hfocus, ?Ef; simpl;
      repeat apply conj; auto.
  - intros Hinvalid. apply andb_false_iff in Hinvalid.
    destruct (negb (match fileInput_files f with [] => false | _ => true end)
              && negb (nonEmpty (trim (textInput_value f)))) eqn:Hpass.
    + unfold showError. destruct (errorEl (clearError f)); simpl; auto.
    + destruct Hinvalid as [Hinput|Hi].
      * rewrite <- negb_orb, Hinput in Hpass. discriminate.
      * rewrite Hi. simpl.
        unfold showError. destruct (errorEl (clearError f)); simpl; auto.
Qed.

(** X9. Whatever the outcome of the analysis request, the submit button is
    enabled again and no request is sent.  When the request fails, the
    results side of the page is left as it was, the error is logged, the
    status reads "Analysis failed." and the error box shows, for a response
    that is not a 2xx, the [detail] of its body if it has one, else the
    status text of the response, else "Analysis failed."; for an exception
    it shows the exception's message, or "Unable to process the request."
    when that is empty. *)
Theorem analysis_outcome_reported (wantsJson : bool) (r : reply) (f : form)
    (o : outputs) :
  submitBtn_disabled (fst (submit_resume wantsJson r f o)) = false
  /\ sent (fst (submit_resume wantsJson r f o)) = sent f
  /\ focused (fst (submit_resume wantsJson r f o)) = focused f
  /\ (forall m, failureMessage r = Some m ->
        summaryOutput (snd (submit_resume wantsJson r f o)) = summaryOutput o
        /\ findingsOutput (snd (submit_resume wantsJson r f o)) = findingsOutput o
        /\ citationsOutput (snd (submit_resume wantsJson r f o)) = citationsOutput o
        /\ jsonOutput (snd (submit_resume wantsJson r f o)) = jsonOutput o
        /\ lawAgentUI (snd (submit_resume wantsJson r f o)) = lawAgentUI o
        /\ console (snd (submit_resume wantsJson r f o)) = console o ++ [m]
        /\ (is_Some (statusEl f) ->
            statusEl (fst (submit_resume wantsJson r f o)) = Some "Analysis failed.")
        /\ (is_Some (errorEl f) ->
            errorEl (fst (submit_resume wantsJson r f o))
            = Some {| err_textContent :=
                        if nonEmpty m then m else "Unable to process the request.";
                      err_hidden := false |}))
  /\ (forall statusText detail,
        failureMessage (Failed statusText detail)
        = Some (if truthy detail then toString detail
                else if nonEmpty statusText then statusText
                else "Analysis failed."))
  /\ (forall data, r = Succeeded data ->
        errorEl (fst (submit_resume wantsJson r f o)) = errorEl f
        /\ console (snd (submit_resume wantsJson r f o)) = console o
        /\ (is_Some (statusEl f) ->
            statusEl (fst (submit_resume wantsJson r f o))
            = Some "Analysis complete.")
        /\ lawAgentUI (snd (submit_resume wantsJson r f o))
           = AppUI.activateTab "results" "tab-summary" <$> lawAgentUI o).
Proof.
  assert (Hfail : forall m, failureMessage r = Some m ->
            submit_resume wantsJson r f o
            = (setLoading false
                 (showError (if nonEmpty m then m
                             else "Unable to process the request.")
                    (updateStatus "Analysis failed." f)),
               {| summaryOutput := summaryOutput o;
                  findingsOutput := findingsOutput o;
                  citationsOutput := citationsOutput o;
                  jsonOutput := jsonOutput o; lawAgentUI := lawAgentUI o;
                  console := console o ++ [m] |})).
  { intros m Hm. destruct r; simpl in Hm; try discriminate;
      injection Hm as <-; reflexivity. }
  repeat apply conj.
  - destruct r; reflexivity.
  - destruct r; simpl; unfold showError, updateStatus;
      destruct (statusEl f); simpl; destruct (errorEl f); reflexivity.
  - destruct r; simpl; unfold showError, updateStatus;
      destruct (statusEl f); simpl; destruct (errorEl f); reflexivity.
  - intros m Hm. rewrite (Hfail m Hm). simpl.
    repeat apply conj; try reflexivity.
    + intros [x Hx]. unfold showError, updateStatus. rewrite Hx. simpl.
      now destruct (errorEl f).
    + intros [x Hx]. unfold showError, updateStatus.
      destruct (statusEl f); simpl; now rewrite Hx.
  - reflexivity.
  - intros data ->. simpl. repeat apply conj; try reflexivity.
    + unfold updateStatus. now destruct (statusEl f).
    + intros [x Hx]. unfold updateStatus. now rewrite Hx.
Qed.

Lemma submit_begin_hides_error (f : form) :
  valid f = true -> is_Some (errorEl f) ->
  errorEl (submit_begin f)
  = Some {| err_textContent := EmptyString; err_hidden := true |}.
Proof.
  unfold valid. intros Hvalid [e He].
  apply andb_true_iff in Hvalid as [Hinput Hi].
  destruct (clearError_frame f) as (Hfiles & Htext & Hinstr & _).
  unfold submit_begin. rewrite Hfiles, Htext, Hinstr, Hi.
  rewrite <- negb_orb, Hinput. simpl.
  unfold submitAnalysis, updateStatus, setLoading, clearError. rewrite He. simpl.
  destruct (fileInput_files f); simpl; destruct (statusEl f); reflexivity.
Qed.

(** X10. A submission that passes validation and whose request succeeds
    ends with the error box hidden and empty, whatever it showed before,
    with the submit button enabled, and with the results drawn from the
    response: a summary that is absent, empty or blank, findings or
    citations that are absent, not an array or empty, each give their
    placeholder; otherwise there is one article per finding and per
    citation. *)
Theorem successful_analysis_rendered (wantsJson : bool) (data : analysis)
    (f : form) (o : outputs) :
  valid f = true ->
  (is_Some (errorEl f) ->
   errorEl (fst (submit_resume wantsJson (Succeeded data) (submit_begin f) o))
   = Some {| err_textContent := EmptyString; err_hidden := true |})
  /\ submitBtn_disabled
       (fst (submit_resume wantsJson (Succeeded data) (submit_begin f) o)) = false
  /\ (forall s, summary data = Some s -> trim s <> EmptyString ->
        summaryOutput (snd (submit_resume wantsJson (Succeeded data) (submit_begin f) o))
        = trim s)
  /\ ((summary data = None \/ exists s, summary data = Some s /\ trim s = EmptyString) ->
      summaryOutput (snd (submit_resume wantsJson (Succeeded data) (submit_begin f) o))
      = "No summary provided.")
  /\ ((findings data = None \/ findings data = Some []) ->
      findingsOutput (snd (submit_resume wantsJson (Succeeded data) (submit_begin f) o))
      = Markup (emptyMarkup "No findings returned."))
  /\ (forall x l, findings data = Some (x :: l) ->
        exists arts,
          findingsOutput
            (snd (submit_resume wantsJson (Succeeded data) (submit_begin f) o))
          = Articles arts
          /\ length arts = length (x :: l)
          /\ forall i item, (x :: l) !! i = Some item ->
                heading <$> arts !! i
                = Some (Some (if truthy (issue item) then toString (issue item)
                              else "Finding " +:+ pretty (i + 1))))
  /\ ((citations data = None \/ citations data = Some []) ->
      citationsOutput (snd (submit_resume wantsJson (Succeeded data) (submit_begin f) o))
      = Markup (emptyMarkup "No citations returned."))
  /\ (forall x l, citations data = Some (x :: l) ->
        exists arts,
          citationsOutput
            (snd (submit_resume wantsJson (Succeeded data) (submit_begin f) o))
          = Articles arts
          /\ length arts = length (x :: l)).
Proof.
  intros Hvalid.
  pose proof (submit_begin_hides_error f Hvalid) as Herr.
  remember (submit_begin f) as f1 eqn:Ef1.
  assert (Hf : findingsOutput (snd (submit_resume wantsJson (Succeeded data) f1 o))
               = renderFindings (default [] (findings data))) by reflexivity.
  assert (Hc : citationsOutput (snd (submit_resume wantsJson (Succeeded data) f1 o))
               = renderCitations (default [] (citations data))) by reflexivity.
  assert (Hs : summaryOutput (snd (submit_resume wantsJson (Succeeded data) f1 o))
               = match summary data with
                 | Some s => if nonEmpty s && nonEmpty (trim s) then trim s
                             else "No summary provided."
                 | None => "No summary provided."
                 end) by reflexivity.
  rewrite Hf, Hc, Hs. clear Hf Hc Hs.
  repeat apply conj.
  - intros He. simpl. unfold updateStatus.
    destruct (statusEl f1); simpl; auto.
  - reflexivity.
  - intros s -> Hne. destruct (trim s) eqn:Et; [congruence|].
    destruct s; [discriminate|]. reflexivity.
  - intros [-> | (s & -> & Hs)]; [reflexivity|]. rewrite Hs.
    now rewrite andb_false_r.
  - intros [-> | ->]; reflexivity.
  - intros x l ->.
    change (renderFindings (default [] (Some (x :: l))))
      with (Articles (imap renderFinding (x :: l))).
    eexists. split; [reflexivity|].
    split; [apply length_imap|].
    intros i item Hi.
    rewrite (list_lookup_imap renderFinding (x :: l) i), Hi. simpl.
    unfold js_or. now destruct (truthy (issue item)).
  - intros [-> | ->]; reflexivity.
  - intros x l ->.
    change (renderCitations (default [] (Some (x :: l))))
      with (Articles (renderCitation <$> (x :: l))).
    eexists. split; [reflexivity|]. apply length_fmap.
Qed.

(** *** Escaping *)

Lemma entity_cases (a : ascii) :
  (entity a = String a EmptyString /\ a <> "&"%char)
  \/ (a = "&"%char /\ entity a = "&amp;")
  \/ (a = "<"%char /\ entity a = "&lt;")
  \/ (a = ">"%char /\ entity a = "&gt;")
  \/ (a = dquote /\ entity a = "&quot;")
  \/ (a = "'"%char /\ entity a = "&#039;").
Proof.
  destruct a as [[] [] [] [] [] [] [] []];
    first [ left; split; [reflexivity | discriminate]
          | right; left; split; reflexivity
          | right; right; left; split; reflexivity
          | right; right; right; left; split; reflexivity
          | right; right; right; right; left; split; reflexivity
          | right; right; right; right; right; split; reflexivity ].
Qed.

Lemma escapeEach_cons (a : ascii) (s : string) :
  escapeEach (String a s) = entity a +:+ escapeEach s.
Proof. reflexivity. Qed.

Lemma escapeEach_injective (s t : string) :
  escapeEach s = escapeEach t -> s = t.
Proof.
  revert t. induction s as [|a s IH]; intros [|b t] H.
  - reflexivity.
  - rewrite escapeEach_cons in H.
    destruct (entity_cases b) as [[Hb _]|[[_ Hb]|[[_ Hb]|[[_ Hb]|[[_ Hb]|[_ Hb]]]]]];
      rewrite Hb in H; discriminate.
  - rewrite escapeEach_cons in H.
    destruct (entity_cases a) as [[Ha _]|[[_ Ha]|[[_ Ha]|[[_ Ha]|[[_ Ha]|[_ Ha]]]]]];
      rewrite Ha in H; discriminate.
  - rewrite !escapeEach_cons in H.
    destruct (entity_cases a) as [[Ha Na]|[[Ea Ha]|[[Ea Ha]|[[Ea Ha]|[[Ea Ha]|[Ea Ha]]]]]],
      (entity_cases b) as [[Hb Nb]|[[Eb Hb]|[[Eb Hb]|[[Eb Hb]|[[Eb Hb]|[Eb Hb]]]]]];
      rewrite Ha, Hb in H; rewrite ?append_cons in H;
      change (EmptyString +:+ escapeEach s) with (escapeEach s) in H;
      change (EmptyString +:+ escapeEach t) with (escapeEach t) in H;
      simplify_eq; try congruence; f_equal; apply IH; assumption.
Qed.

Lemma length_append (s t : string) :
  String.length (s +:+ t) = (String.length s + String.length t)%nat.
Proof.
  induction s as [|a s IH]; [reflexivity|].
  rewrite append_cons. simpl. now rewrite IH.
Qed.

Lemma length_entity (a : ascii) : (1 <= String.length (entity a))%nat.
Proof.
  destruct (entity_cases a) as [[H _]|[[_ H]|[[_ H]|[[_ H]|[[_ H]|[_ H]]]]]];
    rewrite H; simpl; lia.
Qed.

Lemma length_escapeEach (s : string) :
  (String.length s <= String.length (escapeEach s))%nat.
Proof.
  induction s as [|a s IH]; [reflexivity|].
  rewrite escapeEach_cons, length_append.
  pose proof (length_entity a). simpl. lia.
Qed.

Lemma entity_plain (a : ascii) :
  entity a = String a EmptyString <-> markupChar a = false /\ a <> "&"%char.
Proof.
  destruct a as [[] [] [] [] [] [] [] []]; vm_compute;
    (split; [intros H; first [discriminate H | split; [reflexivity|discriminate]]
            | intros [H1 H2]; first [reflexivity | discriminate H1 | now elim H2]]).
Qed.

Lemma escapeEach_fixed (s : string) :
  escapeEach s = s <-> forall a, a ∈ chars s -> entity a = String a EmptyString.
Proof.
  induction s as [|a s IH].
  - split; [intros _ a H; now apply elem_of_nil in H | reflexivity].
  - rewrite escapeEach_cons. split.
    + intros H.
      assert (Ha : entity a = String a EmptyString).
      { apply (f_equal String.length) in H. rewrite length_append in H.
        pose proof (length_escapeEach s) as Hs. simpl in H.
        destruct (entity_cases a) as [[E _]|[[_ E]|[[_ E]|[[_ E]|[[_ E]|[_ E]]]]]];
          [exact E| | | | |]; rewrite E in H; simpl in H; lia. }
      rewrite Ha, append_cons in H. injection H as H.
      change (EmptyString +:+ escapeEach s) with (escapeEach s) in H.
      intros x Hx. simpl in Hx. apply elem_of_cons in Hx as [->|Hx]; [exact Ha|].
      now apply IH.
    + intros H. rewrite (H a) by (simpl; apply elem_of_cons; now left).
      rewrite append_cons. f_equal.
      change (EmptyString +:+ escapeEach s) with (escapeEach s).
      apply IH. intros x Hx. apply H. simpl. apply elem_of_cons. now right.
Qed.

(** X11. Escaping loses nothing and changes only what it must: two strings
    with the same escaped form are equal; a string comes back unchanged
    exactly when it holds none of the five characters that are replaced;
    a missing, empty or zero value is escaped to the empty string. *)
Theorem escapeHtml_faithful :
  (forall s t, escapeHtml (JStr s) = escapeHtml (JStr t) -> s = t)
  /\ (forall s, escapeHtml (JStr s) = s
               <-> forall a, a ∈ chars s -> markupChar a = false /\ a <> "&"%char)
  /\ (forall v, truthy v = false -> escapeHtml v = EmptyString).
Proof.
  repeat apply conj.
  - intros s t. rewrite !escapeHtml_JStr. apply escapeEach_injective.
  - intros s. rewrite escapeHtml_JStr, escapeEach_fixed.
    split; intros H a Ha; apply entity_plain; auto.
  - intros v Hv. rewrite escapeHtml_escapeEach. unfold js_or. now rewrite Hv.
Qed.

End IssueSpotterMore.

Lemma successful_analysis_rendered_witness :
  IssueSpotterPage.valid IssueSpotterExamples.pastedForm = true
  /\ IssueSpotterPage.summaryOutput
       (snd (IssueSpotterPage.submit_resume true
               (IssueSpotterPage.Succeeded IssueSpotterExamples.report)
               (IssueSpotter.submit_begin IssueSpotterExamples.pastedForm)
               IssueSpotterExamples.blankOutputs))
     = "Two risks.".
Proof.
  split; [reflexivity|].
  destruct (successful_analysis_rendered true IssueSpotterExamples.report
              IssueSpotterExamples.pastedForm IssueSpotterExamples.blankOutputs
              eq_refl) as (_ & _ & H & _).
  apply (H " Two risks. "); [reflexivity | vm_compute; discriminate].
Defined.

(** ** The witness finder: searching *)

Section WitnessFinderMore.
Import JsString WitnessFinder.
Variable Number_toString : Q -> string.
Variable String_toLowerCase : string -> string.
Variable TypeError_message : string.

Lemma nonEmpty_true (s : string) : nonEmpty s = true <-> s <> EmptyString.
Proof. destruct s; simpl; split; congruence. Qed.

Lemma startLoading_present (w : world) (h : bool) :
  loadingEl (top w) = Some h ->
  startLoading w
  = clearErrorEl
      (on_top (set_submitBtn_disabled true)
         (on_top (set_loadingEl (Some false))
            (on_top (set_form_hidden true)
               (on_st (set_loading true) w)))).
Proof. unfold startLoading. now intros ->. Qed.

(** X12. On an idle page, submitting a search form whose industry and
    description are not blank sends exactly one search request, carrying
    the trimmed fields, the limit 8, and the name only when it is not
    blank.  The page enters the loading state: the form is hidden, the
    loading panel shown, the submit button disabled, the error box emptied
    and hidden; results, filtered view, cache and rendered lists are left
    alone.  A further submit in that state does nothing; so does any submit
    while a search is loading. *)
Theorem search_request_once (w : world) :
  loading (st w) = false ->
  is_Some (loadingEl (top w)) ->
  trim (industry (fields w)) <> EmptyString ->
  trim (description (fields w)) <> EmptyString ->
  let w' := onSubmit_begin w in
  sent (env w')
  = sent (env w)
    ++ [PostSearch (trim (industry (fields w))) (trim (description (fields w)))
          (if nonEmpty (trim (name_ (fields w)))
           then Some (trim (name_ (fields w))) else None) 8]
  /\ pending (env w') = pending (env w) ++ [SearchCall]
  /\ st w' = set_loading true (st w)
  /\ form_hidden (top w') = true
  /\ loadingEl (top w') = Some false
  /\ submitBtn_disabled (top w') = true
  /\ (is_Some (errorEl (top w)) ->
      errorEl (top w')
      = Some {| err_textContent := EmptyString; err_hidden := true |})
  /\ (is_Some (statusEl (top w)) ->
      statusEl (top w') = Some "Searching the web for expert witnesses…")
  /\ view w' = view w
  /\ onSubmit_begin w' = w'
  /\ (forall v, loading (st v) = true -> onSubmit_begin v = v).
Proof.
  intros Hidle [h Hl] Hi Hd. cbv zeta.
  apply nonEmpty_true in Hi, Hd.
  assert (Hw : onSubmit_begin w
               = on_env (send (PostSearch (trim (industry (fields w)))
                                 (trim (description (fields w)))
                                 (if nonEmpty (trim (name_ (fields w)))
                                  then Some (trim (name_ (fields w))) else None) 8)
                           SearchCall)
                   (updateStatus "Searching the web for expert witnesses…"
                      (startLoading w))).
  { unfold onSubmit_begin. now rewrite Hidle, Hi, Hd. }
  assert (Hguard : forall v, loading (st v) = true -> onSubmit_begin v = v).
  { intros v Hv. unfold onSubmit_begin. now rewrite Hv. }
  rewrite Hw, (startLoading_present w h Hl). clear Hw.
  destruct w as [s0 i0 f0 [e0 m0 fh le sb fc fo] v0 en0].
  unfold updateStatus, clearErrorEl. simpl in *.
  repeat apply conj; try (destruct e0, m0; reflexivity).
  - intros [e He]. subst e0. destruct m0; reflexivity.
  - intros [m Hm]. subst m0. destruct e0; reflexivity.
  - exact Hguard.
Qed.

(** X13. The guard against a second search rests on the loading panel: on
    a page without that element a valid submit still sends its request, but
    the page never enters the loading state, the form stays visible and
    enabled, and a second submit sends a second request. *)
Theorem search_guard_needs_loading_panel (w : world) :
  loading (st w) = false ->
  loadingEl (top w) = None ->
  trim (industry (fields w)) <> EmptyString ->
  trim (description (fields w)) <> EmptyString ->
  exists request,
    sent (env (onSubmit_begin w)) = sent (env w) ++ [request]
    /\ st (onSubmit_begin w) = st w
    /\ form_hidden (top (onSubmit_begin w)) = form_hidden (top w)
    /\ submitBtn_disabled (top (onSubmit_begin w)) = submitBtn_disabled (top w)
    /\ errorEl (top (onSubmit_begin w)) = errorEl (top w)
    /\ sent (env (onSubmit_begin (onSubmit_begin w)))
       = sent (env w) ++ [request; request].
Proof.
  intros Hidle Hl Hi Hd. apply nonEmpty_true in Hi, Hd.
  exists (PostSearch (trim (industry (fields w))) (trim (description (fields w)))
            (if nonEmpty (trim (name_ (fields w)))
             then Some (trim (name_ (fields w))) else None) 8).
  assert (Hstep : forall v, loading (st v) = false -> loadingEl (top v) = None ->
                    fields v = fields w ->
                    onSubmit_begin v
                    = on_env (send (PostSearch (trim (industry (fields w)))
                                      (trim (description (fields w)))
                                      (if nonEmpty (trim (name_ (fields w)))
                                       then Some (trim (name_ (fields w))) else None) 8)
                                SearchCall)
                        (updateStatus "Searching the web for expert witnesses…" v)).
  { intros v Hv Hlv Hf. unfold onSubmit_begin, startLoading.
    now rewrite Hv, Hlv, Hf, Hi, Hd. }
  rewrite (Hstep w Hidle Hl eq_refl).
  rewrite Hstep.
  - destruct w as [s0 i0 f0 [e0 m0 fh le sb fc fo] v0 en0].
    unfold updateStatus. simpl in *.
    destruct m0; simpl; repeat apply conj; try reflexivity;
      now rewrite <- app_assoc.
  - unfold updateStatus. now destruct (statusEl (top w)).
  - unfold updateStatus. now destruct (statusEl (top w)).
  - unfold updateStatus. now destruct (statusEl (top w)).
Qed.

Lemma renderEmptyState_inputs (w : world) :
  inputs (renderEmptyState w) = inputs w.
Proof. unfold renderEmptyState. now destruct (emptyEl (view w)). Qed.

Lemma renderResults_inputs (w : world) :
  inputs (renderResults Number_toString w) = inputs w.
Proof.
  unfold renderResults. destruct (resultsEl (view w)); [|reflexivity].
  now rewrite renderEmptyState_inputs.
Qed.

Lemma applyFilters_frame (w : world) :
  top (applyFilters Number_toString String_toLowerCase w) = top w
  /\ env (applyFilters Number_toString String_toLowerCase w) = env w
  /\ inputs (applyFilters Number_toString String_toLowerCase w) = inputs w
  /\ toastContainer (view (applyFilters Number_toString String_toLowerCase w)) =
      toastContainer (view w)
  /\ savedPane (view (applyFilters Number_toString String_toLowerCase w)) =
      savedPane (view w).
Proof.
  unfold applyFilters.
  destruct (renderResults_frame Number_toString
              (on_st (set_filtered
                        (List.filter
                           (passes String_toLowerCase (default 0%Q
                               (filterSimilarity (inputs w)))
                              (default 0%Q (filterExperience (inputs w)))
                              (String_toLowerCase (trim (filterSector (inputs w))))
                              (String_toLowerCase (trim (filterLocation (inputs
                                  w)))))
                           (results (st w)))) w)) as (Ht & Hs & He & Hp).
  rewrite Ht, Hs, He, Hp, renderResults_inputs. now repeat split.
Qed.

Lemma applyFilters_loading (w : world) :
  loading (st (applyFilters Number_toString String_toLowerCase w)) = loading (st w).
Proof. unfold applyFilters. now rewrite renderResults_st. Qed.

Lemma applyFilters_current (w : world) :
  filtered (st (applyFilters Number_toString String_toLowerCase w))
  = List.filter (currentFilter String_toLowerCase w) (results (st w)).
Proof. apply applyFilters_filtered. Qed.

Lemma searchFailed_spec (e : error) (w : world) :
  st (searchFailed TypeError_message e w) = set_loading false (st w)
  /\ view (searchFailed TypeError_message e w) = view w
  /\ inputs (searchFailed TypeError_message e w) = inputs w
  /\ env (searchFailed TypeError_message e w) = log e (env w)
  /\ submitBtn_disabled (top (searchFailed TypeError_message e w)) = false
  /\ form_hidden (top (searchFailed TypeError_message e w)) = form_hidden (top w)
  /\ loadingEl (top (searchFailed TypeError_message e w)) = loadingEl (top w)
  /\ focused (top (searchFailed TypeError_message e w)) = focused (top w)
  /\ (is_Some (errorEl (top w)) ->
      errorEl (top (searchFailed TypeError_message e w))
      = Some {| err_textContent :=
                  if nonEmpty (message TypeError_message e) then message
                      TypeError_message e
                  else "Search failed. Please try again.";
                err_hidden := false |})
  /\ (is_Some (statusEl (top w)) ->
      statusEl (top (searchFailed TypeError_message e w)) = Some
          "Search failed. Please try again.").
Proof.
  destruct w as [s0 i0 f0 [e0 m0 fh le sb fc fo] v0 en0].
  unfold searchFailed, stopLoading, updateStatus, showErrorEl. simpl.
  repeat apply conj; try (destruct e0, m0; reflexivity).
  - intros [x Hx]. subst e0. destruct m0; reflexivity.
  - intros [x Hx]. subst m0. destruct e0; reflexivity.
Qed.

(** The candidates that [onSubmit] reads off the body of a 2xx response. *)
Lemma onSubmit_resume_success (data : json) (w : world) :
  let candidates :=
    match data with JsonObject _ _ (Some cs) => cs | _ => [] end in
  let w1 := applyFilters Number_toString String_toLowerCase (on_st (set_results
      candidates) w) in
  onSubmit_resume Number_toString String_toLowerCase TypeError_message (Response
      true (Json data)) w
  = stopLoading
      (updateStatus
         (match candidates with
          | [] => "No candidates returned. Try refining your query."
          | _ => "Found " +:+ pretty (length candidates) +:+ " candidate"
                   +:+ (if (length candidates =? 1)%nat then EmptyString else "s")
                   +:+ "."
          end) w1).
Proof.
  cbv zeta. unfold onSubmit_resume. simpl.
  destruct data as [|s d [cs|]|items]; try reflexivity.
  destruct cs; reflexivity.
Qed.

Lemma onSubmit_resume_ok (data : json) (w : world) :
  let candidates :=
    match data with JsonObject _ _ (Some cs) => cs | _ => [] end in
  let w' := onSubmit_resume Number_toString String_toLowerCase TypeError_message
      (Response true (Json data)) w in
  st w' = {| loading := false; results := candidates;
             filtered := List.filter (currentFilter String_toLowerCase w)
                 candidates;
             saved := saved (st w) |}
  /\ inputs w' = inputs w
  /\ env w' = env w
  /\ submitBtn_disabled (top w') = false
  /\ form_hidden (top w') = form_hidden (top w)
  /\ loadingEl (top w') = loadingEl (top w)
  /\ errorEl (top w') = errorEl (top w)
  /\ focused (top w') = focused (top w)
  /\ (is_Some (statusEl (top w)) ->
      statusEl (top w')
      = Some match candidates with
             | [] => "No candidates returned. Try refining your query."
             | [_] => "Found 1 candidate."
             | _ => "Found " +:+ pretty (length candidates) +:+ " candidates."
             end).
Proof.
  cbv zeta. rewrite onSubmit_resume_success.
  set (candidates := match data with JsonObject _ _ (Some cs) => cs | _ => [] end).
  set (w0 := on_st (set_results candidates) w).
  pose proof (applyFilters_frame w0) as (Ht & He & Hi & _ & _).
  pose proof (applyFilters_current w0) as Hf.
  pose proof (applyFilters_results Number_toString String_toLowerCase w0) as Hr.
  pose proof (applyFilters_saved Number_toString String_toLowerCase w0) as Hs.
  pose proof (applyFilters_loading w0) as Hl.
  set (msg := match candidates with [] => _ | _ => _ end).
  assert (Hmsg : msg = match candidates with
                       | [] => "No candidates returned. Try refining your query."
                       | [_] => "Found 1 candidate."
                       | _ => "Found " +:+ pretty (length candidates)
                                +:+ " candidates."
                       end).
  { subst msg. destruct candidates as [|a [|b l]]; reflexivity. }
  rewrite <- Hmsg. clearbody msg.
  change (currentFilter String_toLowerCase w0) with (currentFilter
      String_toLowerCase w) in Hf.
  change (results (st w0)) with candidates in Hf, Hr.
  change (saved (st w0)) with (saved (st w)) in Hs.
  change (top w0) with (top w) in Ht. change (env w0) with (env w) in He.
  change (inputs w0) with (inputs w) in Hi.
  destruct (applyFilters Number_toString String_toLowerCase w0)
    as [[l1 r1 fl1 sv1] i1 f1 [e1 m1 fh1 le1 sb1 fc1 fo1] v1 en1].
  simpl in Ht, He, Hf, Hr, Hs, Hi, Hl. subst.
  unfold stopLoading, updateStatus. simpl. rewrite <- Ht.
  destruct m1; simpl; repeat apply conj;
    first [reflexivity | assumption | intros [x Hx]; discriminate].
Qed.

(** Every other way for the search to settle ends in the [catch] block. *)
Lemma onSubmit_resume_cases (o : outcome) (w : world) :
  (exists data, o = Response true (Json data))
  \/ (exists e,
        onSubmit_resume Number_toString String_toLowerCase TypeError_message o w
            = searchFailed TypeError_message e w
        /\ (forall data, o <> Response true (Json data))
        /\ (forall e', performSearch_result o = inl e'
                       \/ (exists m, o = Response true (Invalid m)
                                     /\ e' = RuntimeError m) -> e' = e)).
Proof.
  destruct o as [m|[] [m|data]].
  - right. exists (RuntimeError m). repeat split; [discriminate|].
    intros e' [H|(m' & H & _)]; [now injection H | discriminate].
  - right. exists (RuntimeError m). repeat split; [discriminate|].
    intros e' [H|(m' & H & ->)]; [discriminate | now injection H as ->].
  - left. now exists data.
  - right. exists (Error "Search failed."). repeat split; [discriminate|].
    intros e' [H|(m' & H & _)]; [now injection H | discriminate].
  - right. unfold onSubmit_resume.
    destruct data as [|s d cs|items]; eexists; (split; [reflexivity|]);
      (split; [discriminate|]);
      intros e' [H|(m' & H & _)]; first [now injection H | discriminate].
Qed.

(** X14. However a search settles, the page leaves the loading state: the
    submit button is enabled again, and neither the cache nor the requests
    in flight change; the form itself stays hidden until the timer of
    [stopLoading] fires.  A failed search keeps the previous results and
    their filtered view on the page, logs the error, and shows its message
    in the error box, or "Search failed. Please try again." when the
    message is empty; the message of a [TypeError] is the engine's,
    whatever it is.  A search answered with a 2xx replaces the result set
    by the returned candidates, or by no candidates when the body has no
    array of them, filters it with the current filter inputs, and reports
    the count in the status line. *)
Theorem search_outcome (o : outcome) (w : world) :
  let w' := onSubmit_resume Number_toString String_toLowerCase TypeError_message
      o w in
  loading (st w') = false
  /\ submitBtn_disabled (top w') = false
  /\ form_hidden (top w') = form_hidden (top w)
  /\ saved (st w') = saved (st w)
  /\ sent (env w') = sent (env w)
  /\ pending (env w') = pending (env w)
  /\ (forall e,
        performSearch_result o = inl e
        \/ (exists m, o = Response true (Invalid m) /\ e = RuntimeError m) ->
        results (st w') = results (st w)
        /\ filtered (st w') = filtered (st w)
        /\ view w' = view w
        /\ console (env w') = console (env w) ++ [e]
        /\ (is_Some (errorEl (top w)) ->
            errorEl (top w')
            = Some {| err_textContent :=
                        if nonEmpty (message TypeError_message e) then message
                            TypeError_message e
                        else "Search failed. Please try again.";
                      err_hidden := false |})
        /\ (is_Some (statusEl (top w)) ->
            statusEl (top w') = Some "Search failed. Please try again."))
  /\ (forall data, o = Response true (Json data) ->
        let candidates :=
          match data with JsonObject _ _ (Some cs) => cs | _ => [] end in
        results (st w') = candidates
        /\ filtered (st w') = List.filter (currentFilter String_toLowerCase w)
            candidates
        /\ console (env w') = console (env w)
        /\ errorEl (top w') = errorEl (top w)
        /\ (is_Some (statusEl (top w)) ->
            statusEl (top w')
            = Some match candidates with
                   | [] => "No candidates returned. Try refining your query."
                   | [_] => "Found 1 candidate."
                   | _ => "Found " +:+ pretty (length candidates) +:+ " candidates."
                   end)).
Proof.
  cbv zeta.
  destruct (onSubmit_resume_cases o w) as [[data ->]|(e & Hw & Hno & He)].
  - destruct (onSubmit_resume_ok data w)
      as (Hst & Hi & Henv & Hb & Hf & Hl & Herr & Hfo & Hstat).
    rewrite Hst, Henv, Hb, Hf, Herr. simpl.
    repeat apply conj; try reflexivity.
    + intros e [H|(m & H & _)]; discriminate.
    + intros data' H. injection H as <-. repeat apply conj; try reflexivity.
      exact Hstat.
  - rewrite Hw.
    destruct (searchFailed_spec e w)
      as (Hst & Hv & _ & Henv & Hb & Hf & _ & _ & Herr & Hstat).
    rewrite Hst, Hv, Henv, Hb, Hf. simpl.
    repeat apply conj; try reflexivity.
    + intros e' H. apply He in H. subst e'. now repeat split.
    + intros data H. now elim (Hno data).
Qed.

(** *** What every event preserves *)

Lemma renderSaved_top (w : world) : top (renderSaved w) = top w.
Proof.
  unfold renderSaved. destruct (savedPane (view w)); [|reflexivity].
  now destruct (JsMap.values (saved (st w))).
Qed.

Lemma caught_frame (e : error) (toast : option string) (w : world) :
  st (caught e toast w) = st w
  /\ inputs (caught e toast w) = inputs w
  /\ top (caught e toast w) = top w
  /\ pending (env (caught e toast w)) = pending (env w)
  /\ sent (env (caught e toast w)) = sent (env w)
  /\ console (env (caught e toast w)) = console (env w) ++ [e].
Proof.
  unfold caught. destruct toast as [m|]; [|now repeat split].
  rewrite showToast_st, showToast_inputs, showToast_top, showToast_env.
  now repeat split.
Qed.

Lemma handleSave_resume_frame (c : candidate) (button : option nat)
    (o : outcome) (w : world) :
  inputs (handleSave_resume c button o w) = inputs w
  /\ results (st (handleSave_resume c button o w)) = results (st w)
  /\ filtered (st (handleSave_resume c button o w)) = filtered (st w)
  /\ loading (st (handleSave_resume c button o w)) = loading (st w)
  /\ top (handleSave_resume c button o w) = top w
  /\ pending (env (handleSave_resume c button o w)) = pending (env w).
Proof.
  unfold handleSave_resume.
  destruct o as [m|[] [m|data]];
    try (destruct (caught_frame (RuntimeError m) (Some "Unable to save candidate.") w)
           as (-> & -> & -> & -> & _); now repeat split);
    try (destruct (caught_frame (Error "Failed to save")
                     (Some "Unable to save candidate.") w)
           as (-> & -> & -> & -> & _); now repeat split).
  destruct (statusOf data) as [status|].
  - rewrite renderSaved_inputs, renderSaved_st, renderSaved_top, renderSaved_env.
    destruct button as [b|], (bool_decide (status = Some "duplicate")); simpl;
      rewrite ?showToast_inputs, ?showToast_st, ?showToast_top, ?showToast_env;
      now repeat split.
  - destruct (caught_frame TypeError (Some "Unable to save candidate.")
                (on_st (set_saved (JsMap.set (id c) c (saved (st w)))) w))
      as (-> & -> & -> & -> & _).
    now repeat split.
Qed.

Lemma currentFilter_inputs (w w' : world) :
  inputs w' = inputs w -> currentFilter String_toLowerCase w' = currentFilter
      String_toLowerCase w.
Proof. unfold currentFilter. now intros ->. Qed.

Lemma handleDelete_resume_frame (k : option string) (o : outcome) (w : world) :
  inputs (handleDelete_resume Number_toString String_toLowerCase k o w) = inputs w
  /\ results (st (handleDelete_resume Number_toString String_toLowerCase k o w))
      = results (st w)
  /\ (filtered (st (handleDelete_resume Number_toString String_toLowerCase k o
      w)) = filtered (st w)
      \/ filtered (st (handleDelete_resume Number_toString String_toLowerCase k
          o w))
         = List.filter (currentFilter String_toLowerCase w) (results (st w)))
  /\ loading (st (handleDelete_resume Number_toString String_toLowerCase k o w))
      = loading (st w)
  /\ top (handleDelete_resume Number_toString String_toLowerCase k o w) = top w
  /\ pending (env (handleDelete_resume Number_toString String_toLowerCase k o
      w)) = pending (env w).
Proof.
  unfold handleDelete_resume.
  destruct o as [m|[] [m|data]];
    try (destruct (caught_frame (RuntimeError m) (Some "Unable to remove candidate.") w)
           as (-> & -> & -> & -> & _); repeat split; now left);
    try (destruct (caught_frame (Error "Failed to delete")
                     (Some "Unable to remove candidate.") w)
           as (-> & -> & -> & -> & _); repeat split; now left).
  destruct (statusOf data) as [status|].
  - destruct (bool_decide (status = Some "ok")); [|repeat split; now left].
    set (w1 := renderSaved (showToast "Removed from saved."
                  (on_st (set_saved (JsMap.delete k (saved (st w)))) w))).
    assert (Hst : st w1 = set_saved (JsMap.delete k (saved (st w))) (st w)).
    { subst w1. now rewrite renderSaved_st, showToast_st. }
    assert (Hin : inputs w1 = inputs w).
    { subst w1. now rewrite renderSaved_inputs, showToast_inputs. }
    assert (Htop : top w1 = top w).
    { subst w1. now rewrite renderSaved_top, showToast_top. }
    assert (Henv : env w1 = env w).
    { subst w1. now rewrite renderSaved_env, showToast_env. }
    destruct (applyFilters_frame w1) as (Ht & He & Hi & _).
    rewrite Ht, He, Hi, applyFilters_results, applyFilters_loading,
      applyFilters_current, (currentFilter_inputs w w1 Hin), Hst, Hin, Htop, Henv.
    repeat split. now right.
  - destruct (caught_frame TypeError (Some "Unable to remove candidate.") w)
      as (-> & -> & -> & -> & _).
    repeat split; now left.
Qed.

Lemma fetchSaved_resume_frame (o : outcome) (w : world) :
  inputs (fetchSaved_resume o w) = inputs w
  /\ results (st (fetchSaved_resume o w)) = results (st w)
  /\ filtered (st (fetchSaved_resume o w)) = filtered (st w)
  /\ loading (st (fetchSaved_resume o w)) = loading (st w)
  /\ top (fetchSaved_resume o w) = top w
  /\ pending (env (fetchSaved_resume o w)) = pending (env w).
Proof.
  unfold fetchSaved_resume.
  destruct o as [m|[] [m|data]];
    try (destruct (caught_frame (RuntimeError m) None w)
           as (-> & -> & -> & -> & _); now repeat split);
    try (destruct (caught_frame (Error "Failed to fetch saved") None w)
           as (-> & -> & -> & -> & _); now repeat split).
  rewrite renderSaved_inputs, renderSaved_st, renderSaved_top, renderSaved_env.
  destruct data; now repeat split.
Qed.

Lemma onSubmit_begin_frame (w : world) :
  inputs (onSubmit_begin w) = inputs w
  /\ results (st (onSubmit_begin w)) = results (st w)
  /\ filtered (st (onSubmit_begin w)) = filtered (st w)
  /\ (is_Some (loadingEl (top (onSubmit_begin w))) -> is_Some (loadingEl (top w))).
Proof.
  destruct w as [s0 i0 f0 [e0 m0 fh le sb fc fo] v0 en0].
  unfold onSubmit_begin, startLoading, updateStatus, clearErrorEl. simpl.
  destruct (loading s0); [now repeat split|].
  destruct (negb (nonEmpty (trim (industry f0)))
            || negb (nonEmpty (trim (description f0)))).
  - destruct e0; now repeat split.
  - destruct le, e0, m0; simpl; repeat split; auto.
Qed.

Lemma onSubmit_resume_frame (o : outcome) (w : world) :
  inputs (onSubmit_resume Number_toString String_toLowerCase TypeError_message o
      w) = inputs w
  /\ loadingEl (top (onSubmit_resume Number_toString String_toLowerCase
      TypeError_message o w)) = loadingEl (top w)
  /\ loading (st (onSubmit_resume Number_toString String_toLowerCase
      TypeError_message o w)) = false
  /\ pending (env (onSubmit_resume Number_toString String_toLowerCase
      TypeError_message o w)) = pending (env w)
  /\ ((results (st (onSubmit_resume Number_toString String_toLowerCase
      TypeError_message o w)) = results (st w)
       /\ filtered (st (onSubmit_resume Number_toString String_toLowerCase
           TypeError_message o w)) = filtered (st w))
      \/ filtered (st (onSubmit_resume Number_toString String_toLowerCase
          TypeError_message o w))
         = List.filter (currentFilter String_toLowerCase w)
             (results (st (onSubmit_resume Number_toString String_toLowerCase
                 TypeError_message o w)))).
Proof.
  destruct (onSubmit_resume_cases o w) as [[data ->]|(e & Hw & _)].
  - destruct (onSubmit_resume_ok data w) as (Hst & Hi & Henv & _ & _ & Hl & _).
    rewrite Hst, Hi, Henv, Hl. simpl. repeat split. now right.
  - rewrite Hw.
    destruct (searchFailed_spec e w) as (Hst & _ & Hi & Henv & _ & _ & Hl & _).
    rewrite Hst, Hi, Henv, Hl. simpl. repeat split. now left.
Qed.

Lemma clickSave_frame (b : nat) (w : world) :
  inputs (clickSave b w) = inputs w
  /\ top (clickSave b w) = top w
  /\ List.filter isSearch (pending (env (clickSave b w)))
     = List.filter isSearch (pending (env w)).
Proof.
  unfold clickSave. destruct (resultsEl (view w)); [|now repeat split].
  destruct (bool_decide _); [|now repeat split].
  destruct (buttons (view w) !! b) as [btn|]; [|now repeat split].
  destruct (disabled btn); [now repeat split|].
  unfold handleSave_begin. simpl. rewrite List.filter_app. simpl.
  now rewrite app_nil_r.
Qed.

Lemma clickRemove_frame (i : nat) (w : world) :
  inputs (clickRemove i w) = inputs w
  /\ top (clickRemove i w) = top w
  /\ List.filter isSearch (pending (env (clickRemove i w)))
     = List.filter isSearch (pending (env w)).
Proof.
  unfold clickRemove. destruct (savedPane (view w)) as [els|]; [|now repeat split].
  destruct (savedListEl els !! i); [|now repeat split].
  unfold handleDelete_begin. simpl. rewrite List.filter_app. simpl.
  now rewrite app_nil_r.
Qed.

Lemma stopLoading_timeout_frame (success : bool) (w : world) :
  inputs (stopLoading_timeout success w) = inputs w
  /\ env (stopLoading_timeout success w) = env w
  /\ (is_Some (loadingEl (top (stopLoading_timeout success w)))
      -> is_Some (loadingEl (top w))).
Proof.
  destruct w as [s0 i0 f0 [e0 m0 fh le sb fc fo] v0 en0].
  unfold stopLoading_timeout. simpl.
  destruct le, fc, success; simpl; repeat split; auto.
Qed.

(** Taking the [i]-th call out of the pending ones. *)
Lemma searches_without (l : list call) (i : nat) (k : call) :
  l !! i = Some k ->
  length (List.filter isSearch l)
  = (length (List.filter isSearch (take i l ++ drop (S i) l))
     + (if isSearch k then 1 else 0))%nat.
Proof.
  intros Hk. rewrite <- (take_drop_middle l i k Hk) at 1.
  rewrite !List.filter_app, !length_app. simpl.
  destruct (isSearch k); simpl; lia.
Qed.

(** An event either leaves result set and filtered view alone, and the
    filter inputs too unless it is an edit of them, or ends by filtering
    the result set with the inputs. *)
Lemma step_filter_state (w : world) (e : event) :
  (results (st (step Number_toString String_toLowerCase TypeError_message w e))
      = results (st w)
   /\ filtered (st (step Number_toString String_toLowerCase TypeError_message w
       e)) = filtered (st w)
   /\ ((exists f, e = EditFilters f) \/ inputs (step Number_toString
       String_toLowerCase TypeError_message w e) = inputs w))
  \/ filtered (st (step Number_toString String_toLowerCase TypeError_message w e))
     = List.filter (currentFilter String_toLowerCase (step Number_toString
         String_toLowerCase TypeError_message w e))
         (results (st (step Number_toString String_toLowerCase TypeError_message
             w e))).
Proof.
  destruct e as [|d|f| |b|c|i|i o|success|resolved]; simpl.
  - left. destruct (onSubmit_begin_frame w) as (-> & -> & -> & _).
    repeat split. now right.
  - left. repeat split. now right.
  - left. repeat split. left. now exists f.
  - right. rewrite applyFilters_current, applyFilters_results.
    f_equal. symmetry. apply currentFilter_inputs.
    now destruct (applyFilters_frame w) as (_ & _ & -> & _).
  - left. rewrite clickSave_st. destruct (clickSave_frame b w) as (-> & _).
    repeat split. now right.
  - left. repeat split. now right.
  - left. rewrite clickRemove_st. destruct (clickRemove_frame i w) as (-> & _).
    repeat split. now right.
  - unfold settle.
    destruct (pending (env w) !! i) as [k|]; [|left; repeat split; now right].
    set (w' := on_env _ w).
    destruct k as [|c button|k|].
    + destruct (onSubmit_resume_frame o w') as (Hi & _ & _ & _ & [[Hr Hf]|Hf]).
      * left. rewrite Hi, Hr, Hf. repeat split. now right.
      * right. rewrite Hf. f_equal. symmetry. now apply currentFilter_inputs.
    + left. destruct (handleSave_resume_frame c button o w') as (-> & -> & -> & _).
      repeat split. now right.
    + destruct (handleDelete_resume_frame k o w') as (Hi & Hr & [Hf|Hf] & _).
      * left. rewrite Hi, Hr, Hf. repeat split. now right.
      * right. rewrite Hf, Hr. f_equal. symmetry. now apply currentFilter_inputs.
    + left. destruct (fetchSaved_resume_frame o w') as (-> & -> & -> & _).
      repeat split. now right.
  - left. rewrite stopLoading_timeout_st.
    destruct (stopLoading_timeout_frame success w) as (-> & _).
    repeat split. now right.
  - left. unfold copyCandidate_settled.
    destruct resolved; rewrite showToast_st, showToast_inputs;
      repeat split; now right.
Qed.

(** X15. The filtered view is the result set as it was filtered the last
    time the filters were applied.  At every moment of a session it is a
    subsequence of the result set, and it is the result set filtered with
    some values of the filter inputs.  An edit of the inputs alone leaves
    the view as it was: the view is stale until an [input] or [keyup]
    event, a successful search or a successful delete applies the filters
    again.  Such a filter event brings the view up to date, and a view
    that is up to date stays so under every event that is not an edit of
    the inputs. *)
Theorem filtered_view_follows_filter_events :
  (forall w, reachable Number_toString String_toLowerCase TypeError_message w ->
     sublist (filtered (st w)) (results (st w))
     /\ exists i : filters,
          filtered (st w)
          = List.filter (currentFilter String_toLowerCase (set_inputs i w))
              (results (st w)))
  /\ (forall w f,
        inputs (step Number_toString String_toLowerCase TypeError_message w
            (EditFilters f)) = f
        /\ filtered (st (step Number_toString String_toLowerCase
            TypeError_message w (EditFilters f))) = filtered (st w)
        /\ results (st (step Number_toString String_toLowerCase
            TypeError_message w (EditFilters f))) = results (st w))
  /\ (forall w,
        filtered (st (step Number_toString String_toLowerCase TypeError_message
            w FiltersInput))
        = List.filter (currentFilter String_toLowerCase (step Number_toString
            String_toLowerCase TypeError_message w FiltersInput))
            (results (st (step Number_toString String_toLowerCase
                TypeError_message w FiltersInput))))
  /\ (forall w e,
        (forall f, e <> EditFilters f) ->
        filtered (st w)
        = List.filter (currentFilter String_toLowerCase w) (results (st w)) ->
        filtered (st (step Number_toString String_toLowerCase TypeError_message
            w e))
        = List.filter (currentFilter String_toLowerCase (step Number_toString
            String_toLowerCase TypeError_message w e))
            (results (st (step Number_toString String_toLowerCase
                TypeError_message w e)))).
Proof.
  repeat apply conj.
  - intros w Hw.
    assert (H : exists i : filters,
              filtered (st w)
              = List.filter (currentFilter String_toLowerCase (set_inputs i w))
                  (results (st w))).
    { induction Hw as [w (Hst & _ & _)|w e Hw [i IH]].
      - exists (inputs w). now rewrite Hst.
      - destruct (step_filter_state w e) as [(Hr & Hf & _)|H].
        + exists i. rewrite Hf, Hr. exact IH.
        + exists (inputs (step Number_toString String_toLowerCase
            TypeError_message w e)). exact H. }
    split; [|exact H]. destruct H as [i ->]. apply filter_sublist.
  - intros w f. now repeat split.
  - intros w.
    destruct (step_filter_state w FiltersInput)
      as [(_ & _ & [[f Hf]|Hi])|H]; [discriminate Hf | | exact H].
    simpl. rewrite applyFilters_current, applyFilters_results.
    f_equal. symmetry. now apply currentFilter_inputs.
  - intros w e He Hcur.
    destruct (step_filter_state w e) as [(Hr & Hf & [[f Hf']|Hi])|H];
      [now elim (He f) | | exact H].
    rewrite Hf, Hr, Hcur. f_equal. symmetry. now apply currentFilter_inputs.
Qed.

(** An event keeps the count of searches in flight in step with the
    loading flag, on a page that has its loading panel. *)
Lemma step_searches (w : world) (e : event) :
  is_Some (loadingEl (top (step Number_toString String_toLowerCase
      TypeError_message w e))) ->
  is_Some (loadingEl (top w))
  /\ (searchesInFlight w = (if loading (st w) then 1 else 0)%nat ->
      searchesInFlight (step Number_toString String_toLowerCase
          TypeError_message w e)
      = (if loading (st (step Number_toString String_toLowerCase
          TypeError_message w e)) then 1 else 0)%nat).
Proof.
  unfold searchesInFlight.
  destruct e as [|d|f| |b|c|i|i o|success|resolved]; simpl.
  - destruct w as [s0 i0 f0 [e0 m0 fh le sb fc fo] v0 en0].
    unfold onSubmit_begin, startLoading, updateStatus, clearErrorEl. simpl.
    destruct (loading s0) eqn:El; simpl; [rewrite El; now split|].
    destruct (negb (nonEmpty (trim (industry f0)))
              || negb (nonEmpty (trim (description f0)))).
    + destruct e0; simpl; rewrite El; now split.
    + destruct le as [h|], e0, m0; simpl; intros Hs; split; auto;
        try (now destruct Hs as [? Hs]; discriminate Hs);
        rewrite List.filter_app, length_app; simpl; intros ->; reflexivity.
  - now split.
  - now split.
  - destruct (applyFilters_frame w) as (-> & -> & _).
    rewrite applyFilters_loading. now split.
  - rewrite clickSave_st. destruct (clickSave_frame b w) as (_ & -> & ->).
    now split.
  - now split.
  - rewrite clickRemove_st. destruct (clickRemove_frame i w) as (_ & -> & ->).
    now split.
  - unfold settle. destruct (pending (env w) !! i) as [k|] eqn:Ek; [|now split].
    set (w' := on_env _ w).
    pose proof (searches_without (pending (env w)) i k Ek) as Hcount.
    destruct k as [|c button|k|]; simpl in Hcount.
    + destruct (onSubmit_resume_frame o w') as (_ & -> & -> & -> & _).
      intros Hs. split; [exact Hs|]. subst w'. simpl. intros H.
      rewrite H in Hcount. destruct (loading (st w)); lia.
    + destruct (handleSave_resume_frame c button o w')
        as (_ & _ & _ & -> & -> & ->).
      intros Hs. split; [exact Hs|]. subst w'. simpl. intros H. lia.
    + destruct (handleDelete_resume_frame k o w')
        as (_ & _ & _ & -> & -> & ->).
      intros Hs. split; [exact Hs|]. subst w'. simpl. intros H. lia.
    + destruct (fetchSaved_resume_frame o w') as (_ & _ & _ & -> & -> & ->).
      intros Hs. split; [exact Hs|]. subst w'. simpl. intros H. lia.
  - rewrite stopLoading_timeout_st.
    destruct (stopLoading_timeout_frame success w) as (_ & -> & Hl).
    intros Hs. split; [now apply Hl | auto].
  - unfold copyCandidate_settled.
    destruct resolved; rewrite showToast_st, showToast_env, showToast_top; now split.
Qed.

(** X16. On a page that has its loading panel, searches never overlap: at
    every moment of a session at most one search request is in flight, and
    one is in flight exactly when the page is in the loading state. *)
Theorem searches_never_overlap (w : world) :
  reachable Number_toString String_toLowerCase TypeError_message w ->
  is_Some (loadingEl (top w)) ->
  searchesInFlight w = (if loading (st w) then 1 else 0)%nat
  /\ (searchesInFlight w <= 1)%nat.
Proof.
  intros Hw Hl.
  assert (H : searchesInFlight w = (if loading (st w) then 1 else 0)%nat).
  { induction Hw as [w (Hst & _ & Henv)|w e Hw IH].
    - unfold searchesInFlight. now rewrite Hst, Henv.
    - destruct (step_searches w e Hl) as (Hl' & Hstep). auto. }
  split; [exact H|]. rewrite H. destruct (loading (st w)); lia.
Qed.

(** ** The witness finder: filtering *)

Lemma contains_trans (s q r : string) :
  contains s q -> contains q r -> contains s r.
Proof.
  intros (pre & post & ->) (pre' & post' & ->).
  exists (pre +:+ pre'), (post' +:+ post).
  now rewrite !append_assoc.
Qed.

Lemma contains_empty (q : string) : contains EmptyString q -> q = EmptyString.
Proof.
  intros (pre & post & H). destruct pre; [|discriminate].
  destruct q; [reflexivity|discriminate].
Qed.

Lemma textFilter_narrows (field loose strict : string) :
  contains strict loose ->
  strict = EmptyString \/ contains field strict ->
  loose = EmptyString \/ contains field loose.
Proof.
  intros Hc [->|H].
  - left. now apply contains_empty.
  - right. eapply contains_trans; eassumption.
Qed.

Lemma filter_narrows {A} (f g : A -> bool) (l : list A) :
  (forall x, f x = true -> g x = true) ->
  sublist (List.filter f l) (List.filter g l).
Proof.
  intros Hfg. induction l as [|x l IH]; simpl; [constructor|].
  destruct (f x) eqn:Ef.
  - rewrite (Hfg x Ef). now constructor.
  - destruct (g x); [now constructor | exact IH].
Qed.

(** X17. Tightening the filters can only narrow the view.  When the new
    minimum similarity and minimum experience are at least the old ones
    and the query of each new text filter (its text trimmed and put in
    lower case) contains the query of the old one, the view under the new
    filters is a subsequence of the view under the old ones.  Lower case
    is what [String.prototype.toLowerCase] gives, whatever that function
    is. *)
Theorem tighter_filters_narrow_the_view (w : world) (loose strict : filters) :
  (default 0 (filterSimilarity loose) <= default 0 (filterSimilarity strict))%Q ->
  (default 0 (filterExperience loose) <= default 0 (filterExperience strict))%Q ->
  contains (String_toLowerCase (trim (filterSector strict)))
    (String_toLowerCase (trim (filterSector loose))) ->
  contains (String_toLowerCase (trim (filterLocation strict)))
    (String_toLowerCase (trim (filterLocation loose))) ->
  sublist
    (filtered (st (applyFilters Number_toString String_toLowerCase
                     (set_inputs strict w))))
    (filtered (st (applyFilters Number_toString String_toLowerCase
                     (set_inputs loose w)))).
Proof.
  intros Hsim Hexp Hsec Hloc. rewrite !applyFilters_filtered. simpl.
  apply filter_narrows. intros c.
  rewrite !passes_spec. intros (H1 & H2 & H3 & H4).
  repeat split.
  - eapply Qle_trans; eassumption.
  - eapply Qle_trans; eassumption.
  - eapply textFilter_narrows; eassumption.
  - eapply textFilter_narrows; eassumption.
Qed.

(** ** The witness finder: the saved cache *)

Lemma delete_set {K V} `{EqDecision K} (k : K) (v : V) (m : list (K * V)) :
  JsMap.delete k (JsMap.set k v m) = JsMap.delete k m.
Proof.
  induction m as [|[k' v'] m IH]; simpl.
  - now destruct (decide (k = k)).
  - destruct (decide (k' = k)) as [->|Hne]; simpl.
    + now destruct (decide (k = k)).
    + destruct (decide (k' = k)); [contradiction|]. f_equal. exact IH.
Qed.

Lemma delete_absent {K V} `{EqDecision K} (k : K) (m : list (K * V)) :
  JsMap.has k m = false -> JsMap.delete k m = m.
Proof.
  unfold JsMap.has. induction m as [|[k' v'] m IH]; simpl; [reflexivity|].
  destruct (decide (k' = k)); [discriminate|].
  intros H. f_equal. exact (IH H).
Qed.

Lemma handleDelete_resume_removed (k : option string) (detail : option string)
    (cs : option (list candidate)) (w : world) :
  saved (st (handleDelete_resume Number_toString String_toLowerCase k
               (Response true (Json (JsonObject (Some "ok") detail cs))) w))
  = JsMap.delete k (saved (st w)).
Proof.
  unfold handleDelete_resume. simpl.
  now rewrite applyFilters_saved, renderSaved_st, showToast_st.
Qed.

(** X18. Saving a candidate and then removing it by its id leaves the
    cache without any entry for that id: when the candidate was not in the
    cache before, the cache is exactly what it was, order included; when an
    entry with that id was already there, it is gone too.  The positions of
    the other entries never change. *)
Theorem save_then_remove (c : candidate) (button : option nat)
    (status detail detail' : option string) (cs cs' : option (list candidate))
    (w : world) :
  let saved' :=
    saved (st (handleDelete_resume Number_toString String_toLowerCase (id c)
                 (Response true (Json (JsonObject (Some "ok") detail' cs')))
                 (handleSave_resume c button
                    (Response true (Json (JsonObject status detail cs))) w))) in
  saved' = JsMap.delete (id c) (saved (st w))
  /\ (JsMap.has (id c) (saved (st w)) = false -> saved' = saved (st w))
  /\ (NoDup (JsMap.keys (saved (st w))) -> JsMap.has (id c) saved' = false)
  /\ sublist (JsMap.keys saved') (JsMap.keys (saved (st w))).
Proof.
  cbv zeta. rewrite handleDelete_resume_removed, handleSave_resume_stored. simpl.
  rewrite delete_set. repeat apply conj.
  - reflexivity.
  - apply delete_absent.
  - apply has_delete.
  - apply keys_delete_sublist.
Qed.

(** X19. A save answered with a 2xx whose body is [null] is stored and
    reported as failed at once: the candidate is put into the cache before
    the body is looked at, then reading [status] throws, so the error is
    logged, the toast reads "Unable to save candidate.", the save button
    stays as it was and the saved list is not rendered again. *)
Theorem null_reply_saves_and_reports_failure (c : candidate)
    (button : option nat) (w : world) (ts : list string) :
  toastContainer (view w) = Some ts ->
  let w' := handleSave_resume c button (Response true (Json JsonNull)) w in
  saved (st w') = JsMap.set (id c) c (saved (st w))
  /\ JsMap.get (id c) (saved (st w')) = Some c
  /\ toastContainer (view w') = Some (ts ++ ["Unable to save candidate."])
  /\ console (env w') = console (env w) ++ [TypeError]
  /\ buttons (view w') = buttons (view w)
  /\ savedPane (view w') = savedPane (view w)
  /\ resultsEl (view w') = resultsEl (view w)
  /\ top w' = top w.
Proof.
  intros Hts. cbv zeta. unfold handleSave_resume, caught. simpl.
  unfold showToast. simpl. rewrite Hts. simpl.
  repeat apply conj; try reflexivity.
  apply get_set_eq.
Qed.

Lemma keys_set_prefix {K V} `{EqDecision K} (k : K) (v : V) (m : list (K * V)) :
  JsMap.keys m `prefix_of` JsMap.keys (JsMap.set k v m).
Proof.
  destruct (JsMap.has k m) eqn:E.
  - now rewrite keys_set_present.
  - rewrite keys_set_absent by exact E. now apply prefix_app_r.
Qed.

Lemma keepSaved_prefix (items : list (option candidate))
    (m : list (option string * candidate)) :
  JsMap.keys m `prefix_of` JsMap.keys (foldl keepSaved m items).
Proof.
  revert m. induction items as [|x items IH]; intros m; simpl; [reflexivity|].
  etrans; [|apply IH].
  unfold keepSaved. destruct x as [c|]; [|reflexivity].
  destruct (truthyStr (id c)); [apply keys_set_prefix | reflexivity].
Qed.

Lemma keepSaved_has (items : list (option candidate))
    (m : list (option string * candidate)) (k : option string) :
  JsMap.has k m = true -> JsMap.has k (foldl keepSaved m items) = true.
Proof.
  rewrite !has_elem_of. intros Hk.
  destruct (keepSaved_prefix items m) as [rest ->].
  apply elem_of_app. now left.
Qed.

Lemma keepSaved_registers (items : list (option candidate))
    (m : list (option string * candidate)) (c : candidate) :
  Some c ∈ items -> truthyStr (id c) = true ->
  JsMap.has (id c) (foldl keepSaved m items) = true.
Proof.
  intros Hc Hid. revert m.
  induction items as [|x items IH]; intros m; [now apply elem_of_nil in Hc|].
  simpl. apply elem_of_cons in Hc as [<-|Hc]; [|now apply IH].
  apply keepSaved_has. simpl. rewrite Hid.
  unfold JsMap.has. now rewrite get_set_eq.
Qed.

(** X20. Loading the saved list.  When the request fails or its body
    cannot be read, the error is logged and nothing else happens: no
    toast, cache and page as they were.  When the answer is an array, every
    element with a non-empty id ends up in the cache, elements without one
    are skipped, the entries already cached keep their places, and the
    saved list is rendered from the resulting cache.  Any other 2xx body
    leaves the cache as it was. *)
Theorem saved_list_loaded (w : world) :
  (forall o,
     requestFailed o = true \/ (exists m, o = Response true (Invalid m)) ->
     st (fetchSaved_resume o w) = st w
     /\ view (fetchSaved_resume o w) = view w
     /\ top (fetchSaved_resume o w) = top w
     /\ exists e, console (env (fetchSaved_resume o w)) = console (env w) ++ [e])
  /\ (forall items,
        let w' := fetchSaved_resume (Response true (Json (JsonArray items))) w in
        (forall c, Some c ∈ items -> truthyStr (id c) = true ->
           JsMap.has (id c) (saved (st w')) = true)
        /\ (forall k, k ∈ JsMap.keys (saved (st w')) ->
              k ∈ JsMap.keys (saved (st w))
              \/ exists c, Some c ∈ items /\ id c = k /\ truthyStr k = true)
        /\ JsMap.keys (saved (st w)) `prefix_of` JsMap.keys (saved (st w'))
        /\ env w' = env w
        /\ (forall els, savedPane (view w) = Some els ->
              exists els', savedPane (view w') = Some els'
                /\ savedListEl els'
                   = renderSavedCard <$> JsMap.values (saved (st w'))))
  /\ (forall data, (forall items, data <> JsonArray items) ->
        saved (st (fetchSaved_resume (Response true (Json data)) w))
        = saved (st w)).
Proof.
  split; [|split].
  - intros o Ho.
    assert (He : exists e, fetchSaved_resume o w = on_env (log e) w).
    { destruct o as [m|[] [m|data]]; try (eexists; reflexivity).
      destruct Ho as [Ho|(m & Ho)]; discriminate. }
    destruct He as [e ->]. simpl. repeat split. now exists e.
  - intros items. cbv zeta. simpl. rewrite renderSaved_st, renderSaved_env. simpl.
    repeat apply conj.
    + intros c Hc Hid. now apply keepSaved_registers.
    + intros k Hk.
      apply list_elem_of_fmap in Hk as ([k' c] & -> & Hkc). simpl.
      apply keepSaved_entries in Hkc as [Hkc|(Hc & Hid & Ht)].
      * left. apply list_elem_of_fmap. now exists (k', c).
      * right. now exists c.
    + apply keepSaved_prefix.
    + reflexivity.
    + intros els Hels.
      set (w1 := on_st _ w).
      destruct (renderSaved_list w1 els Hels) as (els' & H1 & H2).
      exists els'. split; [exact H1|]. exact H2.
  - intros data Hdata. simpl. rewrite renderSaved_st.
    destruct data as [|s d cs|items]; try reflexivity.
    now elim (Hdata items).
Qed.

(** ** The witness finder: result cards *)

(** X21. After the filters are applied there is one card per candidate of
    the filtered view, in the same order.  The card carries the
    candidate's name, and its save button is disabled exactly when the
    candidate's id is in the cache.  A click on the button does nothing
    when the id is cached, and otherwise sends one save request for that
    very candidate.  The empty-state notice is shown exactly when there
    are results and none passes the filters. *)
Theorem cards_follow_the_view (w : world) (cards0 : list card) :
  resultsEl (view w) = Some cards0 ->
  let w' := applyFilters Number_toString String_toLowerCase w in
  exists cards,
    resultsEl (view w') = Some cards
    /\ length cards = length (filtered (st w'))
    /\ (forall i c, filtered (st w') !! i = Some c ->
          exists card btn,
            cards !! i = Some card
            /\ card_title card = name c
            /\ buttons (view w') !! saveBtn card = Some btn
            /\ onclick btn = c
            /\ disabled btn = JsMap.has (id c) (saved (st w))
            /\ clickSave (saveBtn card) w'
               = if JsMap.has (id c) (saved (st w)) then w'
                 else handleSave_begin c (Some (saveBtn card)) w')
    /\ (is_Some (emptyEl (view w)) ->
        emptyEl (view w')
        = Some (negb ((0 <? length (results (st w)))%nat
                      && (length (filtered (st w')) =? 0)%nat))).
Proof.
  intros Hcards. cbv zeta.
  pose proof (applyFilters_filtered Number_toString String_toLowerCase w) as Hf.
  fold (currentFilter String_toLowerCase w) in Hf.
  set (fl := List.filter (currentFilter String_toLowerCase w) (results (st w)))
      in *.
  set (w0 := on_st (set_filtered fl) w).
  assert (Hw : applyFilters Number_toString String_toLowerCase w = renderResults
      Number_toString w0)
    by reflexivity.
  destruct (renderResults_cards Number_toString w0 cards0 Hcards) as (Hc & Hb).
  change (filtered (st w0)) with fl in Hc, Hb.
  change (buttons (view w0)) with (buttons (view w)) in Hc, Hb.
  change (saved (st w0)) with (saved (st w)) in Hb.
  rewrite <- Hw in Hc, Hb. rewrite Hf.
  eexists. split; [exact Hc|]. split; [apply length_imap|]. split.
  - intros i c Hi.
    exists (renderCard Number_toString (length (buttons (view w)) + i) c),
      (newSaveBtn (saved (st w)) c).
    assert (Hcard : imap (fun i c => renderCard Number_toString
                                       (length (buttons (view w)) + i) c) fl !! i
                    = Some (renderCard Number_toString
                              (length (buttons (view w)) + i) c)).
    { now rewrite list_lookup_imap, Hi. }
    assert (Hbtn : buttons (view (applyFilters Number_toString
        String_toLowerCase w))
                     !! (length (buttons (view w)) + i)
                   = Some (newSaveBtn (saved (st w)) c)).
    { rewrite Hb, lookup_app_r by lia.
      replace (length (buttons (view w)) + i - length (buttons (view w)))%nat
        with i by lia.
      now rewrite list_lookup_fmap, Hi. }
    repeat apply conj; try reflexivity; try assumption.
    simpl. unfold clickSave. rewrite Hc, Hbtn.
    rewrite bool_decide_eq_true_2.
    + simpl. reflexivity.
    + apply list_elem_of_fmap.
      exists (renderCard Number_toString (length (buttons (view w)) + i) c).
      split; [reflexivity|]. eapply list_elem_of_lookup_2. exact Hcard.
  - intros [h Hh]. rewrite Hw. unfold renderResults.
    change (resultsEl (view w0)) with (resultsEl (view w)). rewrite Hcards.
    unfold renderEmptyState. simpl. rewrite Hh. simpl. reflexivity.
Qed.

(** ** The witness finder: sources and links *)

Lemma elem_of_present (o : option string) (x : string) :
  x ∈ present o <-> o = Some x /\ x <> EmptyString.
Proof.
  unfold present. destruct o as [s|].
  - destruct s as [|a s]; simpl.
    + split; [intros H; now apply elem_of_nil in H | intros [H1 H2]; congruence].
    + rewrite list_elem_of_singleton. split.
      * intros ->. now split.
      * intros [H _]. now injection H.
  - split; [intros H; now apply elem_of_nil in H | intros [H _]; discriminate].
Qed.

Lemma elem_of_flat_map_present (l : list (option string)) (x : string) :
  x ∈ flat_map present l <-> Some x ∈ l /\ x <> EmptyString.
Proof.
  rewrite list_elem_of_In, in_flat_map. split.
  - intros (o & Ho & Hx). apply list_elem_of_In, elem_of_present in Hx as [-> Hx].
    split; [now apply list_elem_of_In | exact Hx].
  - intros [Hx Hne]. exists (Some x). split; [now apply list_elem_of_In|].
    apply list_elem_of_In, elem_of_present. now split.
Qed.

Lemma length_flat_map_present (l : list (option string)) :
  (length (flat_map present l) <= length l)%nat.
Proof.
  induction l as [|o l IH]; simpl; [lia|].
  rewrite length_app. unfold present at 1.
  destruct o as [[|a s]|]; simpl; lia.
Qed.

Lemma NoDup_flat_map_present (l : list (option string)) :
  NoDup l -> NoDup (flat_map present l).
Proof.
  induction 1 as [|o l Ho Hl IH]; simpl; [constructor|].
  unfold present at 1. destruct o as [[|a s]|]; simpl; try exact IH.
  constructor; [|exact IH].
  intros H. apply elem_of_flat_map_present in H as [H _]. contradiction.
Qed.

(** X22. [openSources] opens a window for each of the first four sources
    that have a non-empty URL, in their order, 150 ms apart, and never more
    than four.  It shows "No sources available for this candidate." exactly
    when no source has a URL, and then opens nothing; otherwise it leaves
    the page as it is. *)
Theorem openSources_opens_at_most_four (srcs : sources) (w : world) :
  (length (snd (openSources srcs w)) <= 4)%nat
  /\ fst <$> snd (openSources srcs w)
     = take 4 (flat_map present (default [] srcs))
  /\ (forall i url delay,
        snd (openSources srcs w) !! i = Some (url, delay) ->
        delay = (i * 150)%nat /\ url <> EmptyString
        /\ Some url ∈ default [] srcs)
  /\ ((forall url, Some url ∈ default [] srcs -> url = EmptyString) ->
      openSources srcs w
      = (showToast "No sources available for this candidate." w, []))
  /\ ((exists url, Some url ∈ default [] srcs /\ url <> EmptyString) ->
      fst (openSources srcs w) = w /\ snd (openSources srcs w) <> []).
Proof.
  unfold openSources.
  set (links := flat_map present (default [] srcs)).
  assert (Hlinks : forall x, x ∈ links <-> Some x ∈ default [] srcs /\ x <> EmptyString)
    by (intros x; apply elem_of_flat_map_present).
  assert (Hsnd : snd match links with
                     | [] => (showToast "No sources available for this candidate." w,
                              [])
                     | _ => (w, imap (fun index url => (url, (index * 150)%nat))
                                  (take 4 links))
                     end
                 = imap (fun index url => (url, (index * 150)%nat)) (take 4 links)).
  { now destruct links. }
  rewrite Hsnd. repeat apply conj.
  - rewrite length_imap. apply firstn_le_length.
  - apply list_eq. intros i.
    rewrite list_lookup_fmap, list_lookup_imap.
    now destruct (take 4 links !! i).
  - intros i url delay Hi. rewrite list_lookup_imap in Hi.
    destruct (take 4 links !! i) as [u|] eqn:Eu; [|discriminate].
    simpl in Hi. injection Hi as <- <-.
    assert (Hu : u ∈ links).
    { eapply elem_of_sublist; [|apply sublist_take].
      eapply list_elem_of_lookup_2. exact Eu. }
    apply Hlinks in Hu as [Hu Hne]. now repeat split.
  - intros Hnone. destruct links as [|x l] eqn:E; [reflexivity|].
    assert (Hx : x ∈ x :: l) by (apply elem_of_cons; now left).
    apply Hlinks in Hx as [Hx Hne]. now elim Hne; apply Hnone.
  - intros (url & Hurl & Hne).
    assert (Hu : url ∈ links) by now apply Hlinks.
    destruct links as [|x l]; [now apply elem_of_nil in Hu|].
    split; [reflexivity | discriminate].
Qed.

Lemma setAdd_spec {A} `{EqDecision A} (acc : list A) (x y : A) :
  y ∈ setAdd acc x <-> y ∈ acc \/ y = x.
Proof.
  unfold setAdd. destruct (bool_decide (x ∈ acc)) eqn:E.
  - apply bool_decide_eq_true in E. split; [now left|].
    intros [H| ->]; assumption.
  - rewrite elem_of_app, list_elem_of_singleton. reflexivity.
Qed.

Lemma setAdd_NoDup {A} `{EqDecision A} (acc : list A) (x : A) :
  NoDup acc -> NoDup (setAdd acc x).
Proof.
  intros H. unfold setAdd. destruct (bool_decide (x ∈ acc)) eqn:E; [exact H|].
  apply bool_decide_eq_false in E.
  apply NoDup_app. split; [exact H|]. split.
  - intros y Hy Hy'. apply list_elem_of_singleton in Hy'. now subst.
  - apply NoDup_singleton.
Qed.

Lemma setAdd_fold_spec {A} `{EqDecision A} (xs acc : list A) (y : A) :
  y ∈ foldl setAdd acc xs <-> y ∈ acc \/ y ∈ xs.
Proof.
  revert acc. induction xs as [|x xs IH]; intros acc; simpl.
  - split; [now left | intros [H|H]; [exact H | now apply elem_of_nil in H]].
  - rewrite IH, setAdd_spec, elem_of_cons. tauto.
Qed.

Lemma setAdd_fold_NoDup {A} `{EqDecision A} (xs acc : list A) :
  NoDup acc -> NoDup (foldl setAdd acc xs).
Proof.
  revert acc. induction xs as [|x xs IH]; intros acc H; simpl; [exact H|].
  now apply IH, setAdd_NoDup.
Qed.

Lemma setOf_nil_inv {A} `{EqDecision A} (xs : list A) :
  setOf xs = [] -> xs = [].
Proof.
  intros H. destruct xs as [|x xs]; [reflexivity|].
  assert (Hx : x ∈ setOf (x :: xs)).
  { apply setAdd_fold_spec. right. apply elem_of_cons. now left. }
  rewrite H in Hx. now apply elem_of_nil in Hx.
Qed.

(** X23. The links section of a card is left out exactly when the
    candidate has neither links nor sources.  Otherwise its anchors are
    pairwise different, at most six, never empty, and each is one of the
    candidate's links or the URL of one of its sources.  Sources without a
    URL count towards the six and produce no anchor: when no entry has a
    non-empty URL the section is there and holds no anchor. *)
Theorem links_section_anchors (c : candidate) (srcs : sources) :
  (createLinksSection c srcs = None
   <-> default [] (links c) = [] /\ default [] srcs = [])
  /\ (forall anchors, createLinksSection c srcs = Some anchors ->
        NoDup anchors
        /\ (length anchors <= 6)%nat
        /\ forall url, url ∈ anchors ->
             url <> EmptyString
             /\ (url ∈ default [] (links c) \/ Some url ∈ default [] srcs))
  /\ ((default [] (links c) <> [] \/ default [] srcs <> []) ->
      (forall url, url ∈ default [] (links c) -> url = EmptyString) ->
      (forall url, Some url ∈ default [] srcs -> url = EmptyString) ->
      createLinksSection c srcs = Some []).
Proof.
  unfold createLinksSection.
  set (all := (Some <$> default [] (links c)) ++ default [] srcs).
  set (combined := take 6 (setOf all)).
  assert (Hnil : combined = [] <-> default [] (links c) = [] /\ default [] srcs = []).
  { subst combined. split.
    - intros H.
      assert (Hs : setOf all = []) by (now destruct (setOf all)).
      apply setOf_nil_inv in Hs. subst all.
      apply app_eq_nil in Hs as [H1 H2]. split; [|exact H2].
      now destruct (default [] (links c)).
    - intros [H1 H2]. subst all. now rewrite H1, H2. }
  assert (Hin : forall o, o ∈ combined -> o ∈ all).
  { intros o Ho.
    assert (Hs : o ∈ setOf all)
      by (eapply elem_of_sublist; [exact Ho | apply sublist_take]).
    apply setAdd_fold_spec in Hs as [Hs|Hs]; [now apply elem_of_nil in Hs | exact Hs]. }
  assert (Hnd : NoDup combined).
  { eapply sublist_NoDup; [|apply sublist_take].
    apply setAdd_fold_NoDup. constructor. }
  assert (Hlen : (length combined <= 6)%nat) by apply firstn_le_length.
  split; [|split].
  - rewrite <- Hnil. destruct combined; split; congruence.
  - intros anchors Ha.
    assert (Hanchors : anchors = flat_map present combined).
    { destruct combined; [discriminate | now injection Ha]. }
    subst anchors. split; [now apply NoDup_flat_map_present|]. split.
    + etrans; [apply length_flat_map_present | exact Hlen].
    + intros url Hurl. apply elem_of_flat_map_present in Hurl as [Hurl Hne].
      split; [exact Hne|].
      apply Hin in Hurl. subst all. apply elem_of_app in Hurl as [Hurl|Hurl].
      * left. apply list_elem_of_fmap in Hurl as (x & Hx & Hurl). now injection Hx as ->.
      * now right.
  - intros Hsome Hlinks Hsrcs.
    assert (Hempty : flat_map present combined = []).
    { destruct (flat_map present combined) as [|x l] eqn:E; [reflexivity|].
      assert (Hx : x ∈ flat_map present combined)
        by (rewrite E; apply elem_of_cons; now left).
      apply elem_of_flat_map_present in Hx as [Hx Hne].
      apply Hin in Hx. subst all. apply elem_of_app in Hx as [Hx|Hx].
      - apply list_elem_of_fmap in Hx as (y & Hy & Hx). injection Hy as ->.
        now elim Hne; apply Hlinks.
      - now elim Hne; apply Hsrcs. }
    rewrite Hempty. destruct combined; [|reflexivity].
    destruct (proj1 Hnil eq_refl) as [H1 H2]. destruct Hsome; contradiction.
Qed.

(** ** The witness finder: the saved-list toggle *)

(** X24. A click on the saved-list toggle flips [aria-expanded] between
    "true" and "false" (a missing or other value counts as collapsed),
    hides the list exactly when the new value is not "true", which is the
    rule [renderSaved] follows for a cache that is not empty, and labels
    the button "Hide saved" exactly when the list is now shown.  The cards
    and the empty notice are not touched, and a second click undoes the
    first. *)
Theorem saved_toggle_flips (expanded : option string) (els : savedEls) :
  let r := toggleSaved_click expanded els in
  let r2 := toggleSaved_click (fst (fst r)) (snd (fst r)) in
  (fst (fst r) = Some "true" \/ fst (fst r) = Some "false")
  /\ (fst (fst r) = Some "true" <-> expanded <> Some "true")
  /\ savedListEl_hidden (snd (fst r))
     = negb (bool_decide (fst (fst r) = Some "true"))
  /\ (snd r = "Hide saved" <-> savedListEl_hidden (snd (fst r)) = false)
  /\ savedListEl (snd (fst r)) = savedListEl els
  /\ savedEmptyEl_hidden (snd (fst r)) = savedEmptyEl_hidden els
  /\ fst (fst (toggleSaved_click (fst (fst r2)) (snd (fst r2)))) = fst (fst r)
  /\ snd (fst (toggleSaved_click (fst (fst r2)) (snd (fst r2)))) = snd (fst r)
  /\ (forall w, savedPane (view w) = Some (snd (fst r)) ->
        toggleSaved_expanded (view w) = fst (fst r) ->
        JsMap.values (saved (st w)) <> [] ->
        exists els', savedPane (view (renderSaved w)) = Some els'
          /\ savedListEl_hidden els' = savedListEl_hidden (snd (fst r))).
Proof.
  cbv zeta. unfold toggleSaved_click. simpl.
  assert (Hrender : forall (w : world) (e : option string) (h : bool) (p : savedEls),
            savedPane (view w) = Some p ->
            toggleSaved_expanded (view w) = e ->
            JsMap.values (saved (st w)) <> [] ->
            h = negb (bool_decide (e = Some "true")) ->
            exists els', savedPane (view (renderSaved w)) = Some els'
              /\ savedListEl_hidden els' = h).
  { intros w e h p Hp He Hv ->. unfold renderSaved. rewrite Hp.
    destruct (JsMap.values (saved (st w))); [contradiction|].
    eexists. split; [reflexivity|]. simpl. now rewrite He. }
  destruct (bool_decide (expanded = Some "true")) eqn:E; simpl.
  - apply bool_decide_eq_true in E.
    repeat apply conj;
      first [ reflexivity | discriminate | now right
            | intros H; now elim H
            | intros w Hp He Hv; now apply (Hrender w _ _ _ Hp He Hv) ].
  - apply bool_decide_eq_false in E.
    repeat apply conj;
      first [ reflexivity | discriminate | now left
            | intros _; exact E
            | intros w Hp He Hv; now apply (Hrender w _ _ _ Hp He Hv) ].
Qed.

(** ** The witness finder: a search from submit to timer *)






End WitnessFinderMore.

(** *** The statements above, at concrete pages *)

Lemma searched_reachable :
  WitnessFinder.reachable WitnessFinder.integerToString
      JsString.toLowerCaseAscii Examples.typeErrorMessage Examples.searched.
Proof.
  unfold Examples.searched.
  repeat apply WitnessFinder.reachable_step.
  apply WitnessFinder.reachable_init. repeat split.
Qed.

Lemma searching_reachable :
  WitnessFinder.reachable WitnessFinder.integerToString
      JsString.toLowerCaseAscii Examples.typeErrorMessage Examples.searching.
Proof.
  unfold Examples.searching, Examples.ready.
  repeat apply WitnessFinder.reachable_step.
  apply WitnessFinder.reachable_init. repeat split.
Qed.

Lemma search_request_once_witness :
  WitnessFinder.loading (WitnessFinder.st Examples.ready) = false
  /\ is_Some (WitnessFinder.loadingEl (WitnessFinder.top Examples.ready))
  /\ JsString.trim (WitnessFinder.industry (WitnessFinder.fields Examples.ready))
     <> EmptyString
  /\ JsString.trim (WitnessFinder.description (WitnessFinder.fields Examples.ready))
     <> EmptyString
  /\ WitnessFinder.sent
       (WitnessFinder.env (WitnessFinder.onSubmit_begin Examples.ready))
     = [WitnessFinder.GetSaved;
        WitnessFinder.PostSearch "pharma" "dose study" None 8].
Proof.
  assert (H1 : WitnessFinder.loading (WitnessFinder.st Examples.ready) = false)
    by reflexivity.
  assert (H2 : is_Some (WitnessFinder.loadingEl (WitnessFinder.top Examples.ready)))
    by (eexists; reflexivity).
  assert (H3 : JsString.trim
                 (WitnessFinder.industry (WitnessFinder.fields Examples.ready))
               <> EmptyString) by (vm_compute; discriminate).
  assert (H4 : JsString.trim
                 (WitnessFinder.description (WitnessFinder.fields Examples.ready))
               <> EmptyString) by (vm_compute; discriminate).
  repeat apply conj; try assumption.
  exact (proj1 (search_request_once Examples.ready H1 H2 H3 H4)).
Defined.

Lemma search_guard_needs_loading_panel_witness :
  WitnessFinder.loading (WitnessFinder.st Examples.readyWithoutLoadingEl) = false
  /\ WitnessFinder.loadingEl (WitnessFinder.top Examples.readyWithoutLoadingEl) = None
  /\ exists request,
       WitnessFinder.sent
         (WitnessFinder.env
            (WitnessFinder.onSubmit_begin
               (WitnessFinder.onSubmit_begin Examples.readyWithoutLoadingEl)))
       = [WitnessFinder.GetSaved; request; request].
Proof.
  assert (H3 : JsString.trim
                 (WitnessFinder.industry
                    (WitnessFinder.fields Examples.readyWithoutLoadingEl))
               <> EmptyString) by (vm_compute; discriminate).
  assert (H4 : JsString.trim
                 (WitnessFinder.description
                    (WitnessFinder.fields Examples.readyWithoutLoadingEl))
               <> EmptyString) by (vm_compute; discriminate).
  repeat apply conj; try reflexivity.
  destruct (search_guard_needs_loading_panel Examples.readyWithoutLoadingEl
              eq_refl eq_refl H3 H4) as (request & _ & _ & _ & _ & _ & H).
  exists request. exact H.
Defined.

Lemma filtered_view_follows_filter_events_witness :
  WitnessFinder.reachable WitnessFinder.integerToString
    JsString.toLowerCaseAscii Examples.typeErrorMessage Examples.searched
  /\ sublist (WitnessFinder.filtered (WitnessFinder.st Examples.searched))
       (WitnessFinder.results (WitnessFinder.st Examples.searched)).
Proof.
  split; [exact searched_reachable|].
  exact (proj1 (proj1 (filtered_view_follows_filter_events
                         WitnessFinder.integerToString JsString.toLowerCaseAscii
                         Examples.typeErrorMessage)
                  Examples.searched searched_reachable)).
Defined.

Lemma searches_never_overlap_witness :
  WitnessFinder.reachable WitnessFinder.integerToString
      JsString.toLowerCaseAscii Examples.typeErrorMessage Examples.searching
  /\ is_Some (WitnessFinder.loadingEl (WitnessFinder.top Examples.searching))
  /\ (WitnessFinder.searchesInFlight Examples.searching <= 1)%nat.
Proof.
  assert (H2 : is_Some (WitnessFinder.loadingEl (WitnessFinder.top Examples.searching)))
    by (eexists; reflexivity).
  split; [exact searching_reachable|]. split; [exact H2|].
  exact (proj2 (searches_never_overlap WitnessFinder.integerToString
      JsString.toLowerCaseAscii Examples.typeErrorMessage
                  Examples.searching searching_reachable H2)).
Defined.

Lemma tighter_filters_narrow_the_view_witness :
  (default 0 (WitnessFinder.filterSimilarity Examples.noFilters)
   <= default 0 (WitnessFinder.filterSimilarity Examples.atLeast50))%Q
  /\ (default 0 (WitnessFinder.filterExperience Examples.noFilters)
      <= default 0 (WitnessFinder.filterExperience Examples.atLeast50))%Q
  /\ sublist
       (WitnessFinder.filtered
          (WitnessFinder.st
             (WitnessFinder.applyFilters WitnessFinder.integerToString
                JsString.toLowerCaseAscii
                (WitnessFinder.set_inputs Examples.atLeast50 Examples.searched))))
       (WitnessFinder.filtered
          (WitnessFinder.st
             (WitnessFinder.applyFilters WitnessFinder.integerToString
                JsString.toLowerCaseAscii
                (WitnessFinder.set_inputs Examples.noFilters Examples.searched)))).
Proof.
  assert (H1 : (default 0 (WitnessFinder.filterSimilarity Examples.noFilters)
                <= default 0 (WitnessFinder.filterSimilarity Examples.atLeast50))%Q)
    by (vm_compute; discriminate).
  assert (H2 : (default 0 (WitnessFinder.filterExperience Examples.noFilters)
                <= default 0 (WitnessFinder.filterExperience Examples.atLeast50))%Q)
    by (vm_compute; discriminate).
  assert (H3 : JsString.contains EmptyString EmptyString).
  { exists EmptyString, EmptyString. reflexivity. }
  repeat apply conj; try assumption.
  exact (tighter_filters_narrow_the_view WitnessFinder.integerToString
      JsString.toLowerCaseAscii
           Examples.searched Examples.noFilters Examples.atLeast50 H1 H2 H3 H3).
Defined.

Lemma null_reply_saves_and_reports_failure_witness :
  WitnessFinder.toastContainer (WitnessFinder.view Examples.clicked) = Some []
  /\ JsMap.get (Some "a")
       (WitnessFinder.saved
          (WitnessFinder.st
             (WitnessFinder.handleSave_resume Examples.alice (Some 0)
                (WitnessFinder.Response true
                   (WitnessFinder.Json WitnessFinder.JsonNull))
                Examples.clicked)))
     = Some Examples.alice
  /\ WitnessFinder.toastContainer
       (WitnessFinder.view
          (WitnessFinder.handleSave_resume Examples.alice (Some 0)
             (WitnessFinder.Response true
                (WitnessFinder.Json WitnessFinder.JsonNull))
             Examples.clicked))
     = Some ["Unable to save candidate."].
Proof.
  assert (H : WitnessFinder.toastContainer (WitnessFinder.view Examples.clicked)
              = Some []) by (vm_compute; reflexivity).
  destruct (null_reply_saves_and_reports_failure Examples.alice (Some 0)
              Examples.clicked [] H) as (_ & Hget & Htoast & _).
  repeat apply conj; [exact H | exact Hget | exact Htoast].
Defined.

Lemma cards_follow_the_view_witness :
  is_Some (WitnessFinder.resultsEl (WitnessFinder.view Examples.searched))
  /\ length <$> WitnessFinder.resultsEl
                  (WitnessFinder.view
                     (WitnessFinder.applyFilters WitnessFinder.integerToString
                         JsString.toLowerCaseAscii
                        Examples.searched))
     = Some (length (WitnessFinder.filtered
                       (WitnessFinder.st
                          (WitnessFinder.applyFilters
                              WitnessFinder.integerToString
                              JsString.toLowerCaseAscii
                             Examples.searched)))).
Proof.
  assert (H : exists cards0,
            WitnessFinder.resultsEl (WitnessFinder.view Examples.searched)
            = Some cards0) by (eexists; vm_compute; reflexivity).
  split; [exact H|]. destruct H as [cards0 H].
  destruct (cards_follow_the_view WitnessFinder.integerToString
      JsString.toLowerCaseAscii Examples.searched
              cards0 H) as (cards & Hc & Hlen & _).
  rewrite Hc. simpl. f_equal. exact Hlen.
Defined.


(** ** The witness finder: the saved list *)

Section SavedList.
Import JsString WitnessFinder.

(** X26. The saved list follows the cache.  After [renderSaved] there is
    one card per cached candidate, in the order of the cache, titled with
    the candidate's name; the empty notice is shown exactly when the cache
    is empty, and then the list is hidden whatever the toggle says.  A
    click on the Remove button of a card sends one delete request, for the
    id of the candidate stored there, and changes nothing else until the
    answer arrives; a click beside the cards sends nothing. *)
Theorem saved_cards_follow_the_cache (w : world) (els : savedEls) :
  savedPane (view w) = Some els ->
  exists els',
    savedPane (view (renderSaved w)) = Some els'
    /\ length (savedListEl els') = length (saved (st w))
    /\ (savedEmptyEl_hidden els' = false <-> saved (st w) = [])
    /\ (saved (st w) = [] -> savedListEl_hidden els' = true)
    /\ (forall i k c, saved (st w) !! i = Some (k, c) ->
          exists card,
            savedListEl els' !! i = Some card
            /\ saved_title card = name c
            /\ clickRemove i (renderSaved w)
               = handleDelete_begin (id c) (renderSaved w)
            /\ sent (env (clickRemove i (renderSaved w)))
               = sent (env w) ++ [DeleteSaved (id c)]
            /\ st (clickRemove i (renderSaved w)) = st w
            /\ view (clickRemove i (renderSaved w)) = view (renderSaved w))
    /\ (forall i, (length (saved (st w)) <= i)%nat ->
          clickRemove i (renderSaved w) = renderSaved w).
Proof.
  intros Hp. unfold renderSaved. rewrite Hp. unfold JsMap.values.
  destruct (saved (st w)) as [|[k0 c0] m] eqn:Em; simpl.
  - eexists. split; [reflexivity|]. simpl.
    repeat apply conj;
      first [ reflexivity
            | intros i k c H; discriminate
            | intros i _; unfold clickRemove; simpl; now destruct i ].
  - set (cards := renderSavedCard <$> (snd <$> ((k0, c0) :: m))).
    set (els' := {| savedListEl := cards;
                    savedListEl_hidden :=
                      negb (bool_decide (toggleSaved_expanded (view w) = Some "true"));
                    savedEmptyEl_hidden := true |}).
    set (w' := on_view (set_savedPane (Some els')) w).
    assert (Hlen : length cards = S (length m))
      by (subst cards; now rewrite !length_fmap).
    assert (Hclick : forall i, clickRemove i w'
                               = match cards !! i with
                                 | Some sc => handleDelete_begin (removeBtn sc) w'
                                 | None => w'
                                 end) by reflexivity.
    exists els'. split; [reflexivity|].
    split; [exact Hlen|]. split; [split; discriminate|].
    split; [discriminate|]. split.
    + intros i k c Hi.
      assert (Hcard : cards !! i = Some (renderSavedCard c)).
      { subst cards. now rewrite !list_lookup_fmap, Hi. }
      exists (renderSavedCard c). rewrite Hclick, Hcard.
      repeat apply conj; first [exact Hcard | reflexivity].
    + intros i Hi. rewrite Hclick.
      rewrite (proj2 (lookup_ge_None cards i)); [reflexivity|].
      rewrite Hlen. exact Hi.
Qed.

End SavedList.

Lemma saved_cards_follow_the_cache_witness :
  is_Some (WitnessFinder.savedPane (WitnessFinder.view Examples.aliceSaved))
  /\ exists els',
       WitnessFinder.savedPane
         (WitnessFinder.view (WitnessFinder.renderSaved Examples.aliceSaved))
       = Some els'
       /\ length (WitnessFinder.savedListEl els') = 1%nat.
Proof.
  assert (H : exists els,
            WitnessFinder.savedPane (WitnessFinder.view Examples.aliceSaved)
            = Some els) by (eexists; vm_compute; reflexivity).
  split; [exact H|]. destruct H as [els H].
  destruct (saved_cards_follow_the_cache Examples.aliceSaved els H)
    as (els' & H1 & H2 & _).
  exists els'. split; [exact H1|]. exact H2.
Defined.

(** ** The shared script: copy and download buttons *)

Section Buttons.
Import JsString AppButtons.

Lemma flashButtonState_present (message : string) (b : button)
    (ts : list string) (log : list string) :
  flashButtonState message {| btn := Some b; timers := ts; console := log |}
  = {| btn := Some {| textContent := message; disabled := true |};
       timers := ts ++ [textContent b]; console := log |}.
Proof. reflexivity. Qed.

(** X27. The copy button.  Copying writes the text of the target, a
    control's value or else the element's text content, with surrounding
    white space trimmed, and nothing without a target (the empty id names
    none); the download button offers the same text untrimmed.  When the write
        settles the button is
    disabled and labelled "Copied", or "Copy failed" with the error
    logged.  When the timer then fires, the label the button had before is
    back and the button is enabled, even if it was disabled before.  When
    two copies settle before the first timer fires, the second flash takes
    the first flash's label for the original: after both timers the button
    shows that label, not the original one. *)
Theorem copy_button_flash (doc : list (string * target)) (targetId : string)
    (b : button) (log : list string) (e1 e2 : option string) :
  let s := {| btn := Some b; timers := []; console := log |} in
  let label (e : option string) :=
    match e with None => "Copied" | Some _ => "Copy failed" end in
  (forall filename,
     copyToClipboard_begin doc targetId
     = (fun file => trim (snd file)) <$> downloadContent doc targetId filename)
  /\ (getElementById doc targetId = None ->
      copyToClipboard_begin doc targetId = None)
  /\ copyToClipboard_begin doc EmptyString = None
  /\ btn (copyToClipboard_resume e1 s)
     = Some {| textContent := label e1; disabled := true |}
  /\ (console (copyToClipboard_resume e1 s) = log <-> e1 = None)
  /\ timeout (copyToClipboard_resume e1 s)
     = {| btn := Some {| textContent := textContent b; disabled := false |};
          timers := [];
          console := console (copyToClipboard_resume e1 s) |}
  /\ btn (timeout (timeout (copyToClipboard_resume e2 (copyToClipboard_resume e1 s))))
     = Some {| textContent := label e1; disabled := false |}
  /\ timers (timeout (timeout (copyToClipboard_resume e2
                                 (copyToClipboard_resume e1 s)))) = []
  /\ (forall s0, btn s0 = None ->
        btn (copyToClipboard_resume e1 s0) = None
        /\ timers (copyToClipboard_resume e1 s0) = timers s0).
Proof.
  cbv zeta. repeat apply conj.
  - intros filename. unfold copyToClipboard_begin, downloadContent.
    now destruct (getElementById doc targetId).
  - intros H. unfold copyToClipboard_begin. now rewrite H.
  - reflexivity.
  - now destruct e1.
  - destruct e1 as [e|]; simpl; [|reflexivity].
    intros H. exfalso. apply (f_equal (@length string)) in H.
    rewrite length_app in H. simpl in H. lia.
  - now intros ->.
  - now destruct e1.
  - now destruct e1, e2.
  - now destruct e1, e2.
  - intros s0 H0. unfold copyToClipboard_resume, flashButtonState.
    destruct e1; simpl; rewrite H0; now split.
Qed.

(** X28. A download button offers at most one file per click, and none
    when it names no target or the target is not on the page.  The file is
    named after the button's [data-download], or "download.txt" when that
    is empty, and holds the target's text as it is: what is downloaded and
    then trimmed is what the copy button would have written. *)
Theorem download_offers_the_target (doc : list (string * target))
    (dataset_download : string) (dataset_downloadTarget : option string) :
  (forall name text,
     downloadClick doc dataset_download dataset_downloadTarget = Some (name, text) ->
     name <> EmptyString
     /\ (dataset_download <> EmptyString -> name = dataset_download)
     /\ (dataset_download = EmptyString -> name = "download.txt")
     /\ exists targetId t,
          dataset_downloadTarget = Some targetId /\ targetId <> EmptyString
          /\ getElementById doc targetId = Some t /\ text = textOf t
          /\ copyToClipboard_begin doc targetId = Some (trim text))
  /\ (downloadClick doc dataset_download dataset_downloadTarget = None
      <-> dataset_downloadTarget = None
          \/ dataset_downloadTarget = Some EmptyString
          \/ exists targetId, dataset_downloadTarget = Some targetId
               /\ getElementById doc targetId = None).
Proof.
  unfold downloadClick, downloadContent, copyToClipboard_begin. split.
  - intros name text H.
    destruct dataset_downloadTarget as [t|]; [|discriminate].
    destruct t as [|a t]; [discriminate|]. simpl in H.
    destruct (getElementById doc (String a t)) as [el|] eqn:E; [|discriminate].
    injection H as <- <-.
    repeat apply conj.
    + destruct dataset_download; discriminate.
    + destruct dataset_download; [congruence | reflexivity].
    + now intros ->.
    + exists (String a t), el. rewrite E. repeat split. discriminate.
  - destruct dataset_downloadTarget as [t|]; [|split; [now left | reflexivity]].
    destruct t as [|a t]; [split; [right; now left | reflexivity]|]. simpl.
    destruct (getElementById doc (String a t)) as [el|] eqn:E; split.
    + discriminate.
    + intros [H|[H|(x & H & Hx)]]; try discriminate.
      injection H as <-. congruence.
    + intros _. right. right. now exists (String a t).
    + reflexivity.
Qed.

End Buttons.

(** ** White space beyond ASCII *)

(** A field that holds only a no-break space is blank: the witness search
    is refused with the message for required fields and sends nothing, the
    issue-spotter form is not valid, a sector filter of that kind rejects
    nothing, and the copy button strips it. *)
Example no_break_space_is_blank :
  JsString.trim Examples.nbsp = EmptyString
  /\ WitnessFinder.sent
       (WitnessFinder.env (WitnessFinder.onSubmit_begin Examples.nbspIndustry))
     = WitnessFinder.sent (WitnessFinder.env Examples.nbspIndustry)
  /\ WitnessFinder.errorEl
       (WitnessFinder.top (WitnessFinder.onSubmit_begin Examples.nbspIndustry))
     = Some {| WitnessFinder.err_textContent :=
                 "Industry and description are required.";
               WitnessFinder.err_hidden := false |}
  /\ IssueSpotterPage.valid
       {| IssueSpotter.fileInput_files := ["brief.pdf"];
          IssueSpotter.textInput_value := EmptyString;
          IssueSpotter.instructionsInput_value := Examples.nbsp;
          IssueSpotter.styleSelect_value := EmptyString;
          IssueSpotter.returnJsonToggle_checked := false;
          IssueSpotter.errorEl := None;
          IssueSpotter.statusEl := None;
          IssueSpotter.submitBtn_disabled := false;
          IssueSpotter.focused := None;
          IssueSpotter.sent := [] |} = false
  /\ WitnessFinder.filtered
       (WitnessFinder.st
          (WitnessFinder.applyFilters WitnessFinder.integerToString
             JsString.toLowerCaseAscii
             (WitnessFinder.set_inputs
                {| WitnessFinder.filterSimilarity := Some 0%Q;
                   WitnessFinder.filterExperience := Some 0%Q;
                   WitnessFinder.filterSector := Examples.nbsp;
                   WitnessFinder.filterLocation := EmptyString |}
                Examples.searched)))
     = [Examples.alice; Examples.bob]
  /\ AppButtons.copyToClipboard_begin
       [("out", AppButtons.Element ("hi" +:+ Examples.nbsp))] "out"
     = Some "hi".
Proof. repeat apply conj; vm_compute; reflexivity. Qed.
